(** * Ethash proof-of-work front end (ethash.go): epoch arithmetic, cache and
    DAG life cycle, mining search and light verification.

    The Go code is embedded shallowly.  Unsigned 64-bit integers are [Z]
    with the wrap-around written out, byte slices are [list byte] (a
    nil-able slice is an [option]), the [Ethash] object, the chain head and
    the file [/tmp/dag] form one explicit [World], and every method is a
    function from a world to an [outcome]: a normal return, a run-time
    panic, a thread blocked on a mutex that is held, a search loop that
    has not ended within its fuel, or a fault in [C.free].  The cache and
    the DAG carry the state of the memory block they point to ([malloc]
    block, Go memory, freed), which is what [C.free] in [updateDAG] and
    [Stop] depends on.  The C library (libethash) and the chain manager
    are not part of the Go file; they are the classes [Libethash] and
    [ChainManager]. *)

From Stdlib Require Import ZArith List Bool Lia.
From Stdlib.Strings Require Import Byte.
Import ListNotations.
Open Scope Z_scope.

(** ** Machine integers and byte strings *)

Definition wrap64 (z : Z) : Z := z mod 2 ^ 64.

(** [C.uint32_t(x)] *)
Definition wrap32 (z : Z) : Z := z mod 2 ^ 32.

(** [C.int(x)]: conversion to a signed 32-bit integer. *)
Definition to_int32 (z : Z) : Z := (z + 2 ^ 31) mod 2 ^ 32 - 2 ^ 31.

Definition byte_to_Z (b : byte) : Z := Z.of_N (Byte.to_N b).

Definition byte_of_Z (z : Z) : byte :=
  match Byte.of_N (Z.to_N (z mod 256)) with
  | Some b => b
  | None => x00
  end.

(** [big.Int.SetBytes], hence [ethutil.Bytes2Big]: the slice read as a
    big-endian unsigned integer. *)
Definition Bytes2Big (bs : list byte) : Z :=
  fold_left (fun acc b => acc * 256 + byte_to_Z b) bs 0.

(** [binary.BigEndian.PutUint64] into a fresh 8-byte slice. *)
Definition PutUint64 (v : Z) : list byte :=
  map (fun k => byte_of_Z (Z.shiftr v (8 * k))) [7; 6; 5; 4; 3; 2; 1; 0].

(** [bytes.Compare(a, b) != 0] is inequality of contents. *)
Definition bytes_eqb (a b : list byte) : bool :=
  if list_eq_dec Byte.byte_eq_dec a b then true else false.

(** ** Epoch arithmetic *)

Definition epochLength : Z := 30000.

(** [GetSeedBlockNum]; the argument is a [uint64], and so is every
    intermediate value. *)
Definition GetSeedBlockNum (blockNum : Z) : Z :=
  if blockNum >? epochLength
  then wrap64 (wrap64 (blockNum - 1) / epochLength * epochLength)
  else 0.

Definition is_uint64 (z : Z) : Prop := 0 <= z < 2 ^ 64.

(** ** Nonces in varint encoding *)

(** [x << s] on [uint64]: the bits shifted out are lost. *)
Definition shl64 (x s : Z) : Z := wrap64 (Z.shiftl x s).

(** [binary.ReadUvarint] (package encoding/binary) reading the bytes [bs]:
    the loop from its iteration [i], with the accumulator [x] and the shift
    [s].  The result is the value returned and whether the error returned
    is non-nil (end of input, or overflow of 64 bits). *)
Fixpoint ReadUvarint (bs : list byte) (i : nat) (x s : Z) : Z * bool :=
  match bs with
  | [] => (x, true)
  | b :: rest =>
      let v := byte_to_Z b in
      if v <? 128
      then
        if ((9 <? i)%nat || ((i =? 9)%nat && (1 <? v)))%bool
        then (x, true)
        else (Z.lor x (shl64 v s), false)
      else ReadUvarint rest (S i) (Z.lor x (shl64 (Z.land v 127) s)) (s + 7)
  end.

(** [parseNonce]: the value and whether [err != nil]. *)
Definition parseNonce (nonce : list byte) : Z * bool :=
  let (nonceInt, err) := ReadUvarint nonce 0 0 0 in
  if err then (0, true) else (nonceInt, false).

(** The number a byte string denotes in base 128, least significant byte
    first, each byte counted without its top bit. *)
Fixpoint uvarint_value (bs : list byte) : Z :=
  match bs with
  | [] => 0
  | b :: rest => byte_to_Z b mod 128 + 128 * uvarint_value rest
  end.

(** A byte with its top bit set: the varint goes on. *)
Definition continues (b : byte) : Prop := 128 <= byte_to_Z b.

(** ** Data of the Go file *)

(** [C.ethash_params]: the two sizes the Go code reads. *)
Record ethash_params : Type := mk_params {
  full_size : Z;
  cache_size : Z }.

(** What the C allocator knows about the block a pointer points to: a
    live block obtained from [malloc], memory that [malloc] never returned
    (here: the backing array of a Go slice), or a block given back by
    [free] earlier.  Only [free] looks at this state: what libethash reads
    through a pointer is not checked against it. *)
Inductive block : Type := Malloced | GoMemory | Freed.

(** [C.ethash_cache]: [mem] is the allocated region, [mem_block] the state
    of its block. *)
Record ethash_cache : Type := mk_cache {
  mem : list byte;
  mem_block : block }.

(** [C.ethash_return_value]: two arrays of 32 bytes. *)
Record ethash_return_value : Type := mk_ret {
  result : list byte;
  mix_hash : list byte }.

(** [dag] is an [unsafe.Pointer]: [DAG_dag] is the region it points to,
    [DAG_block] the state of that block. *)
Record DAG : Type := mk_DAG {
  DAG_SeedBlockNum : Z;
  DAG_dag : list byte;
  DAG_block : block }.

Record ParamsAndCache : Type := mk_PAC {
  PAC_params : ethash_params;
  PAC_cache : ethash_cache;
  PAC_SeedBlockNum : Z }.

(** The [Ethash] object.  A mutex is the flag "locked"; [chainManager] is
    the [ChainManager] instance in scope, [nextdag] is never used. *)
Record Ethash : Type := mk_Ethash {
  turbo : bool;
  HashRate : Z;
  dag : option DAG;
  paramsAndCache : ParamsAndCache;
  ret : ethash_return_value;
  dagMutex : bool;
  cacheMutex : bool }.

(** What the methods of [pow.Block] return. *)
Record Block : Type := mk_Block {
  HashNoNonce : list byte;
  Difficulty : Z;
  NumberU64 : Z;
  SeedHash : list byte;
  MixDigest : list byte;
  Nonce : Z }.

Inductive mutex : Type := CacheMutex | DagMutex.

Inductive cfun : Type :=
| c_params_init | c_mkcache | c_compute_full_data | c_full | c_light.

(** What an instrumented run observes: mutex operations, calls into
    libethash, and writes of [/tmp/dag]. *)
Inductive event : Type :=
| ELock (m : mutex)
| EUnlock (m : mutex)
| ECall (f : cfun)
| EWrite.

(** The store the methods act on.  [chain_head] is
    [chainManager.CurrentBlock().NumberU64()], [disk] the contents of
    [/tmp/dag] when the file exists, [slack] the unused tail of the buffer
    [ioutil.ReadAll] returns (its capacity beyond its length). *)
Record World : Type := mk_World {
  chain_head : Z;
  disk : option (list byte);
  slack : list byte;
  pow : Ethash;
  trace : list event }.

Definition set_pow (w : World) (e : Ethash) : World :=
  mk_World (chain_head w) (disk w) (slack w) e (trace w).

Definition set_disk (w : World) (d : option (list byte)) : World :=
  mk_World (chain_head w) d (slack w) (pow w) (trace w).

Definition emit (w : World) (e : event) : World :=
  mk_World (chain_head w) (disk w) (slack w) (pow w) (trace w ++ [e]).

Definition set_HashRate (e : Ethash) (r : Z) : Ethash :=
  mk_Ethash (turbo e) r (dag e) (paramsAndCache e) (ret e) (dagMutex e) (cacheMutex e).

Definition set_dag (e : Ethash) (d : option DAG) : Ethash :=
  mk_Ethash (turbo e) (HashRate e) d (paramsAndCache e) (ret e) (dagMutex e) (cacheMutex e).

Definition set_paramsAndCache (e : Ethash) (p : ParamsAndCache) : Ethash :=
  mk_Ethash (turbo e) (HashRate e) (dag e) p (ret e) (dagMutex e) (cacheMutex e).

Definition set_ret (e : Ethash) (r : ethash_return_value) : Ethash :=
  mk_Ethash (turbo e) (HashRate e) (dag e) (paramsAndCache e) r (dagMutex e) (cacheMutex e).

Definition set_turbo (e : Ethash) (b : bool) : Ethash :=
  mk_Ethash b (HashRate e) (dag e) (paramsAndCache e) (ret e) (dagMutex e) (cacheMutex e).

Definition held (e : Ethash) (m : mutex) : bool :=
  match m with CacheMutex => cacheMutex e | DagMutex => dagMutex e end.

Definition set_held (e : Ethash) (m : mutex) (b : bool) : Ethash :=
  match m with
  | CacheMutex =>
      mk_Ethash (turbo e) (HashRate e) (dag e) (paramsAndCache e) (ret e) (dagMutex e) b
  | DagMutex =>
      mk_Ethash (turbo e) (HashRate e) (dag e) (paramsAndCache e) (ret e) b (cacheMutex e)
  end.

(** ** Outcomes and the monad of methods *)

(** [Ret]: the call returned.  [Panic]: a run-time panic unwound it.
    [Blocked]: the calling thread waits on a mutex that is locked (for
    ever, when no other thread runs).  [Spinning]: the search loop is still
    running after the iterations the fuel allowed.  [Fault]: [free] was
    handed a pointer that is not a live [malloc] block, which C leaves
    undefined (the allocator usually aborts the process); no deferred call
    runs and nothing is known of what follows. *)
Inductive outcome (A : Type) : Type :=
| Ret (a : A) (w : World)
| Panic (w : World)
| Blocked (w : World)
| Spinning (w : World)
| Fault (w : World).

Arguments Ret {A} a w.
Arguments Panic {A} w.
Arguments Blocked {A} w.
Arguments Spinning {A} w.
Arguments Fault {A} w.

Definition M (A : Type) : Type := World -> outcome A.

Definition ret_ {A : Type} (a : A) : M A := fun w => Ret a w.

Definition bind {A B : Type} (m : M A) (k : A -> M B) : M B :=
  fun w =>
    match m w with
    | Ret a w' => k a w'
    | Panic w' => Panic w'
    | Blocked w' => Blocked w'
    | Spinning w' => Spinning w'
    | Fault w' => Fault w'
    end.

Declare Scope go_scope.
Delimit Scope go_scope with go.
Notation "x <- m ;; k" := (bind m (fun x => k))
  (at level 100, m at next level, right associativity) : go_scope.
Notation "m ;; k" := (bind m (fun _ => k))
  (at level 100, right associativity) : go_scope.

Definition panic {A : Type} : M A := fun w => Panic w.

Definition get : M World := fun w => Ret w w.

Definition modify_pow (f : Ethash -> Ethash) : M unit :=
  fun w => Ret tt (set_pow w (f (pow w))).

Definition log (e : event) : M unit := fun w => Ret tt (emit w e).

(** A partial operation of the Go run time: [None] is a panic. *)
Definition lift {A : Type} (o : option A) : M A :=
  match o with Some a => ret_ a | None => panic end.

(** The world after the calling thread took, or gave back, a mutex. *)
Definition acquire (m : mutex) (w : World) : World :=
  emit (set_pow w (set_held (pow w) m true)) (ELock m).

Definition release (m : mutex) (w : World) : World :=
  emit (set_pow w (set_held (pow w) m false)) (EUnlock m).

(** [m.Lock()]: [sync.Mutex] is not reentrant. *)
Definition Lock (m : mutex) : M unit :=
  fun w => if held (pow w) m then Blocked w else Ret tt (acquire m w).

(** [m.Unlock()]: unlocking an unlocked mutex is a run-time error. *)
Definition Unlock (m : mutex) : M unit :=
  fun w => if held (pow w) m then Ret tt (release m w) else Panic w.

(** [defer cleanup()] followed by [body]: the deferred call runs when the
    body returns and when it panics. *)
Definition defer {A : Type} (cleanup : M unit) (body : M A) : M A :=
  fun w =>
    match body w with
    | Ret a w' =>
        match cleanup w' with
        | Ret _ w'' => Ret a w''
        | Panic w'' => Panic w''
        | Blocked w'' => Blocked w''
        | Spinning w'' => Spinning w''
        | Fault w'' => Fault w''
        end
    | Panic w' =>
        match cleanup w' with
        | Ret _ w'' => Panic w''
        | Panic w'' => Panic w''
        | Blocked w'' => Blocked w''
        | Spinning w'' => Spinning w''
        | Fault w'' => Fault w''
        end
    | Blocked w' => Blocked w'
    | Spinning w' => Spinning w'
    | Fault w' => Fault w'
    end.

(** [C.free(p)] on a pointer whose block is in state [b]: a live [malloc]
    block is given back; anything else is a fault. *)
Definition C_free (b : block) : M block :=
  fun w =>
    match b with
    | Malloced => Ret Freed w
    | GoMemory | Freed => Fault w
    end.

(** ** Go slices, C memory, big integers *)

(** A slice: its backing array from the slice's first element on, and its
    length; the capacity is the length of [s_arr]. *)
Record slice : Type := mk_slice {
  s_arr : list byte;
  s_len : nat }.

Definition elems (s : slice) : list byte := firstn (s_len s) (s_arr s).

(** [s[lo:hi]] needs [lo <= hi <= cap(s)]. *)
Definition reslice (s : slice) (lo hi : nat) : option slice :=
  if ((lo <=? hi)%nat && (hi <=? length (s_arr s))%nat)%bool
  then Some (mk_slice (skipn lo (s_arr s)) (hi - lo))
  else None.

(** [s[lo:]] is [s[lo:len(s)]]. *)
Definition reslice_from (s : slice) (lo : nat) : option slice :=
  reslice s lo (s_len s).

(** [&s[0]] needs a first element; the pointer gives access to the
    elements of the slice. *)
Definition addr0 (s : slice) : option (list byte) :=
  match s_len s with
  | O => None
  | S _ => Some (elems s)
  end.

(** [&b[0]] for a byte slice given by its elements. *)
Definition addr0_bytes (b : list byte) : option (list byte) :=
  match b with
  | [] => None
  | _ :: _ => Some b
  end.

(** [binary.BigEndian.Uint64(b)] reads [b[0]] to [b[7]]. *)
Definition Uint64 (s : slice) : option Z :=
  if (8 <=? s_len s)%nat then Some (Bytes2Big (firstn 8 (elems s))) else None.

(** [ioutil.ReadAll] on a file that holds [content]. *)
Definition ReadAll (content spare : list byte) : slice :=
  mk_slice (content ++ spare) (length content).

(** [C.malloc(n)]: a region of [n] bytes (allocation failure is not
    modelled; the contents are unspecified in C, zero here). *)
Definition malloc (n : Z) : list byte := repeat x00 (Z.to_nat n).

(** A C function writing [src] into the region [dst]: the region keeps its
    size. *)
Definition overwrite (dst src : list byte) : list byte :=
  firstn (length dst) (src ++ skipn (length src) dst).

(** [C.GoBytes(p, n)]: a negative length panics. *)
Definition GoBytes (region : list byte) (n : Z) : option (list byte) :=
  if n <? 0 then None else Some (firstn (Z.to_nat n) region).

(** [tt256 = new(big.Int).Exp(2, 256, 0)]: a zero modulus means none. *)
Definition tt256 : Z := 2 ^ 256.

(** [new(big.Int).Div(x, y)]: Euclidean division; a zero divisor panics. *)
Definition big_Div (x y : Z) : option Z :=
  if y =? 0 then None
  else
    let q := Z.quot x y in
    let r := Z.rem x y in
    Some (if r <? 0 then (if y <? 0 then q + 1 else q - 1) else q).

(** ** The collaborators outside the Go file *)

(** libethash, reached through cgo.  A function that fills a region
    returns the bytes it writes; one that fills [pow.ret] returns the
    struct. *)
Class Libethash : Type := {
  ethash_params_init : Z -> ethash_params;
  ethash_mkcache : ethash_params -> list byte -> list byte;
  ethash_compute_full_data : ethash_params -> ethash_cache -> list byte;
  ethash_full : list byte -> ethash_params -> list byte -> Z -> ethash_return_value;
  ethash_light : ethash_cache -> ethash_params -> list byte -> Z -> ethash_return_value }.

(** [pow.ChainManager]: [GetBlockByNumber_SeedHash n] is
    [chainManager.GetBlockByNumber(n).SeedHash()], a slice that may be nil
    ([None]).  The current block number is the [chain_head] of the world. *)
Class ChainManager : Type := {
  GetBlockByNumber_SeedHash : Z -> option (list byte) }.

(** The elements of a nil-able slice. *)
Definition contents (s : option (list byte)) : list byte :=
  match s with Some b => b | None => [] end.

(** What [Search] needs from its environment: the state of the [stop]
    channel at the poll of each loop iteration, the value of [r.Int63()],
    and the hash rate computed (in floating point, from the wall clock) in
    each iteration. *)
Record SearchEnv : Type := mk_SearchEnv {
  stop : nat -> bool;
  rand_Int63 : Z;
  sampled_rate : nat -> Z }.

(** The three results of [Search]; [None] is a nil slice. *)
Definition SearchResult : Type := (Z * option (list byte) * option (list byte))%type.

Section Methods.

Context {L : Libethash} {CM : ChainManager}.

Local Open Scope go_scope.

Definition makeParamsAndCache (blockNum : Z) : M ParamsAndCache :=
  let seedBlockNum := GetSeedBlockNum blockNum in
  log (ECall c_params_init);;
  let p := ethash_params_init (wrap32 seedBlockNum) in
  let m := malloc (cache_size p) in
  seedHash <- lift (addr0_bytes (contents (GetBlockByNumber_SeedHash seedBlockNum)));;
  log (ECall c_mkcache);;
  ret_ (mk_PAC p (mk_cache (overwrite m (ethash_mkcache p seedHash)) Malloced)
          seedBlockNum).

Definition updateCache : M unit :=
  Lock CacheMutex;;
  w <- get;;
  let seedNum := GetSeedBlockNum (chain_head w) in
  (if PAC_SeedBlockNum (paramsAndCache (pow w)) =? seedNum
   then ret_ tt
   else
     p <- makeParamsAndCache (chain_head w);;
     modify_pow (fun e => set_paramsAndCache e p));;
  Unlock CacheMutex.

(** The DAG [makeDAG] returns for [p]: a region of [p.params.full_size]
    bytes filled by [ethash_compute_full_data], under the epoch of [p]. *)
Definition built_dag (p : ParamsAndCache) : DAG :=
  mk_DAG (PAC_SeedBlockNum p)
    (overwrite (malloc (full_size (PAC_params p)))
       (ethash_compute_full_data (PAC_params p) (PAC_cache p)))
    Malloced.

Definition makeDAG (p : ParamsAndCache) : M DAG :=
  log (ECall c_compute_full_data);;
  ret_ (built_dag p).

(** [os.Create] is taken to succeed; the results of [file.Write] are
    ignored by the code. *)
Definition writeDagToDisk (d : DAG) (seedNum : Z) : M unit :=
  w <- get;;
  data <- lift (GoBytes (DAG_dag d)
                  (to_int32 (full_size (PAC_params (paramsAndCache (pow w))))));;
  fun w' => Ret tt (emit (set_disk w' (Some (PutUint64 seedNum ++ data))) EWrite).

Definition dag_is_stale (e : Ethash) (seedNum : Z) : bool :=
  match dag e with
  | None => true
  | Some d => negb (DAG_SeedBlockNum d =? seedNum)
  end.

(** The two branches of [updateDAG] that build a DAG. *)
Definition regenerate (seedNum : Z) : M unit :=
  w <- get;;
  d <- makeDAG (paramsAndCache (pow w));;
  modify_pow (fun e => set_dag e (Some d));;
  writeDagToDisk d seedNum.

(** The body of [updateDAG] for a DAG that is missing or of another epoch,
    after [pow.dag = nil]: reuse the file or build anew.
    [ioutil.ReadAll] is taken to succeed. *)
Definition load_or_regenerate (seedNum : Z) : M unit :=
  w <- get;;
  match disk w with
  | None => regenerate seedNum
  | Some content =>
      let data := ReadAll content (slack w) in
      hdr <- lift (reslice data 0 8);;
      num <- lift (Uint64 hdr);;
      if num <? seedNum
      then regenerate seedNum
      else
        data' <- lift (reslice_from data 8);;
        p <- lift (addr0 data');;
        modify_pow (fun e =>
          set_dag e (Some (mk_DAG (PAC_SeedBlockNum (paramsAndCache e)) p GoMemory)))
  end.

(** [if pow.dag != nil && pow.dag.dag != nil { C.free(pow.dag.dag) }]: the
    pointer of a DAG that is held is never nil ([malloc] is taken to
    succeed, and [&data[0]] is not nil). *)
Definition free_held_dag (e : Ethash) : M unit :=
  match dag e with
  | Some d => _ <- C_free (DAG_block d);; ret_ tt
  | None => ret_ tt
  end.

Definition updateDAG : M unit :=
  Lock CacheMutex;;
  Lock DagMutex;;
  w <- get;;
  let seedNum := GetSeedBlockNum (chain_head w) in
  (if dag_is_stale (pow w) seedNum
   then
     free_held_dag (pow w);;
     modify_pow (fun e => set_dag e None);;
     load_or_regenerate seedNum
   else ret_ tt);;
  Unlock DagMutex;;
  Unlock CacheMutex.


(** The held DAG, if any, is a live [malloc] block: [C.free] accepts it. *)
Definition dag_freeable (e : Ethash) : Prop :=
  forall d, dag e = Some d -> DAG_block d = Malloced.

(** The world [regenerate] leaves when the file can be written. *)
Definition regenerated (seedNum : Z) (w : World) : World :=
  let p := paramsAndCache (pow w) in
  let d := built_dag p in
  let w1 := emit w (ECall c_compute_full_data) in
  let w2 := set_pow w1 (set_dag (pow w1) (Some d)) in
  emit (set_disk w2
          (Some (PutUint64 seedNum
                   ++ firstn (Z.to_nat (to_int32 (full_size (PAC_params p)))) (DAG_dag d))))
    EWrite.

(** The world in which the payload of the file has become the DAG. *)
Definition adopted (content : list byte) (w : World) : World :=
  set_pow w (set_dag (pow w)
    (Some (mk_DAG (PAC_SeedBlockNum (paramsAndCache (pow w))) (skipn 8 content)
             GoMemory))).

Definition zero_ret : ethash_return_value :=
  mk_ret (repeat x00 32) (repeat x00 32).

(** [New(chainManager)]: the object replaces [pow] in the world. *)
Definition New : M unit :=
  w <- get;;
  p <- makeParamsAndCache (chain_head w);;
  fun w' => Ret tt (set_pow w' (mk_Ethash true 0 None p zero_ret false false)).

Definition DAGSize (e : Ethash) : Z := wrap64 (full_size (PAC_params (paramsAndCache e))).

Definition CacheSize (e : Ethash) : Z := wrap64 (cache_size (PAC_params (paramsAndCache e))).

Definition GetSeedHash (blockNum : Z) : option (list byte) :=
  GetBlockByNumber_SeedHash (GetSeedBlockNum blockNum).

Definition set_cache_block (p : ParamsAndCache) (b : block) : ParamsAndCache :=
  mk_PAC (PAC_params p) (mk_cache (mem (PAC_cache p)) b) (PAC_SeedBlockNum p).

Definition set_dag_block (d : DAG) (b : block) : DAG :=
  mk_DAG (DAG_SeedBlockNum d) (DAG_dag d) b.

(** [Stop] frees the region of the cache and the DAG and keeps both
    pointers; [pow.paramsAndCache.cache] is never nil, and [pow.dag.dag]
    panics on a nil [pow.dag]. *)
Definition Stop : M unit :=
  Lock CacheMutex;;
  Lock DagMutex;;
  w <- get;;
  b <- C_free (mem_block (PAC_cache (paramsAndCache (pow w))));;
  modify_pow (fun e => set_paramsAndCache e (set_cache_block (paramsAndCache e) b));;
  d <- lift (dag (pow w));;
  b' <- C_free (DAG_block d);;
  modify_pow (fun e => set_dag e (Some (set_dag_block d b')));;
  Unlock DagMutex;;
  Unlock CacheMutex.

(** The loop of [Search] from its iteration [k] on.  [time.Sleep] is not
    modelled. *)
Fixpoint search_loop (env : SearchEnv) (block : Block) (cMiningHash : list byte)
  (target : Z) (fuel : nat) (k : nat) (nonce : Z) : M SearchResult :=
  match fuel with
  | O => fun w => Spinning w
  | S fuel' =>
      if stop env k
      then
        modify_pow (fun e => set_HashRate e 0);;
        ret_ (0, None, None)
      else
        modify_pow (fun e => set_HashRate e (sampled_rate env k));;
        w <- get;;
        d <- lift (dag (pow w));;
        log (ECall c_full);;
        let r := ethash_full (DAG_dag d) (PAC_params (paramsAndCache (pow w)))
                   cMiningHash nonce in
        modify_pow (fun e => set_ret e r);;
        if Bytes2Big (result r) <=? target
        then ret_ (nonce, Some (mix_hash r), GetSeedHash (NumberU64 block))
        else search_loop env block cMiningHash target fuel' (S k) (wrap64 (nonce + 1))
  end.

(** The world after the attempt of iteration [k], in which [ethash_full]
    filled [pow.ret] with [r]. *)
Definition after_attempt (env : SearchEnv) (k : nat) (r : ethash_return_value)
  (w : World) : World :=
  let w1 := set_pow w (set_HashRate (pow w) (sampled_rate env k)) in
  let w2 := emit w1 (ECall c_full) in
  set_pow w2 (set_ret (pow w2) r).

(** The nonce of the attempt made [i] iterations after the one that tried
    [nonce]. *)
Fixpoint nonce_at (nonce : Z) (i : nat) : Z :=
  match i with
  | O => nonce
  | S i' => nonce_at (wrap64 (nonce + 1)) i'
  end.

(** The digest [Search] compares with the target in such an attempt. *)
Definition attempt_digest (d : DAG) (p : ethash_params) (cMiningHash : list byte)
  (nonce : Z) (i : nat) : Z :=
  Bytes2Big (result (ethash_full (DAG_dag d) p cMiningHash (nonce_at nonce i))).

Definition Search (env : SearchEnv) (fuel : nat) (block : Block) : M SearchResult :=
  updateDAG;;
  Lock DagMutex;;
  Lock CacheMutex;;
  defer (Unlock CacheMutex) (defer (Unlock DagMutex) (
    let nonce := wrap64 (rand_Int63 env) in
    cMiningHash <- lift (addr0_bytes (HashNoNonce block));;
    target <- lift (big_Div tt256 (Difficulty block));;
    search_loop env block cMiningHash target fuel 0%nat nonce)).

(** What [Search] runs under its two deferred unlocks. *)
Definition Search_body (env : SearchEnv) (fuel : nat) (block : Block) : M SearchResult :=
  cMiningHash <- lift (addr0_bytes (HashNoNonce block));;
  target <- lift (big_Div tt256 (Difficulty block));;
  search_loop env block cMiningHash target fuel 0%nat (wrap64 (rand_Int63 env)).

(** The call of [ethash_light] and the comparison that end [verify]. *)
Definition light_check (pAc : ParamsAndCache) (chash : list byte) (cnonce target : Z) : M bool :=
  log (ECall c_light);;
  let r := ethash_light (PAC_cache pAc) (PAC_params pAc) chash cnonce in
  modify_pow (fun e => set_ret e r);;
  ret_ (Bytes2Big (result r) <=? target).

Definition verify (hash mixDigest : list byte) (difficulty blockNum nonce : Z) : M bool :=
  chash <- lift (addr0_bytes hash);;
  target <- lift (big_Div tt256 difficulty);;
  w <- get;;
  if GetSeedBlockNum blockNum <? PAC_SeedBlockNum (paramsAndCache (pow w))
  then
    pAc <- makeParamsAndCache blockNum;;
    light_check pAc chash nonce target
  else
    updateCache;;
    Lock CacheMutex;;
    defer (Unlock CacheMutex) (
      w' <- get;;
      light_check (paramsAndCache (pow w')) chash nonce target).

Definition Verify (block : Block) : M bool :=
  if negb (bytes_eqb (SeedHash block) (contents (GetSeedHash (NumberU64 block))))
  then ret_ false
  else verify (HashNoNonce block) (MixDigest block) (Difficulty block)
         (NumberU64 block) (Nonce block).

Definition GetHashrate (e : Ethash) : Z := HashRate e.

Definition Turbo (on : bool) : M unit := modify_pow (fun e => set_turbo e on).

Definition FullHash (nonce : Z) (miningHash : list byte) : M (list byte) :=
  updateDAG;;
  Lock DagMutex;;
  defer (Unlock DagMutex) (
    cMiningHash <- lift (addr0_bytes miningHash);;
    w <- get;;
    d <- lift (dag (pow w));;
    log (ECall c_full);;
    let r := ethash_full (DAG_dag d) (PAC_params (paramsAndCache (pow w)))
               cMiningHash nonce in
    modify_pow (fun e => set_ret e r);;
    ret_ (result r)).

Definition LightHash (nonce : Z) (miningHash : list byte) : M (list byte) :=
  cMiningHash <- lift (addr0_bytes miningHash);;
  w <- get;;
  log (ECall c_light);;
  let r := ethash_light (PAC_cache (paramsAndCache (pow w)))
             (PAC_params (paramsAndCache (pow w))) cMiningHash nonce in
  modify_pow (fun e => set_ret e r);;
  ret_ (result r).

End Methods.

(** ** Observations on traces and states *)

Definition cfun_eqb (f g : cfun) : bool :=
  match f, g with
  | c_params_init, c_params_init
  | c_mkcache, c_mkcache
  | c_compute_full_data, c_compute_full_data
  | c_full, c_full
  | c_light, c_light => true
  | _, _ => false
  end.

(** The calls into libethash of a trace, in order. *)
Fixpoint calls (t : list event) : list cfun :=
  match t with
  | [] => []
  | ECall f :: t' => f :: calls t'
  | _ :: t' => calls t'
  end.

Definition count_calls (f : cfun) (t : list event) : nat :=
  length (filter (cfun_eqb f) (calls t)).

(** Cache builds are the calls of [ethash_mkcache]. *)
Definition builds (t : list event) : nat := count_calls c_mkcache t.

(** The lock discipline "cache before DAG" on a trace: the cache mutex is
    never acquired while the DAG mutex is held.  [holds_dag] says whether
    the DAG mutex is held when the trace starts. *)
Fixpoint lock_order_ok (holds_dag : bool) (t : list event) : bool :=
  match t with
  | [] => true
  | ELock CacheMutex :: t' => negb holds_dag && lock_order_ok holds_dag t'
  | ELock DagMutex :: t' => lock_order_ok true t'
  | EUnlock DagMutex :: t' => lock_order_ok false t'
  | _ :: t' => lock_order_ok holds_dag t'
  end.

(** What a method added to the trace of the world it started from. *)
Definition added (w w' : World) : list event :=
  skipn (length (trace w)) (trace w').

Definition world_of {A : Type} (o : outcome A) : World :=
  match o with
  | Ret _ w | Panic w | Blocked w | Spinning w | Fault w => w
  end.

Definition returned {A : Type} (o : outcome A) : bool :=
  match o with Ret _ _ => true | _ => false end.

(** A method only appends to the trace, whatever its outcome. *)
Definition trace_grows {A : Type} (m : M A) : Prop :=
  forall w, exists t, trace (world_of (m w)) = trace w ++ t.

(** A method leaves both mutexes as it found them, whatever its outcome. *)
Definition keeps_mutexes {A : Type} (m : M A) : Prop :=
  forall w,
    dagMutex (pow (world_of (m w))) = dagMutex (pow w) /\
    cacheMutex (pow (world_of (m w))) = cacheMutex (pow w).

Definition set_head (w : World) (h : Z) : World :=
  mk_World h (disk w) (slack w) (pow w) (trace w).

(** Two threads that each run a fixed script of mutex operations (the
    other events of a script take a step and change nothing).  [owner]
    maps a mutex to the thread holding it. *)
Record Threads : Type := mk_Threads {
  owner_cache : option bool;
  owner_dag : option bool;
  script_a : list event;
  script_b : list event }.

Definition owner (c : Threads) (m : mutex) : option bool :=
  match m with CacheMutex => owner_cache c | DagMutex => owner_dag c end.

Definition set_owner (c : Threads) (m : mutex) (o : option bool) : Threads :=
  match m with
  | CacheMutex => mk_Threads o (owner_dag c) (script_a c) (script_b c)
  | DagMutex => mk_Threads (owner_cache c) o (script_a c) (script_b c)
  end.

Definition script (c : Threads) (who : bool) : list event :=
  if who then script_a c else script_b c.

Definition set_script (c : Threads) (who : bool) (s : list event) : Threads :=
  if who
  then mk_Threads (owner_cache c) (owner_dag c) s (script_b c)
  else mk_Threads (owner_cache c) (owner_dag c) (script_a c) s.

(** One step of thread [who]; [None] when the thread cannot move (it has
    finished, or waits for a mutex that is held). *)
Definition thread_step (c : Threads) (who : bool) : option Threads :=
  match script c who with
  | [] => None
  | ELock m :: s =>
      match owner c m with
      | None => Some (set_script (set_owner c m (Some who)) who s)
      | Some _ => None
      end
  | EUnlock m :: s => Some (set_script (set_owner c m None) who s)
  | _ :: s => Some (set_script c who s)
  end.

Fixpoint run_schedule (sched : list bool) (c : Threads) : option Threads :=
  match sched with
  | [] => Some c
  | who :: sched' =>
      match thread_step c who with
      | Some c' => run_schedule sched' c'
      | None => None
      end
  end.

(** Both threads have work left and neither can move. *)
Definition deadlocked (c : Threads) : bool :=
  match script_a c, script_b c, thread_step c true, thread_step c false with
  | _ :: _, _ :: _, None, None => true
  | _, _, _, _ => false
  end.

Section Sizing.

Context {L : Libethash}.

(** The sizing parameters of an epoch, as [makeParamsAndCache] obtains
    them. *)
Definition SizingParams (epoch : Z) : ethash_params :=
  ethash_params_init (wrap32 epoch).

Definition cache_matches_epoch (p : ParamsAndCache) : bool :=
  Z.of_nat (length (mem (PAC_cache p)))
    =? Z.max 0 (cache_size (SizingParams (PAC_SeedBlockNum p))).

Definition dag_matches_epoch (d : DAG) : bool :=
  Z.of_nat (length (DAG_dag d))
    =? Z.max 0 (full_size (SizingParams (DAG_SeedBlockNum d))).

(** The sizes of the live buffers are those of their recorded epochs. *)
Definition sizes_match (e : Ethash) : bool :=
  cache_matches_epoch (paramsAndCache e)
  && match dag e with
     | None => true
     | Some d => dag_matches_epoch d
     end.

End Sizing.

(** ** A small instance of the collaborators, for running the methods *)

Module Toy.

(** A digest of 32 bytes whose first byte is the nonce. *)
Definition digest (n : Z) : list byte := byte_of_Z n :: repeat x00 31.

Definition lib : Libethash := {|
  ethash_params_init := fun e => mk_params (8 + 4 * (e / 30000)) (2 + e / 30000);
  ethash_mkcache := fun p seed => rev seed;
  ethash_compute_full_data := fun p c => repeat x01 (Z.to_nat (full_size p));
  ethash_full := fun d p h n => mk_ret (digest n) h;
  ethash_light := fun c p h n => mk_ret (digest n) h |}.

Definition chain : ChainManager := {|
  GetBlockByNumber_SeedHash := fun n => Some (PutUint64 (n + 1)) |}.

Definition blank : Ethash :=
  mk_Ethash false 0 None (mk_PAC (mk_params 0 0) (mk_cache [] Malloced) 0) zero_ret
    false false.

(** A process started at chain head [h], with [/tmp/dag] as given. *)
Definition boot (h : Z) (file : option (list byte)) : World :=
  world_of (@New lib chain (mk_World h file (repeat x00 16) blank [])).

Definition block (h d : Z) : Block :=
  mk_Block [x2a] d h (PutUint64 (GetSeedBlockNum h + 1)) [] 0.

(** The cache was built at height 0 and the chain has since reached
    30001; no DAG is held and there is no file. *)
Definition w_grown : World := set_head (boot 0 None) 30001.

(** The same process after [updateDAG], then [updateCache]. *)
Definition w_second_pass : World :=
  world_of (@updateCache lib chain (world_of (@updateDAG lib w_grown))).

(** The process of [w_grown] after one [updateDAG], which built a DAG and
    wrote the file, and after a second one, which read the file back. *)
Definition w_built : World := world_of (@updateDAG lib w_grown).


(** A process at height 0 that finds a file of three bytes. *)
Definition w_truncated : World := boot 0 (Some [x01; x02; x03]).

Definition never_stop : SearchEnv := mk_SearchEnv (fun _ => false) 0 (fun _ => 1000).

Definition stop_at (n : nat) : SearchEnv :=
  mk_SearchEnv (fun k => (n <=? k)%nat) 128 (fun _ => 1000).

End Toy.

(** * Properties *)

(** ** Epochs *)

Lemma GetSeedBlockNum_low (h : Z) :
  h <= epochLength -> GetSeedBlockNum h = 0.
Proof.
  intros Hh. unfold GetSeedBlockNum.
  destruct (Z.gtb_spec h epochLength) as [Hgt | _]; [lia | reflexivity].
Qed.

Lemma GetSeedBlockNum_high (h : Z) :
  is_uint64 h -> epochLength < h ->
  GetSeedBlockNum h = (h - 1) / epochLength * epochLength.
Proof.
  unfold is_uint64, GetSeedBlockNum, wrap64, epochLength. intros Hr Hh.
  destruct (Z.gtb_spec h 30000) as [_ | Hle]; [| lia].
  rewrite (Z.mod_small (h - 1)) by lia.
  apply Z.mod_small.
  pose proof (Z.mul_div_le (h - 1) 30000 ltac:(lia)).
  pose proof (Z.div_pos (h - 1) 30000 ltac:(lia) ltac:(lia)).
  lia.
Qed.

Lemma GetSeedBlockNum_range (h : Z) :
  is_uint64 h -> is_uint64 (GetSeedBlockNum h) /\ GetSeedBlockNum h <= h.
Proof.
  intros Hr. destruct (Z_le_gt_dec h epochLength) as [Hle | Hgt].
  - rewrite GetSeedBlockNum_low by exact Hle. unfold is_uint64 in *. lia.
  - rewrite GetSeedBlockNum_high by (auto; lia).
    unfold is_uint64, epochLength in *.
    pose proof (Z.mul_div_le (h - 1) 30000 ltac:(lia)).
    pose proof (Z.div_pos (h - 1) 30000 ltac:(lia) ltac:(lia)).
    lia.
Qed.

(** C1. For every block height [h] (a [uint64]), with [epochLength = 30000]:
    [GetSeedBlockNum h = 0] when [h <= 30000], and
    [GetSeedBlockNum h = floor((h-1)/30000) * 30000] when [h > 30000]; in
    particular the values at 0, 30000, 30001, 60000 and 60001 are
    0, 0, 30000, 30000 and 60000. *)
Theorem C1_epochOf_formula (h : Z) (Hh : is_uint64 h) :
  epochLength = 30000 /\
  (h <= 30000 -> GetSeedBlockNum h = 0) /\
  (h > 30000 -> GetSeedBlockNum h = (h - 1) / 30000 * 30000) /\
  GetSeedBlockNum 0 = 0 /\
  GetSeedBlockNum 30000 = 0 /\
  GetSeedBlockNum 30001 = 30000 /\
  GetSeedBlockNum 60000 = 30000 /\
  GetSeedBlockNum 60001 = 60000.
Proof.
  split; [reflexivity |].
  split; [intros Hle; apply GetSeedBlockNum_low; exact Hle |].
  split; [intros Hgt; apply (GetSeedBlockNum_high h Hh); unfold epochLength; lia |].
  repeat split; reflexivity.
Qed.

Lemma C1_epochOf_formula_witness :
  is_uint64 123456 /\ GetSeedBlockNum 123456 = 120000.
Proof.
  assert (Hr : is_uint64 123456) by (unfold is_uint64; lia).
  split; [exact Hr |].
  destruct (C1_epochOf_formula 123456 Hr) as (_ & _ & Hhigh & _).
  rewrite Hhigh by lia. reflexivity.
Defined.

(** ** Reasoning about methods *)

Lemma bind_Ret_inv {A B : Type} (m : M A) (k : A -> M B) (w w' : World) (b : B) :
  bind m k w = Ret b w' ->
  exists a w1, m w = Ret a w1 /\ k a w1 = Ret b w'.
Proof.
  unfold bind. destruct (m w) as [a w1 | w1 | w1 | w1 | w1]; intros H; try discriminate.
  exists a, w1. split; [reflexivity | exact H].
Qed.

Lemma bind_Ret {A B : Type} (m : M A) (k : A -> M B) (w w1 : World) (a : A) :
  m w = Ret a w1 -> bind m k w = k a w1.
Proof. intros H. unfold bind. rewrite H. reflexivity. Qed.

Lemma lift_Ret_inv {A : Type} (o : option A) (w w' : World) (a : A) :
  lift o w = Ret a w' -> o = Some a /\ w' = w.
Proof.
  destruct o as [x |]; cbn; intros H; inversion H; subst; auto.
Qed.

Lemma set_held_twice (e : Ethash) (m : mutex) (b c : bool) :
  set_held (set_held e m b) m c = set_held e m c.
Proof. destruct e, m; reflexivity. Qed.

Lemma set_held_same (e : Ethash) (m : mutex) :
  set_held e m (held e m) = e.
Proof. destruct e, m; reflexivity. Qed.

Lemma held_set_held (e : Ethash) (m : mutex) (b : bool) :
  held (set_held e m b) m = b.
Proof. destruct e, m; reflexivity. Qed.

Lemma calls_app (t u : list event) : calls (t ++ u) = calls t ++ calls u.
Proof.
  induction t as [| e t IH]; [reflexivity |].
  destruct e; cbn; rewrite IH; reflexivity.
Qed.

Lemma count_calls_app (f : cfun) (t u : list event) :
  count_calls f (t ++ u) = (count_calls f t + count_calls f u)%nat.
Proof.
  unfold count_calls. rewrite calls_app, filter_app, length_app. reflexivity.
Qed.

Lemma added_app (w w' : World) (t : list event) :
  trace w' = trace w ++ t -> added w w' = t.
Proof.
  intros H. unfold added. rewrite H.
  rewrite skipn_app, skipn_all, Nat.sub_diag. reflexivity.
Qed.

Lemma bytes_eqb_false (a b : list byte) : a <> b -> bytes_eqb a b = false.
Proof.
  intros H. unfold bytes_eqb.
  destruct (list_eq_dec Byte.byte_eq_dec a b); [contradiction | reflexivity].
Qed.

Lemma big_Div_pos (x d : Z) : 0 <= x -> 0 < d -> big_Div x d = Some (x / d).
Proof.
  intros Hx Hd. unfold big_Div.
  destruct (Z.eqb_spec d 0) as [-> | _]; [lia |].
  pose proof (Z.rem_nonneg x d ltac:(lia) Hx) as Hr.
  destruct (Z.ltb_spec (Z.rem x d) 0) as [Hneg | _]; [lia |].
  rewrite Z.quot_div_nonneg by lia. reflexivity.
Qed.

Section Proofs.

Context {L : Libethash} {CM : ChainManager}.

(** ** Verification *)

(** C7. For every block whose seed hash differs from the canonical seed
    hash of the epoch of its height, [Verify] returns [false] at once: the
    world is left as it was, so its trace gains no call of [ethash_light]
    (nor any other event). *)
Theorem C7_Verify_rejects_seed_mismatch (block : Block) (w : World)
  (Hdiff : SeedHash block
           <> contents (GetBlockByNumber_SeedHash (GetSeedBlockNum (NumberU64 block)))) :
  Verify block w = Ret false w /\
  count_calls c_light (added w (world_of (Verify block w))) = 0%nat /\
  calls (added w (world_of (Verify block w))) = [].
Proof.
  assert (HV : Verify block w = Ret false w).
  { unfold Verify, GetSeedHash. rewrite (bytes_eqb_false _ _ Hdiff). reflexivity. }
  rewrite HV. cbn [world_of].
  rewrite (added_app w w []) by (rewrite app_nil_r; reflexivity).
  repeat split.
Qed.

(** ** Mutexes *)

Lemma Lock_free (m : mutex) (w : World) :
  held (pow w) m = false -> Lock m w = Ret tt (acquire m w).
Proof. intros H. unfold Lock. rewrite H. reflexivity. Qed.

Lemma Unlock_held (m : mutex) (w : World) :
  held (pow w) m = true -> Unlock m w = Ret tt (release m w).
Proof. intros H. unfold Unlock. rewrite H. reflexivity. Qed.

Lemma Lock_Ret_inv (m : mutex) (w w' : World) (u : unit) :
  Lock m w = Ret u w' -> held (pow w) m = false /\ w' = acquire m w.
Proof.
  unfold Lock. destruct (held (pow w) m); intros H; inversion H; auto.
Qed.

Lemma Unlock_Ret_inv (m : mutex) (w w' : World) (u : unit) :
  Unlock m w = Ret u w' -> held (pow w) m = true /\ w' = release m w.
Proof.
  unfold Unlock. destruct (held (pow w) m); intros H; inversion H; auto.
Qed.

Lemma updateDAG_Ret_unlocked (w w1 : World) (u : unit) :
  updateDAG w = Ret u w1 ->
  dagMutex (pow w1) = false /\ cacheMutex (pow w1) = false.
Proof.
  unfold updateDAG. intros H.
  apply bind_Ret_inv in H as (? & wa & _ & H).
  apply bind_Ret_inv in H as (? & wb & _ & H).
  apply bind_Ret_inv in H as (? & wc & _ & H).
  apply bind_Ret_inv in H as (? & wd & _ & H).
  apply bind_Ret_inv in H as (? & we & Hd & H).
  apply Unlock_Ret_inv in Hd as (_ & ->).
  apply Unlock_Ret_inv in H as (_ & ->).
  destruct (pow wd); split; reflexivity.
Qed.

(** ** The search loop *)

(** The loop from iteration [j] on, when the next [k] attempts miss the
    target and the signal is set at the poll after them: it returns the
    cancelled triple having called [ethash_full] exactly [k] times. *)
Lemma search_loop_cancelled (env : SearchEnv) (block : Block) (h : list byte)
  (target : Z) (d : DAG) (k : nat) :
  forall (fuel j : nat) (nonce : Z) (w : World),
    dag (pow w) = Some d ->
    (forall i, (i < k)%nat ->
       stop env (j + i) = false /\
       target < attempt_digest d (PAC_params (paramsAndCache (pow w))) h nonce i) ->
    stop env (j + k) = true ->
    (k < fuel)%nat ->
    exists w',
      search_loop env block h target fuel j nonce w = Ret (0, None, None) w' /\
      HashRate (pow w') = 0 /\
      trace w' = trace w ++ repeat (ECall c_full) k /\
      dagMutex (pow w') = dagMutex (pow w) /\
      cacheMutex (pow w') = cacheMutex (pow w).
Proof.
  induction k as [| k IH]; intros fuel j nonce w Hdag Hmiss Hstop Hfuel;
    (destruct fuel as [| fuel]; [lia |]); cbn [search_loop].
  - rewrite Nat.add_0_r in Hstop. rewrite Hstop.
    eexists. split; [reflexivity |].
    cbn. rewrite app_nil_r. destruct (pow w); auto.
  - destruct (Hmiss 0%nat ltac:(lia)) as [Hs0 Hm0].
    rewrite Nat.add_0_r in Hs0. rewrite Hs0.
    unfold attempt_digest in Hm0. cbn [nonce_at] in Hm0.
    unfold bind at 1. unfold modify_pow at 1.
    unfold bind at 1. unfold get at 1.
    unfold bind at 1. cbn [pow set_pow].
    replace (dag (set_HashRate (pow w) (sampled_rate env j))) with (Some d)
      by (rewrite <- Hdag; destruct (pow w); reflexivity).
    cbn [lift ret_].
    unfold bind at 1. unfold log at 1.
    unfold bind at 1. unfold modify_pow at 1.
    replace (paramsAndCache (set_HashRate (pow w) (sampled_rate env j)))
      with (paramsAndCache (pow w)) by (destruct (pow w); reflexivity).
    destruct (Z.leb_spec
                (Bytes2Big (result (ethash_full (DAG_dag d)
                   (PAC_params (paramsAndCache (pow w))) h nonce))) target)
      as [Hle | _]; [lia |].
    match goal with
    | |- exists w', search_loop _ _ _ _ _ _ _ ?w2 = _ /\ _ =>
        destruct (IH fuel (S j) (wrap64 (nonce + 1)) w2) as (w' & Hrun & Hrate & Htr & Hdm & Hcm)
    end.
    + destruct (pow w); cbn in *. exact Hdag.
    + intros i Hi. destruct (Hmiss (S i) ltac:(lia)) as [Hs Hm].
      split.
      * rewrite <- Hs. f_equal. lia.
      * unfold attempt_digest in *. cbn [nonce_at] in Hm.
        destruct (pow w); cbn in *. exact Hm.
    + rewrite <- Hstop. f_equal. lia.
    + lia.
    + exists w'. split; [exact Hrun |]. split; [exact Hrate |].
      split; [| split].
      * rewrite Htr. cbn [trace emit set_pow repeat].
        rewrite <- app_assoc. reflexivity.
      * rewrite Hdm. destruct (pow w); reflexivity.
      * rewrite Hcm. destruct (pow w); reflexivity.
Qed.


Lemma defer_Ret_inv {A : Type} (c : M unit) (body : M A) (w w' : World) (a : A) :
  defer c body w = Ret a w' ->
  exists w1 u, body w = Ret a w1 /\ c w1 = Ret u w'.
Proof.
  unfold defer.
  destruct (body w) as [x w1 | w1 | w1 | w1 | w1]; try discriminate.
  - destruct (c w1) as [u w2 | w2 | w2 | w2 | w2] eqn:Hc; intros H; inversion H; subst.
    exists w1, u. auto.
  - destruct (c w1); discriminate.
Qed.

Lemma defer_unlocks_Ret {A : Type} (body : M A) (w w1 : World) (a : A) :
  body w = Ret a w1 ->
  dagMutex (pow w1) = true ->
  cacheMutex (pow w1) = true ->
  defer (Unlock CacheMutex) (defer (Unlock DagMutex) body) w
  = Ret a (release CacheMutex (release DagMutex w1)).
Proof.
  intros Hb Hd Hc. unfold defer. rewrite Hb.
  rewrite (Unlock_held DagMutex w1) by exact Hd.
  rewrite (Unlock_held CacheMutex); [reflexivity |].
  cbn. destruct (pow w1); cbn in *. exact Hc.
Qed.

(** [Search] once [updateDAG] has returned: both mutexes are taken, DAG
    mutex first, and the loop runs under the two deferred unlocks. *)
Lemma Search_after_updateDAG (env : SearchEnv) (fuel : nat) (block : Block)
  (w w1 : World) (b : byte) (bs : list byte) (target : Z) :
  updateDAG w = Ret tt w1 ->
  HashNoNonce block = b :: bs ->
  big_Div tt256 (Difficulty block) = Some target ->
  Search env fuel block w
  = defer (Unlock CacheMutex) (defer (Unlock DagMutex)
      (search_loop env block (b :: bs) target fuel 0 (wrap64 (rand_Int63 env))))
      (acquire CacheMutex (acquire DagMutex w1)).
Proof.
  intros Hupd Hhash Hdiff. unfold Search.
  destruct (updateDAG_Ret_unlocked _ _ _ Hupd) as [Hd Hc].
  rewrite (bind_Ret _ _ _ _ _ Hupd).
  rewrite (bind_Ret _ _ _ _ _ (Lock_free DagMutex w1 Hd)).
  assert (Hc' : held (pow (acquire DagMutex w1)) CacheMutex = false).
  { cbn. destruct (pow w1); cbn in *. exact Hc. }
  rewrite (bind_Ret _ _ _ _ _ (Lock_free CacheMutex _ Hc')).
  rewrite Hhash, Hdiff. reflexivity.
Qed.

(** C9. Whenever the stop signal is set at the poll of a loop iteration
    (from any state, attempt count and nonce), the loop sets the hash rate
    to zero and returns the cancelled triple in that iteration, with no
    further call of [ethash_full].  For a whole [Search] whose first [k]
    attempts miss the target and whose signal is set at the next poll:
    it returns (an ordinary return, no panic) the cancelled triple with
    hash rate zero, after exactly [k] calls of [ethash_full]. *)
Theorem C9_search_cancelled_at_poll
  (env : SearchEnv) (block : Block) (fuel k : nat) (w w1 : World)
  (d : DAG) (b : byte) (bs : list byte) (target : Z)
  (Hupd : updateDAG w = Ret tt w1)
  (Hdag : dag (pow w1) = Some d)
  (Hhash : HashNoNonce block = b :: bs)
  (Hdiff : big_Div tt256 (Difficulty block) = Some target)
  (Hmiss : forall i, (i < k)%nat ->
     stop env i = false /\
     target < attempt_digest d (PAC_params (paramsAndCache (pow w1))) (b :: bs)
                (wrap64 (rand_Int63 env)) i)
  (Hstop : stop env k = true)
  (Hfuel : (k < fuel)%nat) :
  (forall (f : nat) (nonce : Z) (w2 : World),
     search_loop env block (b :: bs) target (S f) k nonce w2
     = Ret (0, None, None) (set_pow w2 (set_HashRate (pow w2) 0))) /\
  exists w',
    Search env fuel block w = Ret (0, None, None) w' /\
    HashRate (pow w') = 0 /\
    trace w' = trace w1 ++ [ELock DagMutex; ELock CacheMutex]
                 ++ repeat (ECall c_full) k
                 ++ [EUnlock DagMutex; EUnlock CacheMutex].
Proof.
  split.
  - intros f nonce w2. cbn [search_loop]. rewrite Hstop. reflexivity.
  - rewrite (Search_after_updateDAG env fuel block w w1 b bs target Hupd Hhash Hdiff).
    destruct (search_loop_cancelled env block (b :: bs) target d k fuel 0%nat
                (wrap64 (rand_Int63 env)) (acquire CacheMutex (acquire DagMutex w1)))
      as (w4 & Hrun & Hrate & Htr & Hdm & Hcm).
    + cbn. destruct (pow w1); cbn in *. exact Hdag.
    + intros i Hi. destruct (Hmiss i Hi) as [Hs Hm]. split; [exact Hs |].
      cbn. destruct (pow w1); cbn in *. exact Hm.
    + exact Hstop.
    + exact Hfuel.
    + exists (release CacheMutex (release DagMutex w4)).
      split; [| split].
      * apply defer_unlocks_Ret; [exact Hrun | |].
        -- rewrite Hdm. cbn. destruct (pow w1); reflexivity.
        -- rewrite Hcm. cbn. destruct (pow w1); reflexivity.
      * cbn. destruct (pow w4); cbn in *. exact Hrate.
      * cbn [release emit set_pow trace]. rewrite Htr.
        cbn [acquire emit set_pow trace].
        repeat rewrite <- app_assoc. reflexivity.
Qed.


(** ** The cache manager *)

Lemma makeParamsAndCache_Ret (blockNum : Z) (w : World) :
  contents (GetBlockByNumber_SeedHash (GetSeedBlockNum blockNum)) <> [] ->
  exists p,
    makeParamsAndCache blockNum w
    = Ret p (emit (emit w (ECall c_params_init)) (ECall c_mkcache)) /\
    PAC_SeedBlockNum p = GetSeedBlockNum blockNum /\
    PAC_params p = SizingParams (GetSeedBlockNum blockNum) /\
    length (mem (PAC_cache p)) = Z.to_nat (cache_size (PAC_params p)).
Proof.
  intros Hseed. unfold makeParamsAndCache.
  destruct (contents (GetBlockByNumber_SeedHash (GetSeedBlockNum blockNum)))
    as [| s0 seed]; [contradiction |].
  eexists. split; [reflexivity |]. cbn.
  repeat split.
  unfold overwrite, malloc.
  rewrite repeat_length, firstn_length_le; [reflexivity |].
  rewrite length_app, length_skipn, repeat_length. lia.
Qed.

(** [updateCache] when the held cache is of the current epoch: the mutex
    is taken and given back, and nothing else happens. *)
Lemma updateCache_current (w : World) :
  cacheMutex (pow w) = false ->
  PAC_SeedBlockNum (paramsAndCache (pow w)) = GetSeedBlockNum (chain_head w) ->
  updateCache w = Ret tt (release CacheMutex (acquire CacheMutex w)).
Proof.
  intros Hfree Hcur. unfold updateCache.
  rewrite (bind_Ret _ _ _ _ _ (Lock_free CacheMutex w Hfree)).
  unfold bind at 1. unfold get at 1.
  replace (paramsAndCache (pow (acquire CacheMutex w))) with (paramsAndCache (pow w))
    by (cbn; destruct (pow w); reflexivity).
  replace (chain_head (acquire CacheMutex w)) with (chain_head w) by reflexivity.
  rewrite Hcur, Z.eqb_refl. unfold bind, ret_.
  apply Unlock_held. cbn. destruct (pow w); reflexivity.
Qed.

Lemma release_acquire_pow (m : mutex) (w : World) :
  held (pow w) m = false ->
  pow (release m (acquire m w)) = pow w.
Proof.
  intros H. cbn. rewrite set_held_twice, <- H. apply set_held_same.
Qed.

(** [updateCache] when the held cache is of another epoch: one build, and
    the new cache is of the current epoch. *)
Lemma updateCache_stale (w : World) :
  cacheMutex (pow w) = false ->
  PAC_SeedBlockNum (paramsAndCache (pow w)) <> GetSeedBlockNum (chain_head w) ->
  contents (GetBlockByNumber_SeedHash (GetSeedBlockNum (chain_head w))) <> [] ->
  exists w1,
    updateCache w = Ret tt w1 /\
    cacheMutex (pow w1) = false /\
    chain_head w1 = chain_head w /\
    disk w1 = disk w /\
    PAC_SeedBlockNum (paramsAndCache (pow w1)) = GetSeedBlockNum (chain_head w) /\
    trace w1 = trace w ++ [ELock CacheMutex; ECall c_params_init; ECall c_mkcache;
                           EUnlock CacheMutex].
Proof.
  intros Hfree Hstale Hseed. unfold updateCache.
  rewrite (bind_Ret _ _ _ _ _ (Lock_free CacheMutex w Hfree)).
  unfold bind at 1. unfold get at 1.
  replace (paramsAndCache (pow (acquire CacheMutex w))) with (paramsAndCache (pow w))
    by (cbn; destruct (pow w); reflexivity).
  replace (chain_head (acquire CacheMutex w)) with (chain_head w) by reflexivity.
  destruct (Z.eqb_spec (PAC_SeedBlockNum (paramsAndCache (pow w)))
              (GetSeedBlockNum (chain_head w))) as [Heq | _]; [contradiction |].
  destruct (makeParamsAndCache_Ret (chain_head w) (acquire CacheMutex w) Hseed)
    as (p & Hmk & Hnum & _).
  unfold bind at 1. unfold bind at 1. rewrite Hmk.
  unfold modify_pow. rewrite Unlock_held by (cbn; destruct (pow w); reflexivity).
  eexists. split; [reflexivity |].
  cbn. destruct (pow w); cbn.
  repeat split; try assumption.
  repeat rewrite <- app_assoc. reflexivity.
Qed.

(** C8. [updateCache] is idempotent at a fixed chain head.  Two calls in a
    row both return; the second changes neither the [Ethash] object (same
    cache) nor the file, and calls nothing in libethash; together the two
    calls build a cache exactly once when the held cache was of another
    epoch, and never when it was already of the current epoch, in which
    case the first call is such a no-op too. *)
Theorem C8_updateCache_idempotent (w : World)
  (Hfree : cacheMutex (pow w) = false)
  (Hseed : PAC_SeedBlockNum (paramsAndCache (pow w)) <> GetSeedBlockNum (chain_head w) ->
           contents (GetBlockByNumber_SeedHash (GetSeedBlockNum (chain_head w))) <> []) :
  exists w1 w2,
    updateCache w = Ret tt w1 /\
    updateCache w1 = Ret tt w2 /\
    pow w2 = pow w1 /\ disk w2 = disk w1 /\ chain_head w2 = chain_head w1 /\
    calls (added w1 w2) = [] /\
    builds (added w w2)
    = (if PAC_SeedBlockNum (paramsAndCache (pow w)) =? GetSeedBlockNum (chain_head w)
       then 0%nat else 1%nat) /\
    (PAC_SeedBlockNum (paramsAndCache (pow w)) = GetSeedBlockNum (chain_head w) ->
     pow w1 = pow w /\ disk w1 = disk w /\ calls (added w w1) = []).
Proof.
  assert (Hnoop : forall v, cacheMutex (pow v) = false ->
            PAC_SeedBlockNum (paramsAndCache (pow v)) = GetSeedBlockNum (chain_head v) ->
            exists v', updateCache v = Ret tt v' /\ pow v' = pow v /\ disk v' = disk v /\
                       chain_head v' = chain_head v /\
                       trace v' = trace v ++ [ELock CacheMutex; EUnlock CacheMutex]).
  { intros v Hf Hc. eexists. split; [apply updateCache_current; assumption |].
    split; [apply release_acquire_pow; exact Hf |].
    cbn. rewrite <- app_assoc. auto. }
  destruct (Z.eqb_spec (PAC_SeedBlockNum (paramsAndCache (pow w)))
              (GetSeedBlockNum (chain_head w))) as [Hcur | Hstale].
  - destruct (Hnoop w Hfree Hcur) as (w1 & H1 & Hp1 & Hd1 & Hh1 & Ht1).
    assert (Hf1 : cacheMutex (pow w1) = false) by (rewrite Hp1; exact Hfree).
    assert (Hc1 : PAC_SeedBlockNum (paramsAndCache (pow w1)) = GetSeedBlockNum (chain_head w1))
      by (rewrite Hp1, Hh1; exact Hcur).
    destruct (Hnoop w1 Hf1 Hc1) as (w2 & H2 & Hp2 & Hd2 & Hh2 & Ht2).
    exists w1, w2. repeat split; try assumption.
    + rewrite (added_app _ _ _ Ht2). reflexivity.
    + rewrite Ht1, <- app_assoc in Ht2. rewrite (added_app _ _ _ Ht2). reflexivity.
    + rewrite (added_app _ _ _ Ht1). reflexivity.
  - destruct (updateCache_stale w Hfree Hstale (Hseed Hstale))
      as (w1 & H1 & Hf1 & Hh1 & Hd1 & Hc1 & Ht1).
    rewrite <- Hh1 in Hc1.
    destruct (Hnoop w1 Hf1 Hc1) as (w2 & H2 & Hp2 & Hd2 & Hh2 & Ht2).
    exists w1, w2. repeat split; try assumption; try contradiction.
    + rewrite (added_app _ _ _ Ht2). reflexivity.
    + rewrite Ht1, <- app_assoc in Ht2. rewrite (added_app _ _ _ Ht2). reflexivity.
Qed.


(** ** Target and acceptance *)

Lemma search_loop_step (env : SearchEnv) (block : Block) (h : list byte)
  (target : Z) (fuel k : nat) (nonce : Z) (w : World) (d : DAG) :
  stop env k = false ->
  dag (pow w) = Some d ->
  search_loop env block h target (S fuel) k nonce w
  = let r := ethash_full (DAG_dag d) (PAC_params (paramsAndCache (pow w))) h nonce in
    if Bytes2Big (result r) <=? target
    then Ret (nonce, Some (mix_hash r), GetSeedHash (NumberU64 block))
           (after_attempt env k r w)
    else search_loop env block h target fuel (S k) (wrap64 (nonce + 1))
           (after_attempt env k r w).
Proof.
  intros Hgo Hdag. cbn [search_loop]. rewrite Hgo.
  unfold bind at 1. unfold modify_pow at 1.
  unfold bind at 1. unfold get at 1.
  unfold bind at 1. cbn [pow set_pow].
  replace (dag (set_HashRate (pow w) (sampled_rate env k))) with (Some d)
    by (rewrite <- Hdag; destruct (pow w); reflexivity).
  cbn [lift ret_].
  unfold bind at 1. unfold log at 1.
  unfold bind at 1. unfold modify_pow at 1.
  replace (paramsAndCache (set_HashRate (pow w) (sampled_rate env k)))
    with (paramsAndCache (pow w)) by (destruct (pow w); reflexivity).
  cbv zeta.
  destruct (Bytes2Big (result (ethash_full (DAG_dag d)
              (PAC_params (paramsAndCache (pow w))) h nonce)) <=? target);
    reflexivity.
Qed.

Lemma search_loop_nil_dag (env : SearchEnv) (block : Block) (h : list byte)
  (target : Z) (fuel k : nat) (nonce : Z) (w : World) :
  stop env k = false ->
  dag (pow w) = None ->
  returned (search_loop env block h target (S fuel) k nonce w) = false.
Proof.
  intros Hgo Hdag. cbn [search_loop]. rewrite Hgo.
  unfold bind at 1. unfold modify_pow at 1.
  unfold bind at 1. unfold get at 1.
  unfold bind at 1. cbn [pow set_pow].
  replace (dag (set_HashRate (pow w) (sampled_rate env k))) with (@None DAG)
    by (rewrite <- Hdag; destruct (pow w); reflexivity).
  reflexivity.
Qed.

(** What a return of the loop can be: the cancelled triple, or a nonce with
    the mix digest and the digest that [pow.ret] then holds, the latter at
    most the target. *)
Lemma search_loop_Ret_inv (env : SearchEnv) (block : Block) (h : list byte)
  (target : Z) (fuel : nat) :
  forall (k : nat) (nonce : Z) (w w' : World) (r : SearchResult),
    search_loop env block h target fuel k nonce w = Ret r w' ->
    (r = (0, None, None) /\ HashRate (pow w') = 0 /\ exists j, stop env j = true) \/
    (exists n,
       r = (n, Some (mix_hash (ret (pow w'))), GetSeedHash (NumberU64 block)) /\
       Bytes2Big (result (ret (pow w'))) <= target).
Proof.
  induction fuel as [| fuel IH]; intros k nonce w w' r Hrun; [discriminate |].
  destruct (stop env k) eqn:Hs.
  - cbn [search_loop] in Hrun. rewrite Hs in Hrun.
    inversion Hrun; subst. left.
    split; [reflexivity |]. split; [cbn; destruct (pow w); reflexivity |].
    exists k. exact Hs.
  - destruct (dag (pow w)) as [d |] eqn:Hdag.
    + rewrite (search_loop_step env block h target fuel k nonce w d Hs Hdag) in Hrun.
      cbv zeta in Hrun.
      destruct (Z.leb_spec (Bytes2Big (result (ethash_full (DAG_dag d)
                  (PAC_params (paramsAndCache (pow w))) h nonce))) target) as [Hle | Hgt].
      * inversion Hrun; subst. right. exists nonce.
        split; [cbn; destruct (pow w); reflexivity |].
        cbn. destruct (pow w); cbn. exact Hle.
      * exact (IH _ _ _ _ _ Hrun).
    + pose proof (search_loop_nil_dag env block h target fuel k nonce w Hs Hdag) as Hn.
      rewrite Hrun in Hn. discriminate.
Qed.

(** A return of [Search] is a return of its loop, run with the target
    [tt256 / difficulty]; the deferred unlocks leave [pow.ret] and the hash
    rate as the loop left them. *)
Lemma Search_Ret_inv (env : SearchEnv) (fuel : nat) (block : Block)
  (w w' : World) (r : SearchResult) :
  Search env fuel block w = Ret r w' ->
  exists h target k nonce w3 w4,
    big_Div tt256 (Difficulty block) = Some target /\
    search_loop env block h target fuel k nonce w3 = Ret r w4 /\
    ret (pow w') = ret (pow w4) /\
    HashRate (pow w') = HashRate (pow w4).
Proof.
  unfold Search. intros H.
  apply bind_Ret_inv in H as (? & wa & _ & H).
  apply bind_Ret_inv in H as (? & wb & _ & H).
  apply bind_Ret_inv in H as (? & wc & _ & H).
  apply defer_Ret_inv in H as (w5 & ? & H & Hc).
  apply defer_Ret_inv in H as (w4 & ? & H & Hd).
  apply bind_Ret_inv in H as (h & wd & _ & H).
  apply bind_Ret_inv in H as (target & we & Hdiv & H).
  apply lift_Ret_inv in Hdiv as [Hdiv _].
  apply Unlock_Ret_inv in Hd as (_ & ->).
  apply Unlock_Ret_inv in Hc as (_ & ->).
  exists h, target, 0%nat, (wrap64 (rand_Int63 env)), we, w4.
  split; [exact Hdiv |]. split; [exact H |].
  cbn. destruct (pow w4); split; reflexivity.
Qed.

Lemma light_check_Ret_inv (pAc : ParamsAndCache) (chash : list byte)
  (cnonce target : Z) (w w' : World) (b : bool) :
  light_check pAc chash cnonce target w = Ret b w' ->
  b = (Bytes2Big (result (ret (pow w'))) <=? target).
Proof.
  unfold light_check, bind, log, modify_pow, ret_. intros H.
  inversion H; subst. cbn. destruct (pow w); reflexivity.
Qed.

(** A return of [verify] is the comparison of the digest that
    [ethash_light] left in [pow.ret] with [tt256 / difficulty]. *)
Lemma verify_Ret_inv (hash mixDigest : list byte) (difficulty blockNum nonce : Z)
  (w w' : World) (b : bool) :
  verify hash mixDigest difficulty blockNum nonce w = Ret b w' ->
  exists target,
    big_Div tt256 difficulty = Some target /\
    b = (Bytes2Big (result (ret (pow w'))) <=? target).
Proof.
  unfold verify. intros H.
  apply bind_Ret_inv in H as (chash & wa & _ & H).
  apply bind_Ret_inv in H as (target & wb & Hdiv & H).
  apply lift_Ret_inv in Hdiv as [Hdiv _].
  apply bind_Ret_inv in H as (wc & wd & _ & H).
  exists target. split; [exact Hdiv |].
  destruct (GetSeedBlockNum blockNum <? PAC_SeedBlockNum (paramsAndCache (pow wc))).
  - apply bind_Ret_inv in H as (pAc & we & _ & H).
    exact (light_check_Ret_inv _ _ _ _ _ _ _ H).
  - apply bind_Ret_inv in H as (? & we & _ & H).
    apply bind_Ret_inv in H as (? & wf & _ & H).
    apply defer_Ret_inv in H as (wg & ? & H & Hc).
    apply bind_Ret_inv in H as (wh & wi & _ & H).
    apply Unlock_Ret_inv in Hc as (_ & ->).
    rewrite (light_check_Ret_inv _ _ _ _ _ _ _ H).
    cbn. destruct (pow wg); reflexivity.
Qed.

(** ** The triples [Search] returns *)

(** C10. The cancelled outcome is the triple [(0, nil, nil)].  Every
    triple [Search] returns is either that one or a nonce with a non-nil
    mix digest (and the seed hash of the block's epoch), so the two kinds
    differ in the nil slices; the nonce does not tell them apart, since a
    search that starts at nonce 0 and hits the target in its first attempt
    returns nonce 0. *)
Theorem C10_cancelled_triple_and_nonce_zero
  (env : SearchEnv) (block : Block) (fuel : nat) (w w1 : World)
  (d : DAG) (b : byte) (bs : list byte) (target : Z)
  (Hupd : updateDAG w = Ret tt w1)
  (Hdag : dag (pow w1) = Some d)
  (Hhash : HashNoNonce block = b :: bs)
  (Hdiff : big_Div tt256 (Difficulty block) = Some target)
  (Hgo : stop env 0 = false)
  (Hrand : rand_Int63 env = 0)
  (Hhit : attempt_digest d (PAC_params (paramsAndCache (pow w1))) (b :: bs) 0 0 <= target) :
  (forall env' blk h t f k nonce w0,
     stop env' k = true ->
     exists w0', search_loop env' blk h t (S f) k nonce w0 = Ret (0, None, None) w0') /\
  (forall env' f blk w0 r w0',
     Search env' f blk w0 = Ret r w0' ->
     r = (0, None, None) \/
     exists n mix, r = (n, Some mix, GetSeedHash (NumberU64 blk))) /\
  (exists mix w',
     Search env (S fuel) block w
     = Ret (0, Some mix, GetSeedHash (NumberU64 block)) w').
Proof.
  split; [| split].
  - intros env' blk h t f k nonce w0 Hs. cbn [search_loop]. rewrite Hs.
    eexists. reflexivity.
  - intros env' f blk w0 r w0' Hrun.
    apply Search_Ret_inv in Hrun as (h & t & k & nonce & w3 & w4 & _ & Hloop & _).
    apply search_loop_Ret_inv in Hloop as [(Hc & _) | (n & Hr & _)].
    + left. exact Hc.
    + right. exists n. eexists. exact Hr.
  - rewrite (Search_after_updateDAG env (S fuel) block w w1 b bs target Hupd Hhash Hdiff).
    rewrite Hrand. change (wrap64 0) with 0.
    assert (Hdag' : dag (pow (acquire CacheMutex (acquire DagMutex w1))) = Some d).
    { cbn. destruct (pow w1); cbn in *. exact Hdag. }
    pose proof (search_loop_step env block (b :: bs) target fuel 0 0 _ d Hgo Hdag') as Hstep.
    cbv zeta in Hstep.
    replace (paramsAndCache (pow (acquire CacheMutex (acquire DagMutex w1))))
      with (paramsAndCache (pow w1)) in Hstep by (cbn; destruct (pow w1); reflexivity).
    unfold attempt_digest in Hhit. cbn [nonce_at] in Hhit.
    apply Z.leb_le in Hhit. rewrite Hhit in Hstep.
    eexists. eexists.
    apply defer_unlocks_Ret; [exact Hstep | |];
      cbn; destruct (pow w1); reflexivity.
Qed.


(** ** The DAG manager *)

Lemma Bytes2Big_acc_nonneg (bs : list byte) :
  forall acc, 0 <= acc -> 0 <= fold_left (fun a b => a * 256 + byte_to_Z b) bs acc.
Proof.
  induction bs as [| b bs IH]; intros acc Hacc; cbn; [exact Hacc |].
  apply IH. unfold byte_to_Z. pose proof (N2Z.is_nonneg (Byte.to_N b)). lia.
Qed.

Lemma Bytes2Big_nonneg (bs : list byte) : 0 <= Bytes2Big bs.
Proof. apply Bytes2Big_acc_nonneg. lia. Qed.

(** The header [updateDAG] reads from a file of at least eight bytes. *)
Lemma header_of_file (content spare : list byte) :
  (8 <= length content)%nat ->
  exists hdr,
    reslice (ReadAll content spare) 0 8 = Some hdr /\
    Uint64 hdr = Some (Bytes2Big (firstn 8 content)).
Proof.
  intros Hlen. unfold reslice, ReadAll. cbn [s_arr s_len].
  rewrite length_app.
  replace (8 <=? length content + length spare)%nat with true
    by (symmetry; apply Nat.leb_le; lia).
  eexists. split; [reflexivity |].
  unfold Uint64, elems. cbn [s_arr s_len skipn Nat.sub Nat.leb].
  rewrite firstn_firstn. cbn [Nat.min].
  rewrite firstn_app.
  replace (8 - length content)%nat with 0%nat by lia.
  cbn [firstn]. rewrite app_nil_r. reflexivity.
Qed.

(** The payload [updateDAG] adopts from a file of more than eight bytes. *)
Lemma payload_of_file (content spare : list byte) :
  (8 < length content)%nat ->
  exists data',
    reslice_from (ReadAll content spare) 8 = Some data' /\
    addr0 data' = Some (skipn 8 content).
Proof.
  intros Hlen. unfold reslice_from, reslice, ReadAll. cbn [s_arr s_len].
  rewrite length_app.
  replace (8 <=? length content)%nat with true by (symmetry; apply Nat.leb_le; lia).
  replace (length content <=? length content + length spare)%nat with true
    by (symmetry; apply Nat.leb_le; lia).
  eexists. split; [reflexivity |].
  unfold addr0, elems. cbn [s_arr s_len].
  destruct (length content - 8)%nat as [| n] eqn:Hn; [lia |].
  rewrite <- Hn. f_equal.
  rewrite skipn_app.
  replace (8 - length content)%nat with 0%nat by lia. rewrite skipn_O.
  rewrite firstn_app, length_skipn.
  replace (length content - 8 - (length content - 8))%nat with 0%nat by lia.
  cbn [firstn]. rewrite app_nil_r.
  apply firstn_all2. rewrite length_skipn. lia.
Qed.

(** A file shorter than its header, when the target epoch is 0: whatever
    the spare capacity of the buffer read, a slice expression panics. *)
Lemma short_file_slicing (content spare : list byte) :
  (length content < 8)%nat ->
  match reslice (ReadAll content spare) 0 8 with
  | None => True
  | Some hdr =>
      exists num, Uint64 hdr = Some num /\ 0 <= num /\
                  reslice_from (ReadAll content spare) 8 = None
  end.
Proof.
  intros Hlen. unfold reslice_from, reslice, ReadAll. cbn [s_arr s_len].
  replace (8 <=? length content)%nat with false
    by (symmetry; apply Nat.leb_gt; lia).
  destruct ((0 <=? 8)%nat && (8 <=? length (content ++ spare))%nat)%bool; [| exact I].
  unfold Uint64. cbn [s_len Nat.sub Nat.leb].
  eexists. split; [reflexivity |]. split; [apply Bytes2Big_nonneg | reflexivity].
Qed.

Lemma built_dag_size (p : ParamsAndCache) :
  length (DAG_dag (built_dag p)) = Z.to_nat (full_size (PAC_params p)).
Proof.
  unfold built_dag, overwrite, malloc. cbn [DAG_dag].
  rewrite repeat_length, firstn_length_le; [reflexivity |].
  rewrite length_app, length_skipn, repeat_length. lia.
Qed.


Lemma regenerate_run (seedNum : Z) (w : World) :
  0 <= to_int32 (full_size (PAC_params (paramsAndCache (pow w)))) ->
  regenerate seedNum w = Ret tt (regenerated seedNum w).
Proof.
  intros Hsize. unfold regenerate, regenerated, makeDAG, writeDagToDisk.
  unfold bind, get, log, modify_pow, ret_, GoBytes.
  destruct w as [hd dk sl e tr]; destruct e as [tb hr dg pac rt dm cm].
  cbn [pow set_pow emit set_dag paramsAndCache] in *.
  destruct (Z.ltb_spec (to_int32 (full_size (PAC_params pac))) 0) as [Hneg | _]; [lia |].
  reflexivity.
Qed.

Lemma load_missing_file (seedNum : Z) (w : World) :
  disk w = None ->
  0 <= to_int32 (full_size (PAC_params (paramsAndCache (pow w)))) ->
  load_or_regenerate seedNum w = Ret tt (regenerated seedNum w).
Proof.
  intros Hdisk Hsize. unfold load_or_regenerate, bind at 1, get.
  rewrite Hdisk. apply regenerate_run. exact Hsize.
Qed.


Lemma load_current_file (seedNum : Z) (w : World) (content : list byte) :
  disk w = Some content ->
  (8 < length content)%nat ->
  seedNum <= Bytes2Big (firstn 8 content) ->
  load_or_regenerate seedNum w = Ret tt (adopted content w).
Proof.
  intros Hdisk Hlen Hnew. unfold load_or_regenerate, bind at 1, get.
  rewrite Hdisk.
  destruct (header_of_file content (slack w) ltac:(lia)) as (hdr & Hh & Hn).
  destruct (payload_of_file content (slack w) Hlen) as (data' & Hd & Hp).
  unfold bind at 1. rewrite Hh. cbn [lift ret_].
  unfold bind at 1. rewrite Hn. cbn [lift ret_].
  destruct (Z.ltb_spec (Bytes2Big (firstn 8 content)) seedNum) as [Hlt | _]; [lia |].
  unfold bind at 1. rewrite Hd. cbn [lift ret_].
  unfold bind at 1. rewrite Hp. reflexivity.
Qed.

Lemma load_short_file (w : World) (content : list byte) :
  disk w = Some content ->
  (length content < 8)%nat ->
  load_or_regenerate 0 w = Panic w.
Proof.
  intros Hdisk Hlen. unfold load_or_regenerate, bind at 1, get.
  rewrite Hdisk.
  pose proof (short_file_slicing content (slack w) Hlen) as Hs.
  unfold bind at 1.
  destruct (reslice (ReadAll content (slack w)) 0 8) as [hdr |]; [| reflexivity].
  destruct Hs as (num & Hn & Hpos & Hd).
  cbn [lift ret_]. unfold bind at 1. rewrite Hn. cbn [lift ret_].
  destruct (Z.ltb_spec num 0) as [Hlt | _]; [lia |].
  unfold bind at 1. rewrite Hd. reflexivity.
Qed.

(** The file is its header alone, with an epoch at or above the target:
    [&data[0]] panics on the empty payload. *)
Lemma load_header_only_file (seedNum : Z) (w : World) (content : list byte) :
  disk w = Some content ->
  length content = 8%nat ->
  seedNum <= Bytes2Big (firstn 8 content) ->
  load_or_regenerate seedNum w = Panic w.
Proof.
  intros Hdisk Hlen Hnew. unfold load_or_regenerate, bind at 1, get.
  rewrite Hdisk.
  destruct (header_of_file content (slack w) ltac:(lia)) as (hdr & Hh & Hn).
  unfold bind at 1. rewrite Hh. cbn [lift ret_].
  unfold bind at 1. rewrite Hn. cbn [lift ret_].
  destruct (Z.ltb_spec (Bytes2Big (firstn 8 content)) seedNum) as [Hlt | _]; [lia |].
  unfold reslice_from, reslice, ReadAll. cbn [s_arr s_len].
  rewrite length_app, Hlen. cbn [Nat.leb Nat.add andb Nat.sub].
  reflexivity.
Qed.

Lemma C_free_Ret_inv (b b' : block) (w w' : World) :
  C_free b w = Ret b' w' -> b = Malloced /\ b' = Freed /\ w' = w.
Proof. destruct b; intros H; inversion H. auto. Qed.

Lemma free_held_dag_Ret (e : Ethash) (w : World) :
  dag_freeable e -> free_held_dag e w = Ret tt w.
Proof.
  intros Hfr. unfold free_held_dag.
  destruct (dag e) as [d |] eqn:Hd; [| reflexivity].
  unfold bind, C_free. rewrite (Hfr d Hd). reflexivity.
Qed.

Lemma dag_freeable_None (e : Ethash) : dag e = None -> dag_freeable e.
Proof. intros H d Hd. rewrite H in Hd. discriminate. Qed.

(** [updateDAG] with both mutexes free and a DAG that is missing or of
    another epoch, when the DAG that is held can be freed. *)
Lemma updateDAG_stale_unfold (w : World) :
  cacheMutex (pow w) = false ->
  dagMutex (pow w) = false ->
  dag_is_stale (pow w) (GetSeedBlockNum (chain_head w)) = true ->
  dag_freeable (pow w) ->
  updateDAG w
  = bind (load_or_regenerate (GetSeedBlockNum (chain_head w)))
      (fun _ => bind (Unlock DagMutex) (fun _ => Unlock CacheMutex))
      (let wl := acquire DagMutex (acquire CacheMutex w) in
       set_pow wl (set_dag (pow wl) None)).
Proof.
  intros Hc Hd Hstale Hfr. unfold updateDAG.
  rewrite (bind_Ret _ _ _ _ _ (Lock_free CacheMutex w Hc)).
  assert (Hd' : held (pow (acquire CacheMutex w)) DagMutex = false).
  { cbn. destruct (pow w); cbn in *. exact Hd. }
  rewrite (bind_Ret _ _ _ _ _ (Lock_free DagMutex _ Hd')).
  unfold bind at 1. unfold get at 1.
  replace (dag_is_stale (pow (acquire DagMutex (acquire CacheMutex w)))
             (GetSeedBlockNum (chain_head (acquire DagMutex (acquire CacheMutex w)))))
    with true
    by (rewrite <- Hstale; cbn; destruct (pow w); reflexivity).
  assert (Hfr' : dag_freeable (pow (acquire DagMutex (acquire CacheMutex w)))).
  { intros d Hdg. apply Hfr. rewrite <- Hdg. cbn. destruct (pow w); reflexivity. }
  unfold bind at 1. unfold bind at 1.
  rewrite (free_held_dag_Ret _ _ Hfr').
  reflexivity.
Qed.

(** [updateDAG] with both mutexes free and a DAG of another epoch whose
    block is not a live [malloc] block (a DAG taken from the file, or one
    that [Stop] freed): [C.free] faults, with both mutexes held. *)
Lemma updateDAG_stale_fault (w : World) (d : DAG) :
  cacheMutex (pow w) = false ->
  dagMutex (pow w) = false ->
  dag_is_stale (pow w) (GetSeedBlockNum (chain_head w)) = true ->
  dag (pow w) = Some d ->
  DAG_block d <> Malloced ->
  updateDAG w = Fault (acquire DagMutex (acquire CacheMutex w)).
Proof.
  intros Hc Hd Hstale Hdag Hblk. unfold updateDAG.
  rewrite (bind_Ret _ _ _ _ _ (Lock_free CacheMutex w Hc)).
  assert (Hd' : held (pow (acquire CacheMutex w)) DagMutex = false).
  { cbn. destruct (pow w); cbn in *. exact Hd. }
  rewrite (bind_Ret _ _ _ _ _ (Lock_free DagMutex _ Hd')).
  unfold bind at 1. unfold get at 1.
  replace (dag_is_stale (pow (acquire DagMutex (acquire CacheMutex w)))
             (GetSeedBlockNum (chain_head (acquire DagMutex (acquire CacheMutex w)))))
    with true
    by (rewrite <- Hstale; cbn; destruct (pow w); reflexivity).
  unfold bind at 1. unfold bind at 1. unfold free_held_dag.
  replace (dag (pow (acquire DagMutex (acquire CacheMutex w)))) with (Some d)
    by (rewrite <- Hdag; cbn; destruct (pow w); reflexivity).
  unfold bind, C_free. destruct (DAG_block d); [contradiction | reflexivity | reflexivity].
Qed.

(** The file is missing: a DAG is built from the cache that is held, as it
    is, and written under the target epoch. *)
Lemma updateDAG_missing_file (w : World) :
  cacheMutex (pow w) = false ->
  dagMutex (pow w) = false ->
  dag_is_stale (pow w) (GetSeedBlockNum (chain_head w)) = true ->
  dag_freeable (pow w) ->
  disk w = None ->
  0 <= to_int32 (full_size (PAC_params (paramsAndCache (pow w)))) ->
  exists w1,
    updateDAG w = Ret tt w1 /\
    paramsAndCache (pow w1) = paramsAndCache (pow w) /\
    dag (pow w1) = Some (built_dag (paramsAndCache (pow w))) /\
    disk w1 = Some (PutUint64 (GetSeedBlockNum (chain_head w))
                      ++ firstn (Z.to_nat (to_int32
                           (full_size (PAC_params (paramsAndCache (pow w))))))
                           (DAG_dag (built_dag (paramsAndCache (pow w))))) /\
    trace w1 = trace w ++ [ELock CacheMutex; ELock DagMutex; ECall c_compute_full_data;
                           EWrite; EUnlock DagMutex; EUnlock CacheMutex].
Proof.
  intros Hc Hd Hstale Hfr Hdisk Hsize.
  rewrite (updateDAG_stale_unfold w Hc Hd Hstale Hfr). cbv zeta.
  erewrite bind_Ret.
  2:{ apply load_missing_file; [exact Hdisk |].
      cbn. destruct (pow w); cbn in *. exact Hsize. }
  destruct w as [hd dk sl e tr]; destruct e as [tb hr dg pac rt dm cm].
  cbn in *. subst. eexists. split; [reflexivity |]. cbn.
  repeat split. repeat rewrite <- app_assoc. reflexivity.
Qed.


(** The file starts with an epoch at or above the target and has a
    payload: the payload becomes the DAG, recorded under the epoch of the
    cache that is held; nothing is computed and nothing is written. *)
Lemma updateDAG_current_file (w : World) (content : list byte) :
  cacheMutex (pow w) = false ->
  dagMutex (pow w) = false ->
  dag_is_stale (pow w) (GetSeedBlockNum (chain_head w)) = true ->
  dag_freeable (pow w) ->
  disk w = Some content ->
  (8 < length content)%nat ->
  GetSeedBlockNum (chain_head w) <= Bytes2Big (firstn 8 content) ->
  exists w1,
    updateDAG w = Ret tt w1 /\
    dag (pow w1)
    = Some (mk_DAG (PAC_SeedBlockNum (paramsAndCache (pow w))) (skipn 8 content) GoMemory) /\
    disk w1 = disk w /\
    trace w1 = trace w ++ [ELock CacheMutex; ELock DagMutex;
                           EUnlock DagMutex; EUnlock CacheMutex].
Proof.
  intros Hc Hd Hstale Hfr Hdisk Hlen Hnew.
  rewrite (updateDAG_stale_unfold w Hc Hd Hstale Hfr). cbv zeta.
  erewrite bind_Ret.
  2:{ apply (load_current_file _ _ content); [exact Hdisk | exact Hlen | exact Hnew]. }
  destruct w as [hd dk sl e tr]; destruct e as [tb hr dg pac rt dm cm].
  cbn in *. subst. eexists. split; [reflexivity |]. cbn.
  repeat split. repeat rewrite <- app_assoc. reflexivity.
Qed.

(** The file is shorter than its header and the target epoch is 0:
    [updateDAG] panics, with both mutexes still locked. *)
Lemma updateDAG_short_file (w : World) (content : list byte) :
  cacheMutex (pow w) = false ->
  dagMutex (pow w) = false ->
  dag_is_stale (pow w) 0 = true ->
  dag_freeable (pow w) ->
  GetSeedBlockNum (chain_head w) = 0 ->
  disk w = Some content ->
  (length content < 8)%nat ->
  exists w1,
    updateDAG w = Panic w1 /\
    cacheMutex (pow w1) = true /\ dagMutex (pow w1) = true /\
    dag (pow w1) = None /\ disk w1 = disk w.
Proof.
  intros Hc Hd Hstale Hfr Hzero Hdisk Hlen.
  rewrite <- Hzero in Hstale.
  rewrite (updateDAG_stale_unfold w Hc Hd Hstale Hfr). cbv zeta.
  rewrite Hzero. unfold bind at 1.
  rewrite (load_short_file _ content) by (try exact Hdisk; exact Hlen).
  eexists. split; [reflexivity |].
  destruct w as [hd dk sl e tr]; destruct e as [tb hr dg pac rt dm cm].
  cbn. repeat split.
Qed.


(** ** Traces only grow; the lock order of [Search] *)

Lemma grows_now {A : Type} (m : M A) :
  (forall w, trace (world_of (m w)) = trace w) -> trace_grows m.
Proof. intros H w. exists []. rewrite app_nil_r. apply H. Qed.

Lemma grows_bind {A B : Type} (m : M A) (k : A -> M B) :
  trace_grows m -> (forall a, trace_grows (k a)) -> trace_grows (bind m k).
Proof.
  intros Hm Hk w. unfold bind. destruct (Hm w) as (t & Ht).
  destruct (m w) as [a w1 | w1 | w1 | w1 | w1]; cbn [world_of] in *;
    try (exists t; exact Ht).
  destruct (Hk a w1) as (u & Hu). exists (t ++ u).
  rewrite Hu, Ht, app_assoc. reflexivity.
Qed.

Lemma grows_lift {A : Type} (o : option A) : trace_grows (lift o).
Proof. apply grows_now. intros w. destruct o; reflexivity. Qed.

Lemma grows_modify_pow (f : Ethash -> Ethash) : trace_grows (modify_pow f).
Proof. apply grows_now. reflexivity. Qed.

Lemma grows_log (e : event) : trace_grows (log e).
Proof. intros w. exists [e]. reflexivity. Qed.

Lemma grows_Unlock (m : mutex) : trace_grows (Unlock m).
Proof.
  intros w. unfold Unlock. destruct (held (pow w) m).
  - exists [EUnlock m]. reflexivity.
  - exists []. rewrite app_nil_r. reflexivity.
Qed.

Lemma grows_defer {A : Type} (c : M unit) (body : M A) :
  trace_grows c -> trace_grows body -> trace_grows (defer c body).
Proof.
  intros Hc Hb w. unfold defer. destruct (Hb w) as (t & Ht).
  destruct (body w) as [a w1 | w1 | w1 | w1 | w1]; cbn [world_of] in *;
    try (exists t; exact Ht);
    destruct (Hc w1) as (u & Hu); exists (t ++ u);
    rewrite app_assoc, <- Ht, <- Hu;
    destruct (c w1); reflexivity.
Qed.

Lemma grows_search_loop (env : SearchEnv) (block : Block) (h : list byte)
  (target : Z) (fuel : nat) :
  forall k nonce, trace_grows (search_loop env block h target fuel k nonce).
Proof.
  induction fuel as [| fuel IH]; intros k nonce; cbn [search_loop].
  - apply grows_now. reflexivity.
  - destruct (stop env k).
    + apply grows_bind; [apply grows_modify_pow |].
      intros _. apply grows_now. reflexivity.
    + apply grows_bind; [apply grows_modify_pow | intros _].
      apply grows_bind; [apply grows_now; reflexivity | intros w0].
      apply grows_bind; [apply grows_lift | intros d].
      apply grows_bind; [apply grows_log | intros _].
      apply grows_bind; [apply grows_modify_pow | intros _].
      destruct (Bytes2Big _ <=? target); [apply grows_now; reflexivity | apply IH].
Qed.

(** Every [Search] that gets past [updateDAG] takes the DAG mutex and
    then, holding it, the cache mutex: its trace breaks the order "cache
    before DAG", whatever libethash, the chain, the block and the stop
    signal are, and however the search ends. *)
Lemma Search_lock_order (env : SearchEnv) (fuel : nat) (block : Block)
  (w w1 : World) :
  updateDAG w = Ret tt w1 ->
  (exists t, added w1 (world_of (Search env fuel block w))
             = ELock DagMutex :: ELock CacheMutex :: t) /\
  lock_order_ok false (added w1 (world_of (Search env fuel block w))) = false.
Proof.
  intros Hupd.
  assert (Hpre : exists t, added w1 (world_of (Search env fuel block w))
                           = ELock DagMutex :: ELock CacheMutex :: t).
  { destruct (updateDAG_Ret_unlocked _ _ _ Hupd) as [Hd Hc].
    unfold Search.
    rewrite (bind_Ret _ _ _ _ _ Hupd).
    rewrite (bind_Ret _ _ _ _ _ (Lock_free DagMutex w1 Hd)).
    assert (Hc' : held (pow (acquire DagMutex w1)) CacheMutex = false).
    { cbn. destruct (pow w1); cbn in *. exact Hc. }
    rewrite (bind_Ret _ _ _ _ _ (Lock_free CacheMutex _ Hc')).
    match goal with
    | |- exists t, added _ (world_of (?m ?w3)) = _ =>
        assert (Hg : trace_grows m)
    end.
    { apply grows_defer; [apply grows_Unlock |].
      apply grows_defer; [apply grows_Unlock |].
      apply grows_bind; [apply grows_lift | intros h].
      apply grows_bind; [apply grows_lift | intros target].
      apply grows_search_loop. }
    destruct (Hg (acquire CacheMutex (acquire DagMutex w1))) as (t & Ht).
    exists t. apply added_app. rewrite Ht. cbn [acquire emit set_pow trace].
    repeat rewrite <- app_assoc. reflexivity. }
  split; [exact Hpre |].
  destruct Hpre as (t & ->). reflexivity.
Qed.


(** * Further properties of the code *)

(** ** Epoch boundaries *)

Lemma GetSeedBlockNum_mono (h1 h2 : Z) :
  is_uint64 h1 -> is_uint64 h2 -> h1 <= h2 ->
  GetSeedBlockNum h1 <= GetSeedBlockNum h2.
Proof.
  intros H1 H2 Hle.
  destruct (Z_le_gt_dec h1 epochLength) as [Hlow | Hhigh].
  - rewrite (GetSeedBlockNum_low h1 Hlow).
    apply (GetSeedBlockNum_range h2 H2).
  - rewrite (GetSeedBlockNum_high h1 H1) by lia.
    rewrite (GetSeedBlockNum_high h2 H2) by lia.
    unfold epochLength in *.
    apply Z.mul_le_mono_nonneg_r; [lia |].
    apply Z.div_le_mono; lia.
Qed.

(** X1. The seed block number of a height is a multiple of 30000; for a
    height above 30000 it lies strictly below the height and at most 30000
    below it; and it never decreases when the height grows. *)
Theorem X1_seed_block_aligned_and_recent (h h' : Z)
  (Hh : is_uint64 h) (Hh' : is_uint64 h') (Hle : h <= h') :
  GetSeedBlockNum h mod 30000 = 0 /\
  (30000 < h -> GetSeedBlockNum h < h <= GetSeedBlockNum h + 30000) /\
  GetSeedBlockNum h <= GetSeedBlockNum h'.
Proof.
  split; [| split].
  - destruct (Z_le_gt_dec h epochLength) as [Hlow | Hhigh].
    + rewrite (GetSeedBlockNum_low h Hlow). reflexivity.
    + rewrite (GetSeedBlockNum_high h Hh) by lia.
      unfold epochLength. apply Z.mod_mul. lia.
  - intros Hhigh.
    rewrite (GetSeedBlockNum_high h Hh) by (unfold epochLength; lia).
    unfold epochLength.
    pose proof (Z.mul_div_le (h - 1) 30000 ltac:(lia)).
    pose proof (Z.mul_succ_div_gt (h - 1) 30000 ltac:(lia)).
    lia.
  - apply GetSeedBlockNum_mono; assumption.
Qed.

(** X2. A seed block is not its own seed block: for a height above 30000,
    the seed block number of the seed block is one epoch further back. *)
Theorem X2_seed_block_of_seed_block (h : Z)
  (Hh : is_uint64 h) (Hhigh : 30000 < h) :
  GetSeedBlockNum (GetSeedBlockNum h) = GetSeedBlockNum h - 30000.
Proof.
  pose proof (GetSeedBlockNum_range h Hh) as [Hr _].
  rewrite (GetSeedBlockNum_high h Hh) in * by (unfold epochLength; lia).
  unfold epochLength in *.
  set (q := (h - 1) / 30000) in *.
  assert (Hq : 1 <= q).
  { unfold q. apply Z.div_le_lower_bound; lia. }
  destruct (Z.eq_dec q 1) as [-> | Hne].
  - reflexivity.
  - rewrite (GetSeedBlockNum_high (q * 30000) Hr) by (unfold epochLength; lia).
    unfold epochLength.
    replace (q * 30000 - 1) with ((q - 1) * 30000 + 29999) by lia.
    rewrite Z.div_add_l by lia.
    rewrite (Z.div_small 29999 30000) by lia. lia.
Qed.


(** ** What [updateDAG] does and leaves alone *)

Lemma regenerate_Ret_inv (seedNum : Z) (w w1 : World) (u : unit) :
  regenerate seedNum w = Ret u w1 ->
  0 <= to_int32 (full_size (PAC_params (paramsAndCache (pow w)))) /\
  w1 = regenerated seedNum w.
Proof.
  intros H.
  destruct (Z_lt_ge_dec (to_int32 (full_size (PAC_params (paramsAndCache (pow w))))) 0)
    as [Hneg | Hpos].
  - exfalso. revert H.
    unfold regenerate, makeDAG, writeDagToDisk, bind, get, log, modify_pow, ret_, GoBytes.
    destruct w as [hd dk sl e tr]; destruct e as [tb hr dg pac rt dm cm].
    cbn [pow set_pow emit set_dag paramsAndCache] in *.
    destruct (Z.ltb_spec (to_int32 (full_size (PAC_params pac))) 0) as [_ | Hge]; [| lia].
    discriminate.
  - split; [lia |].
    rewrite regenerate_run in H by lia. destruct u. inversion H. reflexivity.
Qed.

(** A return of the body of [updateDAG]: a DAG was built and written, or
    the payload of a file with an epoch at or above the target was taken. *)
Lemma load_or_regenerate_Ret_inv (seedNum : Z) (w w1 : World) (u : unit) :
  load_or_regenerate seedNum w = Ret u w1 ->
  (0 <= to_int32 (full_size (PAC_params (paramsAndCache (pow w)))) /\
   w1 = regenerated seedNum w) \/
  (exists content,
     disk w = Some content /\ (8 < length content)%nat /\
     seedNum <= Bytes2Big (firstn 8 content) /\
     w1 = adopted content w).
Proof.
  unfold load_or_regenerate, bind at 1, get. intros H.
  destruct (disk w) as [content |] eqn:Hdisk.
  - apply bind_Ret_inv in H as (hdr & wa & Hh & H).
    apply lift_Ret_inv in Hh as [Hh ->].
    apply bind_Ret_inv in H as (num & wb & Hn & H).
    apply lift_Ret_inv in Hn as [Hn ->].
    destruct (Z.ltb_spec num seedNum) as [Hlt | Hge].
    + left. exact (regenerate_Ret_inv _ _ _ _ H).
    + right.
      apply bind_Ret_inv in H as (data' & wc & Hd & H).
      apply lift_Ret_inv in Hd as [Hd ->].
      apply bind_Ret_inv in H as (p & wd & Hp & H).
      apply lift_Ret_inv in Hp as [Hp ->].
      assert (Hlen : (8 < length content)%nat).
      { revert Hd Hp. unfold reslice_from, reslice, ReadAll. cbn [s_arr s_len].
        destruct (Nat.leb_spec 8 (length content)) as [H8 |]; [| discriminate].
        destruct (length content <=? length (content ++ slack w))%nat; [| discriminate].
        cbn [andb]. intros Hd. inversion Hd; subst data'.
        unfold addr0. cbn [s_len].
        destruct (length content - 8)%nat eqn:Hz; [discriminate |]. lia. }
      destruct (header_of_file content (slack w) ltac:(lia)) as (hdr' & Hh' & Hn').
      rewrite Hh in Hh'. inversion Hh'; subst hdr'.
      rewrite Hn in Hn'. inversion Hn'; subst num.
      destruct (payload_of_file content (slack w) Hlen) as (data'' & Hd' & Hp').
      rewrite Hd in Hd'. inversion Hd'; subst data''.
      rewrite Hp in Hp'. inversion Hp'; subst p.
      exists content. repeat split; try assumption.
      unfold modify_pow in H. destruct u. inversion H. reflexivity.
  - left. exact (regenerate_Ret_inv _ _ _ _ H).
Qed.

(** The world after [updateDAG] took both mutexes and set [pow.dag = nil]. *)
Lemma updateDAG_Ret_inv (w w1 : World) (u : unit) :
  updateDAG w = Ret u w1 ->
  cacheMutex (pow w) = false /\ dagMutex (pow w) = false /\
  ((dag_is_stale (pow w) (GetSeedBlockNum (chain_head w)) = false /\
    w1 = release CacheMutex (release DagMutex
           (acquire DagMutex (acquire CacheMutex w)))) \/
   (dag_is_stale (pow w) (GetSeedBlockNum (chain_head w)) = true /\
    exists w2,
      load_or_regenerate (GetSeedBlockNum (chain_head w))
        (let wl := acquire DagMutex (acquire CacheMutex w) in
         set_pow wl (set_dag (pow wl) None)) = Ret tt w2 /\
      w1 = release CacheMutex (release DagMutex w2))).
Proof.
  intros H. pose proof H as H0. unfold updateDAG in H.
  apply bind_Ret_inv in H as (? & wa & Hc & _).
  apply Lock_Ret_inv in Hc as (Hc & ->).
  assert (Hc' : cacheMutex (pow w) = false) by exact Hc.
  assert (Hd' : dagMutex (pow w) = false).
  { unfold updateDAG in H0.
    rewrite (bind_Ret _ _ _ _ _ (Lock_free CacheMutex w Hc)) in H0.
    apply bind_Ret_inv in H0 as (? & wb & Hd & _).
    apply Lock_Ret_inv in Hd as (Hd & _).
    cbn in Hd. destruct (pow w); cbn in *. exact Hd. }
  split; [exact Hc' |]. split; [exact Hd' |].
  destruct (dag_is_stale (pow w) (GetSeedBlockNum (chain_head w))) eqn:Hstale.
  - right. split; [reflexivity |].
    assert (Hfr : dag_freeable (pow w)).
    { intros d Hdag. destruct (DAG_block d) eqn:Hblk; [reflexivity | |];
        rewrite (updateDAG_stale_fault w d Hc' Hd' Hstale Hdag) in H0
          by (rewrite Hblk; discriminate);
        discriminate. }
    rewrite (updateDAG_stale_unfold w Hc' Hd' Hstale Hfr) in H0.
    apply bind_Ret_inv in H0 as ([] & w2 & Hload & H0).
    apply bind_Ret_inv in H0 as (? & w3 & Hud & Huc).
    apply Unlock_Ret_inv in Hud as (_ & ->).
    apply Unlock_Ret_inv in Huc as (_ & ->).
    exists w2. split; [exact Hload | reflexivity].
  - left. split; [reflexivity |].
    unfold updateDAG in H0.
    rewrite (bind_Ret _ _ _ _ _ (Lock_free CacheMutex w Hc')) in H0.
    assert (Hd'' : held (pow (acquire CacheMutex w)) DagMutex = false).
    { cbn. destruct (pow w); cbn in *. exact Hd'. }
    rewrite (bind_Ret _ _ _ _ _ (Lock_free DagMutex _ Hd'')) in H0.
    unfold bind at 1 in H0. unfold get at 1 in H0.
    replace (dag_is_stale (pow (acquire DagMutex (acquire CacheMutex w)))
               (GetSeedBlockNum (chain_head (acquire DagMutex (acquire CacheMutex w)))))
      with false in H0
      by (rewrite <- Hstale; cbn; destruct (pow w); reflexivity).
    unfold bind at 1 in H0. cbn [ret_] in H0.
    apply bind_Ret_inv in H0 as (? & w3 & Hud & Huc).
    apply Unlock_Ret_inv in Hud as (_ & ->).
    apply Unlock_Ret_inv in Huc as (_ & ->).
    reflexivity.
Qed.

(** With both mutexes free and a DAG of the target epoch, [updateDAG]
    takes and gives back the two mutexes and does nothing else. *)
Lemma updateDAG_current (w : World) :
  cacheMutex (pow w) = false ->
  dagMutex (pow w) = false ->
  dag_is_stale (pow w) (GetSeedBlockNum (chain_head w)) = false ->
  exists w1,
    updateDAG w = Ret tt w1 /\
    pow w1 = pow w /\ disk w1 = disk w /\ chain_head w1 = chain_head w /\
    slack w1 = slack w /\
    trace w1 = trace w ++ [ELock CacheMutex; ELock DagMutex;
                           EUnlock DagMutex; EUnlock CacheMutex].
Proof.
  intros Hc Hd Hstale. unfold updateDAG.
  rewrite (bind_Ret _ _ _ _ _ (Lock_free CacheMutex w Hc)).
  assert (Hd' : held (pow (acquire CacheMutex w)) DagMutex = false).
  { cbn. destruct (pow w); cbn in *. exact Hd. }
  rewrite (bind_Ret _ _ _ _ _ (Lock_free DagMutex _ Hd')).
  unfold bind at 1. unfold get at 1.
  replace (dag_is_stale (pow (acquire DagMutex (acquire CacheMutex w)))
             (GetSeedBlockNum (chain_head (acquire DagMutex (acquire CacheMutex w)))))
    with false
    by (rewrite <- Hstale; cbn; destruct (pow w); reflexivity).
  destruct w as [hd dk sl e tr]; destruct e as [tb hr dg pac rt dm cm].
  cbn in *. subst. eexists. split; [reflexivity |]. cbn.
  repeat split. repeat rewrite <- app_assoc. reflexivity.
Qed.

(** What every return of [updateDAG] keeps and establishes. *)
Lemma updateDAG_Ret_facts (w w1 : World) (u : unit) :
  updateDAG w = Ret u w1 ->
  paramsAndCache (pow w1) = paramsAndCache (pow w) /\
  chain_head w1 = chain_head w /\
  slack w1 = slack w /\
  HashRate (pow w1) = HashRate (pow w) /\
  ret (pow w1) = ret (pow w) /\
  turbo (pow w1) = turbo (pow w) /\
  count_calls c_mkcache (added w w1) = 0%nat /\
  exists d,
    dag (pow w1) = Some d /\
    (dag_is_stale (pow w) (GetSeedBlockNum (chain_head w)) = false ->
     DAG_SeedBlockNum d = GetSeedBlockNum (chain_head w)) /\
    (dag_is_stale (pow w) (GetSeedBlockNum (chain_head w)) = true ->
     DAG_SeedBlockNum d = PAC_SeedBlockNum (paramsAndCache (pow w))).
Proof.
  intros H. apply updateDAG_Ret_inv in H as (Hc & Hd & [[Hs ->] | [Hs (w2 & Hload & ->)]]).
  - destruct w as [hd dk sl e tr]; destruct e as [tb hr dg pac rt dm cm].
    unfold dag_is_stale in *. cbn in *. subst.
    do 6 (split; [reflexivity |]).
    split.
    + unfold added. cbn. repeat rewrite <- app_assoc.
      rewrite skipn_app, skipn_all, Nat.sub_diag. reflexivity.
    + destruct dg as [d |]; [| discriminate].
      exists d. split; [reflexivity |]. split; [| intros Hs'; congruence].
      intros _. apply negb_false_iff in Hs. apply Z.eqb_eq in Hs. exact Hs.
  - cbv zeta in Hload.
    apply load_or_regenerate_Ret_inv in Hload
      as [[_ ->] | (content & _ & _ & _ & ->)];
      destruct w as [hd dk sl e tr]; destruct e as [tb hr dg pac rt dm cm];
      cbn in *; subst;
      do 6 (split; [reflexivity |]);
      (split;
       [ unfold added; cbn; repeat rewrite <- app_assoc;
         rewrite skipn_app, skipn_all, Nat.sub_diag; reflexivity
       | eexists; split; [reflexivity |];
         split; [intros Hs'; congruence | reflexivity] ]).
Qed.


(** X3. When both mutexes are free and the held DAG is recorded under the
    target epoch, [updateDAG] leaves the [Ethash] object and the file as
    they are: it calls nothing in libethash and writes nothing, and it
    does not look at the file, which may be missing or malformed. *)
Theorem X3_updateDAG_current_is_noop (w : World) (d : DAG)
  (Hc : cacheMutex (pow w) = false)
  (Hd : dagMutex (pow w) = false)
  (Hdag : dag (pow w) = Some d)
  (Hcur : DAG_SeedBlockNum d = GetSeedBlockNum (chain_head w)) :
  exists w1,
    updateDAG w = Ret tt w1 /\
    pow w1 = pow w /\ disk w1 = disk w /\
    added w w1 = [ELock CacheMutex; ELock DagMutex; EUnlock DagMutex; EUnlock CacheMutex].
Proof.
  assert (Hstale : dag_is_stale (pow w) (GetSeedBlockNum (chain_head w)) = false).
  { unfold dag_is_stale. rewrite Hdag, Hcur, Z.eqb_refl. reflexivity. }
  destruct (updateDAG_current w Hc Hd Hstale) as (w1 & Hrun & Hp & Hdk & _ & _ & Ht).
  exists w1. repeat split; try assumption.
  apply added_app. exact Ht.
Qed.

(** X4. Every [updateDAG] that returns has left the cache, its
    parameters, the hash rate, [pow.ret] and the turbo flag alone and has
    built no cache; it leaves a DAG (never nil) and both mutexes free.
    When the DAG that was held was already of the target epoch, that same
    DAG is left; otherwise the DAG that is left is recorded under the
    epoch of the held cache, whatever the target epoch is. *)
Theorem X4_updateDAG_leaves_cache_alone (w w1 : World)
  (Hrun : updateDAG w = Ret tt w1) :
  paramsAndCache (pow w1) = paramsAndCache (pow w) /\
  HashRate (pow w1) = HashRate (pow w) /\
  ret (pow w1) = ret (pow w) /\
  turbo (pow w1) = turbo (pow w) /\
  count_calls c_mkcache (added w w1) = 0%nat /\
  dagMutex (pow w1) = false /\ cacheMutex (pow w1) = false /\
  exists d,
    dag (pow w1) = Some d /\
    if dag_is_stale (pow w) (GetSeedBlockNum (chain_head w))
    then DAG_SeedBlockNum d = PAC_SeedBlockNum (paramsAndCache (pow w))
    else dag (pow w) = Some d /\
         DAG_SeedBlockNum d = GetSeedBlockNum (chain_head w).
Proof.
  destruct (updateDAG_Ret_unlocked _ _ _ Hrun) as [Hd Hc].
  destruct (updateDAG_Ret_facts _ _ _ Hrun)
    as (Hp & _ & _ & Hr & Ht & Htb & Hn & d & Hdag & Hcur & Hst).
  repeat split; try assumption.
  exists d. split; [exact Hdag |].
  destruct (dag_is_stale (pow w) (GetSeedBlockNum (chain_head w))) eqn:Hs.
  - exact (Hst eq_refl).
  - split; [| exact (Hcur eq_refl)].
    apply updateDAG_Ret_inv in Hrun as (_ & _ & [[_ ->] | [Hs' _]]); [| congruence].
    rewrite <- Hdag. cbn. destruct (pow w); reflexivity.
Qed.

(** X5. When the held cache is of the target epoch, [updateDAG] is
    idempotent: after one call that returns, a second call at the same
    chain head returns too and only takes and gives back the mutexes. *)
Theorem X5_updateDAG_idempotent_when_cache_current (w w1 : World)
  (Hrun : updateDAG w = Ret tt w1)
  (Hcache : PAC_SeedBlockNum (paramsAndCache (pow w)) = GetSeedBlockNum (chain_head w)) :
  exists w2,
    updateDAG w1 = Ret tt w2 /\
    pow w2 = pow w1 /\ disk w2 = disk w1 /\
    added w1 w2 = [ELock CacheMutex; ELock DagMutex; EUnlock DagMutex; EUnlock CacheMutex].
Proof.
  destruct (updateDAG_Ret_unlocked _ _ _ Hrun) as [Hd Hc].
  destruct (updateDAG_Ret_facts _ _ _ Hrun)
    as (_ & Hh & _ & _ & _ & _ & _ & d & Hdag & Hcur & Hst).
  assert (Hstale : dag_is_stale (pow w1) (GetSeedBlockNum (chain_head w1)) = false).
  { unfold dag_is_stale at 1. rewrite Hdag, Hh.
    destruct (dag_is_stale (pow w) (GetSeedBlockNum (chain_head w))).
    - rewrite (Hst eq_refl), Hcache, Z.eqb_refl. reflexivity.
    - rewrite (Hcur eq_refl), Z.eqb_refl. reflexivity. }
  destruct (updateDAG_current w1 Hc Hd Hstale) as (w2 & Hrun2 & Hp & Hdk & _ & _ & Ht).
  exists w2. repeat split; try assumption.
  apply added_app. exact Ht.
Qed.




(** ** The file written and read back *)

Lemma byte_to_of_Z (z : Z) : byte_to_Z (byte_of_Z z) = z mod 256.
Proof.
  unfold byte_to_Z, byte_of_Z.
  pose proof (Z.mod_pos_bound z 256 ltac:(lia)) as Hb.
  destruct (Byte.of_N (Z.to_N (z mod 256))) as [b |] eqn:Hof.
  - rewrite (@Byte.to_of_N _ _ Hof). rewrite Z2N.id by lia. reflexivity.
  - apply Byte.of_N_None_iff in Hof. lia.
Qed.

Lemma PutUint64_length (v : Z) : length (PutUint64 v) = 8%nat.
Proof. reflexivity. Qed.

(** [binary.BigEndian.Uint64] reads back what [PutUint64] wrote. *)
Lemma Bytes2Big_PutUint64 (v : Z) : is_uint64 v -> Bytes2Big (PutUint64 v) = v.
Proof.
  unfold is_uint64. intros Hv. unfold Bytes2Big, PutUint64.
  cbn [map fold_left]. rewrite !byte_to_of_Z, !Z.shiftr_div_pow2 by lia.
  change (2 ^ (8 * 0)) with 1. change (2 ^ (8 * 1)) with 256.
  change (2 ^ (8 * 2)) with 65536. change (2 ^ (8 * 3)) with 16777216.
  change (2 ^ (8 * 4)) with 4294967296. change (2 ^ (8 * 5)) with 1099511627776.
  change (2 ^ (8 * 6)) with 281474976710656.
  change (2 ^ (8 * 7)) with 72057594037927936.
  change (2 ^ 64) with 18446744073709551616 in Hv.
  rewrite Z.div_1_r.
  Z.div_mod_to_equations. lia.
Qed.

Lemma to_int32_small (z : Z) : 0 <= z < 2 ^ 31 -> to_int32 z = z.
Proof. intros Hz. unfold to_int32. rewrite Z.mod_small; lia. Qed.

(** X7. Write and read back.  When the file is missing, the DAG size is
    positive and below [2^31] and the DAG that is held, if any, is a live
    [malloc] block (so that [C.free] returns), [updateDAG] writes a file
    that a process with no DAG, at the same chain head, takes back as its
    DAG with exactly the bytes that were built, without calling libethash
    and without touching the file; the DAG taken back is Go memory. *)
Theorem X7_written_file_is_read_back (w : World)
  (Hc : cacheMutex (pow w) = false)
  (Hd : dagMutex (pow w) = false)
  (Hstale : dag_is_stale (pow w) (GetSeedBlockNum (chain_head w)) = true)
  (Hfr : dag_freeable (pow w))
  (Hdisk : disk w = None)
  (Hhead : is_uint64 (chain_head w))
  (Hsize : 0 < full_size (PAC_params (paramsAndCache (pow w))) < 2 ^ 31) :
  exists w1,
    updateDAG w = Ret tt w1 /\
    disk w1 = Some (PutUint64 (GetSeedBlockNum (chain_head w))
                      ++ DAG_dag (built_dag (paramsAndCache (pow w)))) /\
    forall v,
      disk v = disk w1 ->
      chain_head v = chain_head w ->
      dag (pow v) = None ->
      cacheMutex (pow v) = false ->
      dagMutex (pow v) = false ->
      exists v1,
        updateDAG v = Ret tt v1 /\
        dag (pow v1)
        = Some (mk_DAG (PAC_SeedBlockNum (paramsAndCache (pow v)))
                  (DAG_dag (built_dag (paramsAndCache (pow w)))) GoMemory) /\
        disk v1 = disk w1 /\
        calls (added v v1) = [].
Proof.
  destruct (updateDAG_missing_file w Hc Hd Hstale Hfr Hdisk)
    as (w1 & Hrun & _ & _ & Hfile & _).
  { rewrite to_int32_small by lia. lia. }
  rewrite to_int32_small in Hfile by lia.
  rewrite firstn_all2 in Hfile by (rewrite built_dag_size; lia).
  exists w1. split; [exact Hrun |]. split; [exact Hfile |].
  intros v Hvd Hvh Hvdag Hvc Hvdm.
  rewrite Hfile in Hvd.
  set (payload := DAG_dag (built_dag (paramsAndCache (pow w)))) in *.
  assert (Hlen : (8 < length (PutUint64 (GetSeedBlockNum (chain_head w)) ++ payload))%nat).
  { rewrite length_app, PutUint64_length. unfold payload. rewrite built_dag_size. lia. }
  assert (Hhdr : firstn 8 (PutUint64 (GetSeedBlockNum (chain_head w)) ++ payload)
                 = PutUint64 (GetSeedBlockNum (chain_head w))).
  { rewrite firstn_app, PutUint64_length. change (8 - 8)%nat with 0%nat.
    rewrite firstn_O, app_nil_r. apply firstn_all2. rewrite PutUint64_length. lia. }
  destruct (updateDAG_current_file v
              (PutUint64 (GetSeedBlockNum (chain_head w)) ++ payload) Hvc Hvdm)
    as (v1 & Hrun' & Hdag' & Hdk' & Ht').
  - unfold dag_is_stale. rewrite Hvdag. reflexivity.
  - apply dag_freeable_None. exact Hvdag.
  - exact Hvd.
  - exact Hlen.
  - rewrite Hhdr, Hvh.
    rewrite Bytes2Big_PutUint64 by (apply GetSeedBlockNum_range; exact Hhead). lia.
  - exists v1. split; [exact Hrun' |]. split; [| split].
    + rewrite Hdag'. reflexivity.
    + rewrite Hdk', Hvd, Hfile. reflexivity.
    + rewrite (added_app _ _ _ Ht'). reflexivity.
Qed.


(** ** Methods that leave the mutexes alone *)

Lemma keeps_now {A : Type} (m : M A) :
  (forall w, dagMutex (pow (world_of (m w))) = dagMutex (pow w) /\
             cacheMutex (pow (world_of (m w))) = cacheMutex (pow w)) ->
  keeps_mutexes m.
Proof. intros H. exact H. Qed.

Lemma keeps_bind {A B : Type} (m : M A) (k : A -> M B) :
  keeps_mutexes m -> (forall a, keeps_mutexes (k a)) -> keeps_mutexes (bind m k).
Proof.
  intros Hm Hk w. unfold bind. destruct (Hm w) as [Hd Hc].
  destruct (m w) as [a w1 | w1 | w1 | w1 | w1]; cbn [world_of] in *; auto.
  destruct (Hk a w1) as [Hd' Hc']. rewrite Hd', Hc'. auto.
Qed.

Lemma keeps_lift {A : Type} (o : option A) : keeps_mutexes (lift o).
Proof. intros w. destruct o; auto. Qed.

Lemma keeps_ret {A : Type} (a : A) : keeps_mutexes (ret_ a).
Proof. intros w. auto. Qed.

Lemma keeps_get : keeps_mutexes get.
Proof. intros w. auto. Qed.

Lemma keeps_log (e : event) : keeps_mutexes (log e).
Proof. intros w. auto. Qed.

Lemma keeps_modify_pow (f : Ethash -> Ethash) :
  (forall e, dagMutex (f e) = dagMutex e /\ cacheMutex (f e) = cacheMutex e) ->
  keeps_mutexes (modify_pow f).
Proof. intros Hf w. apply Hf. Qed.

Lemma keeps_makeParamsAndCache (blockNum : Z) :
  keeps_mutexes (makeParamsAndCache blockNum).
Proof.
  unfold makeParamsAndCache.
  apply keeps_bind; [apply keeps_log | intros _].
  apply keeps_bind; [apply keeps_lift | intros seed].
  apply keeps_bind; [apply keeps_log | intros _]. apply keeps_ret.
Qed.

Lemma keeps_regenerate (seedNum : Z) : keeps_mutexes (regenerate seedNum).
Proof.
  unfold regenerate, makeDAG, writeDagToDisk.
  apply keeps_bind; [apply keeps_get | intros w0].
  apply keeps_bind.
  { apply keeps_bind; [apply keeps_log | intros _]. apply keeps_ret. }
  intros d.
  apply keeps_bind.
  { apply keeps_modify_pow. intros e. destruct e; auto. }
  intros _.
  apply keeps_bind; [apply keeps_get | intros w1].
  apply keeps_bind; [apply keeps_lift | intros data].
  intros w. auto.
Qed.

Lemma keeps_load_or_regenerate (seedNum : Z) :
  keeps_mutexes (load_or_regenerate seedNum).
Proof.
  unfold load_or_regenerate.
  apply keeps_bind; [apply keeps_get | intros w0].
  destruct (disk w0) as [content |]; [| apply keeps_regenerate].
  apply keeps_bind; [apply keeps_lift | intros hdr].
  apply keeps_bind; [apply keeps_lift | intros num].
  destruct (num <? seedNum); [apply keeps_regenerate |].
  apply keeps_bind; [apply keeps_lift | intros data'].
  apply keeps_bind; [apply keeps_lift | intros p].
  apply keeps_modify_pow. intros e. destruct e; auto.
Qed.

Lemma keeps_search_loop (env : SearchEnv) (block : Block) (h : list byte)
  (target : Z) (fuel : nat) :
  forall k nonce, keeps_mutexes (search_loop env block h target fuel k nonce).
Proof.
  induction fuel as [| fuel IH]; intros k nonce; cbn [search_loop].
  - intros w. auto.
  - destruct (stop env k).
    + apply keeps_bind; [| intros _; apply keeps_ret].
      apply keeps_modify_pow. intros e. destruct e; auto.
    + apply keeps_bind.
      { apply keeps_modify_pow. intros e. destruct e; auto. }
      intros _.
      apply keeps_bind; [apply keeps_get | intros w0].
      apply keeps_bind; [apply keeps_lift | intros d].
      apply keeps_bind; [apply keeps_log | intros _].
      apply keeps_bind.
      { apply keeps_modify_pow. intros e. destruct e; auto. }
      intros _.
      destruct (Bytes2Big _ <=? target); [apply keeps_ret | apply IH].
Qed.

Lemma keeps_light_check (pAc : ParamsAndCache) (chash : list byte) (cnonce target : Z) :
  keeps_mutexes (light_check pAc chash cnonce target).
Proof.
  unfold light_check.
  apply keeps_bind; [apply keeps_log | intros _].
  apply keeps_bind; [| intros _; apply keeps_ret].
  apply keeps_modify_pow. intros e. destruct e; auto.
Qed.

(** A panic of [updateDAG] happens with both mutexes taken, and they stay
    taken. *)
Lemma updateDAG_Panic_locked (w w1 : World) :
  updateDAG w = Panic w1 ->
  cacheMutex (pow w1) = true /\ dagMutex (pow w1) = true.
Proof.
  intros H.
  destruct (cacheMutex (pow w)) eqn:Hc.
  { unfold updateDAG, bind at 1, Lock at 1 in H. cbn [held] in H.
    rewrite Hc in H. discriminate. }
  destruct (dagMutex (pow w)) eqn:Hd.
  { unfold updateDAG in H.
    rewrite (bind_Ret _ _ _ _ _ (Lock_free CacheMutex w Hc)) in H.
    unfold bind at 1, Lock at 1 in H.
    replace (held (pow (acquire CacheMutex w)) DagMutex) with true in H
      by (rewrite <- Hd; cbn; destruct (pow w); reflexivity).
    discriminate. }
  destruct (dag_is_stale (pow w) (GetSeedBlockNum (chain_head w))) eqn:Hstale.
  - assert (Hfr : dag_freeable (pow w)).
    { intros d Hdag. destruct (DAG_block d) eqn:Hblk; [reflexivity | |];
        rewrite (updateDAG_stale_fault w d Hc Hd Hstale Hdag) in H
          by (rewrite Hblk; discriminate);
        discriminate. }
    rewrite (updateDAG_stale_unfold w Hc Hd Hstale Hfr) in H. cbv zeta in H.
    match type of H with
    | bind (load_or_regenerate ?s) _ ?w2 = _ =>
        assert (Hl2 : dagMutex (pow w2) = true /\ cacheMutex (pow w2) = true)
          by (cbn; destruct (pow w); cbn; auto);
        destruct (keeps_load_or_regenerate s w2) as [Kd Kc];
        unfold bind at 1 in H;
        destruct (load_or_regenerate s w2) as [[] w3 | w3 | w3 | w3 | w3];
        cbn [world_of] in Kd, Kc; try discriminate
    end.
    + assert (Hd3 : held (pow w3) DagMutex = true) by (cbn; rewrite Kd; apply Hl2).
      rewrite (bind_Ret _ _ _ _ _ (Unlock_held DagMutex w3 Hd3)) in H.
      rewrite Unlock_held in H; [discriminate |].
      cbn. destruct (pow w3); cbn in *. rewrite Kc. apply Hl2.
    + inversion H; subst w1. rewrite Kd, Kc. split; apply Hl2.
  - destruct (updateDAG_current w Hc Hd Hstale) as (w2 & Hrun & _).
    rewrite Hrun in H. discriminate.
Qed.

(** ** The file cases of [updateDAG] *)


(** X9. When the DAG that is held, if any, is a live [malloc] block and
    the file has more than 8 bytes and starts with an epoch at or above
    the target, [updateDAG] takes everything after the header as the DAG,
    whatever its length, and records it under the epoch of the held cache
    (not the epoch in the header); the DAG is then Go memory, not a
    [malloc] block; [updateDAG] calls nothing in libethash and leaves the
    file as it is. *)
Theorem X9_file_at_or_above_target_is_adopted (w : World) (content : list byte)
  (Hc : cacheMutex (pow w) = false)
  (Hd : dagMutex (pow w) = false)
  (Hstale : dag_is_stale (pow w) (GetSeedBlockNum (chain_head w)) = true)
  (Hfr : dag_freeable (pow w))
  (Hdisk : disk w = Some content)
  (Hlen : (8 < length content)%nat)
  (Hnew : GetSeedBlockNum (chain_head w) <= Bytes2Big (firstn 8 content)) :
  exists w1,
    updateDAG w = Ret tt w1 /\
    dag (pow w1)
    = Some (mk_DAG (PAC_SeedBlockNum (paramsAndCache (pow w))) (skipn 8 content) GoMemory) /\
    disk w1 = Some content /\
    added w w1 = [ELock CacheMutex; ELock DagMutex; EUnlock DagMutex; EUnlock CacheMutex].
Proof.
  destruct (updateDAG_current_file w content Hc Hd Hstale Hfr Hdisk Hlen Hnew)
    as (w1 & Hrun & Hdag & Hdk & Ht).
  exists w1. repeat split; try assumption.
  - rewrite Hdk. exact Hdisk.
  - apply added_app. exact Ht.
Qed.

(** X10. A file that is exactly its 8-byte header, with an epoch at or
    above the target, makes [updateDAG] panic (at [&data[0]]); the file
    stays as it is and no DAG is held.  That is so when no DAG was held or
    the one held is a live [malloc] block, which is freed first; a DAG of
    any other kind makes [C.free] fault before the file is looked at. *)
Theorem X10_header_only_file_panics (w : World) (content : list byte)
  (Hc : cacheMutex (pow w) = false)
  (Hd : dagMutex (pow w) = false)
  (Hstale : dag_is_stale (pow w) (GetSeedBlockNum (chain_head w)) = true)
  (Hdisk : disk w = Some content)
  (Hlen : length content = 8%nat)
  (Hnew : GetSeedBlockNum (chain_head w) <= Bytes2Big (firstn 8 content)) :
  (dag_freeable (pow w) ->
   exists w1,
     updateDAG w = Panic w1 /\
     disk w1 = Some content /\ dag (pow w1) = None /\
     calls (added w w1) = []) /\
  (forall d,
     dag (pow w) = Some d -> DAG_block d <> Malloced ->
     updateDAG w = Fault (acquire DagMutex (acquire CacheMutex w))).
Proof.
  split; [| intros d Hdag Hblk; exact (updateDAG_stale_fault w d Hc Hd Hstale Hdag Hblk)].
  intros Hfr.
  rewrite (updateDAG_stale_unfold w Hc Hd Hstale Hfr). cbv zeta.
  unfold bind at 1.
  rewrite (load_header_only_file _ _ content); [| exact Hdisk | exact Hlen | exact Hnew].
  eexists. split; [reflexivity |].
  destruct w as [hd dk sl e tr]; destruct e as [tb hr dg pac rt dm cm].
  cbn in *. subst. repeat split.
  unfold added. cbn. rewrite <- app_assoc, skipn_app, skipn_all, Nat.sub_diag.
  reflexivity.
Qed.

(** X26. A DAG taken from the file does not survive a change of epoch.
    After an [updateDAG] that took the payload of the file as its DAG,
    the first [updateDAG] at a chain head whose epoch is not the one of
    the held cache hands the backing array of a Go slice to [C.free]: it
    faults, with both mutexes locked. *)
Theorem X26_adopted_dag_faults_at_next_epoch (w : World) (content : list byte) (h : Z)
  (Hc : cacheMutex (pow w) = false)
  (Hd : dagMutex (pow w) = false)
  (Hstale : dag_is_stale (pow w) (GetSeedBlockNum (chain_head w)) = true)
  (Hfr : dag_freeable (pow w))
  (Hdisk : disk w = Some content)
  (Hlen : (8 < length content)%nat)
  (Hnew : GetSeedBlockNum (chain_head w) <= Bytes2Big (firstn 8 content))
  (Hmove : GetSeedBlockNum h <> PAC_SeedBlockNum (paramsAndCache (pow w))) :
  exists w1,
    updateDAG w = Ret tt w1 /\
    updateDAG (set_head w1 h)
    = Fault (acquire DagMutex (acquire CacheMutex (set_head w1 h))).
Proof.
  destruct (updateDAG_current_file w content Hc Hd Hstale Hfr Hdisk Hlen Hnew)
    as (w1 & Hrun & Hdag & _).
  destruct (updateDAG_Ret_unlocked _ _ _ Hrun) as [Hfd Hfc].
  exists w1. split; [exact Hrun |].
  apply (updateDAG_stale_fault (set_head w1 h)
           (mk_DAG (PAC_SeedBlockNum (paramsAndCache (pow w))) (skipn 8 content) GoMemory)
           Hfc Hfd); [| exact Hdag | discriminate].
  unfold dag_is_stale. cbn [set_head pow chain_head]. rewrite Hdag.
  cbn [DAG_SeedBlockNum]. apply negb_true_iff. apply Z.eqb_neq.
  intros Heq. apply Hmove. symmetry. exact Heq.
Qed.

(** X11. [updateDAG] has no deferred unlock: whenever it panics, both
    mutexes stay locked, so that every later [updateDAG], [updateCache],
    [Stop], [Search] and [FullHash] on the object blocks. *)
Theorem X11_updateDAG_panic_keeps_mutexes_locked (w w1 : World)
  (Hpanic : updateDAG w = Panic w1) :
  cacheMutex (pow w1) = true /\ dagMutex (pow w1) = true /\
  updateDAG w1 = Blocked w1 /\
  updateCache w1 = Blocked w1 /\
  Stop w1 = Blocked w1 /\
  (forall env fuel block, Search env fuel block w1 = Blocked w1) /\
  (forall nonce h, FullHash nonce h w1 = Blocked w1).
Proof.
  destruct (updateDAG_Panic_locked w w1 Hpanic) as [Hc Hd].
  assert (Hu : updateDAG w1 = Blocked w1).
  { unfold updateDAG, bind at 1, Lock at 1. cbn [held]. rewrite Hc. reflexivity. }
  repeat split; try assumption.
  - unfold updateCache, bind at 1, Lock at 1. cbn [held]. rewrite Hc. reflexivity.
  - unfold Stop, bind at 1, Lock at 1. cbn [held]. rewrite Hc. reflexivity.
  - intros env fuel block. unfold Search, bind at 1. rewrite Hu. reflexivity.
  - intros nonce h. unfold FullHash, bind at 1. rewrite Hu. reflexivity.
Qed.


(** ** Searches that find a nonce, and searches that panic *)

Lemma nonce_at_closed (r : Z) (k : nat) :
  nonce_at (wrap64 r) k = wrap64 (r + Z.of_nat k).
Proof.
  revert r. induction k as [| k IH]; intros r.
  - cbn [nonce_at]. rewrite Z.add_0_r. reflexivity.
  - cbn [nonce_at].
    replace (wrap64 (wrap64 r + 1)) with (wrap64 (r + 1))
      by (unfold wrap64; rewrite Zplus_mod_idemp_l; reflexivity).
    rewrite IH. f_equal. lia.
Qed.

(** The loop from iteration [j] on, when the signal is not set at the next
    [k + 1] polls, the next [k] attempts miss and the one after them hits:
    it returns the nonce of that attempt. *)
Lemma search_loop_found (env : SearchEnv) (block : Block) (h : list byte)
  (target : Z) (d : DAG) (k : nat) :
  forall (fuel j : nat) (nonce : Z) (w : World),
    dag (pow w) = Some d ->
    (forall i, (i <= k)%nat -> stop env (j + i) = false) ->
    (forall i, (i < k)%nat ->
       target < attempt_digest d (PAC_params (paramsAndCache (pow w))) h nonce i) ->
    attempt_digest d (PAC_params (paramsAndCache (pow w))) h nonce k <= target ->
    (k < fuel)%nat ->
    exists w',
      search_loop env block h target fuel j nonce w
      = Ret (nonce_at nonce k,
             Some (mix_hash (ethash_full (DAG_dag d) (PAC_params (paramsAndCache (pow w)))
                               h (nonce_at nonce k))),
             GetSeedHash (NumberU64 block)) w' /\
      pow w' = set_ret (set_HashRate (pow w) (sampled_rate env (j + k)))
                 (ethash_full (DAG_dag d) (PAC_params (paramsAndCache (pow w)))
                    h (nonce_at nonce k)) /\
      trace w' = trace w ++ repeat (ECall c_full) (S k) /\
      disk w' = disk w /\ chain_head w' = chain_head w /\ slack w' = slack w.
Proof.
  induction k as [| k IH]; intros fuel j nonce w Hdag Hgo Hmiss Hhit Hfuel;
    (destruct fuel as [| fuel]; [lia |]).
  - pose proof (Hgo 0%nat ltac:(lia)) as Hs. rewrite Nat.add_0_r in Hs.
    rewrite (search_loop_step env block h target fuel j nonce w d Hs Hdag). cbv zeta.
    unfold attempt_digest in Hhit. cbn [nonce_at] in *.
    apply Z.leb_le in Hhit. rewrite Hhit.
    eexists. split; [reflexivity |].
    rewrite Nat.add_0_r. unfold after_attempt.
    destruct w as [hd dk sl e tr]; destruct e as [tb hr dg pac rt dm cm].
    cbn. repeat split.
  - pose proof (Hgo 0%nat ltac:(lia)) as Hs. rewrite Nat.add_0_r in Hs.
    rewrite (search_loop_step env block h target fuel j nonce w d Hs Hdag). cbv zeta.
    pose proof (Hmiss 0%nat ltac:(lia)) as Hm0.
    unfold attempt_digest in Hm0. cbn [nonce_at] in Hm0.
    destruct (Z.leb_spec (Bytes2Big (result (ethash_full (DAG_dag d)
                (PAC_params (paramsAndCache (pow w))) h nonce))) target) as [Hle | _];
      [lia |].
    set (w2 := after_attempt env j _ w).
    assert (Hp2 : paramsAndCache (pow w2) = paramsAndCache (pow w))
      by (unfold w2, after_attempt; cbn; destruct (pow w); reflexivity).
    destruct (IH fuel (S j) (wrap64 (nonce + 1)) w2)
      as (w' & Hrun & Hpow & Htr & Hdk & Hhd & Hsl).
    + unfold w2, after_attempt. cbn. destruct (pow w); cbn in *. exact Hdag.
    + intros i Hi. rewrite <- (Hgo (S i) ltac:(lia)). f_equal. lia.
    + intros i Hi. rewrite Hp2. exact (Hmiss (S i) ltac:(lia)).
    + rewrite Hp2. exact Hhit.
    + lia.
    + rewrite Hp2 in Hrun, Hpow.
      exists w'. cbn [nonce_at]. split; [exact Hrun |].
      replace (j + S k)%nat with (S j + k)%nat by lia.
      split; [| split; [| split; [| split]]].
      * rewrite Hpow. unfold w2, after_attempt. cbn. destruct (pow w); reflexivity.
      * rewrite Htr. unfold w2, after_attempt. cbn [trace emit set_pow repeat].
        rewrite <- app_assoc. reflexivity.
      * rewrite Hdk. reflexivity.
      * rewrite Hhd. reflexivity.
      * rewrite Hsl. reflexivity.
Qed.

(** The two deferred unlocks of [Search] around a body that leaves the
    mutexes alone, started with both mutexes held: they run when the body
    returns and when it panics. *)
Lemma defer_unlocks_outcome {A : Type} (body : M A) (w : World) :
  keeps_mutexes body ->
  dagMutex (pow w) = true ->
  cacheMutex (pow w) = true ->
  defer (Unlock CacheMutex) (defer (Unlock DagMutex) body) w
  = match body w with
    | Ret a w1 => Ret a (release CacheMutex (release DagMutex w1))
    | Panic w1 => Panic (release CacheMutex (release DagMutex w1))
    | Blocked w1 => Blocked w1
    | Spinning w1 => Spinning w1
    | Fault w1 => Fault w1
    end.
Proof.
  intros Hk Hd Hc. destruct (Hk w) as [Kd Kc]. unfold defer.
  destruct (body w) as [a w1 | w1 | w1 | w1 | w1]; cbn [world_of] in *; try reflexivity.
  - rewrite (Unlock_held DagMutex w1) by (cbn; congruence).
    rewrite (Unlock_held CacheMutex); [reflexivity |].
    cbn. destruct (pow w1); cbn in *. congruence.
  - rewrite (Unlock_held DagMutex w1) by (cbn; congruence).
    rewrite (Unlock_held CacheMutex); [reflexivity |].
    cbn. destruct (pow w1); cbn in *. congruence.
Qed.

(** A [Search] whose first [k] attempts miss and whose next attempt hits. *)
Lemma Search_found
  (env : SearchEnv) (block : Block) (fuel k : nat) (w w1 : World)
  (d : DAG) (b : byte) (bs : list byte) (target : Z)
  (Hupd : updateDAG w = Ret tt w1)
  (Hdag : dag (pow w1) = Some d)
  (Hhash : HashNoNonce block = b :: bs)
  (Hdiff : big_Div tt256 (Difficulty block) = Some target)
  (Hgo : forall i, (i <= k)%nat -> stop env i = false)
  (Hmiss : forall i, (i < k)%nat ->
     target < Bytes2Big (result (ethash_full (DAG_dag d)
                (PAC_params (paramsAndCache (pow w1))) (b :: bs)
                (wrap64 (rand_Int63 env + Z.of_nat i)))))
  (Hhit : Bytes2Big (result (ethash_full (DAG_dag d)
             (PAC_params (paramsAndCache (pow w1))) (b :: bs)
             (wrap64 (rand_Int63 env + Z.of_nat k)))) <= target)
  (Hfuel : (k < fuel)%nat) :
  let n := wrap64 (rand_Int63 env + Z.of_nat k) in
  let r := ethash_full (DAG_dag d) (PAC_params (paramsAndCache (pow w1))) (b :: bs) n in
  exists w',
    Search env fuel block w
    = Ret (n, Some (mix_hash r), GetSeedHash (NumberU64 block)) w' /\
    pow w' = set_ret (set_HashRate (pow w1) (sampled_rate env k)) r /\
    disk w' = disk w1 /\ chain_head w' = chain_head w1 /\ slack w' = slack w1 /\
    trace w' = trace w1 ++ [ELock DagMutex; ELock CacheMutex]
                 ++ repeat (ECall c_full) (S k)
                 ++ [EUnlock DagMutex; EUnlock CacheMutex].
Proof.
  cbv zeta.
  destruct (updateDAG_Ret_unlocked _ _ _ Hupd) as [Hfd Hfc].
  rewrite (Search_after_updateDAG env fuel block w w1 b bs target Hupd Hhash Hdiff).
  set (w3 := acquire CacheMutex (acquire DagMutex w1)).
  assert (Hp3 : paramsAndCache (pow w3) = paramsAndCache (pow w1))
    by (unfold w3; cbn; destruct (pow w1); reflexivity).
  destruct (search_loop_found env block (b :: bs) target d k fuel 0%nat
              (wrap64 (rand_Int63 env)) w3)
    as (w4 & Hrun & Hpow & Htr & Hdk & Hhd & Hsl).
  - unfold w3. cbn. destruct (pow w1); cbn in *. exact Hdag.
  - exact Hgo.
  - intros i Hi. unfold attempt_digest. rewrite nonce_at_closed, Hp3. exact (Hmiss i Hi).
  - unfold attempt_digest. rewrite nonce_at_closed, Hp3. exact Hhit.
  - exact Hfuel.
  - rewrite nonce_at_closed, Hp3 in Hrun. rewrite nonce_at_closed, Hp3 in Hpow.
    exists (release CacheMutex (release DagMutex w4)).
    split; [| split; [| split; [| split; [| split]]]].
    + apply defer_unlocks_Ret; [exact Hrun | |];
        rewrite Hpow; unfold w3; cbn; destruct (pow w1); reflexivity.
    + cbn [release emit set_pow pow]. rewrite Hpow. unfold w3. cbn.
      destruct (pow w1); cbn in *. subst. reflexivity.
    + cbn [release emit set_pow set_disk disk]. rewrite Hdk. reflexivity.
    + cbn [release emit set_pow chain_head]. rewrite Hhd. reflexivity.
    + cbn [release emit set_pow slack]. rewrite Hsl. reflexivity.
    + cbn [release emit set_pow trace]. rewrite Htr. unfold w3.
      cbn [acquire emit set_pow trace]. repeat rewrite <- app_assoc. reflexivity.
Qed.

(** C5, as the code has it.  The dividend is [tt256 = 2^256], not
    [2^256 - 1]: for every positive difficulty [d] the target is
    [floor(2^256 / d)].  In the search loop an attempt is accepted exactly
    when its digest, read big-endian, is at most that target (otherwise the
    loop goes on with the next nonce); a nonce returned by [Search] has such
    a digest; [verify] returns exactly that comparison; and [Search] on a
    block of difficulty [d] passes over every attempt whose digest is above
    [floor(2^256 / d)] and returns the first nonce whose digest is at most
    [floor(2^256 / d)], a digest equal to it included. *)
Theorem C5_target_is_tt256_div_difficulty (d : Z) (Hd : 0 < d) :
  big_Div tt256 d = Some (2 ^ 256 / d) /\
  (forall env block h fuel k nonce w dg,
     stop env k = false ->
     dag (pow w) = Some dg ->
     search_loop env block h (2 ^ 256 / d) (S fuel) k nonce w
     = let r := ethash_full (DAG_dag dg) (PAC_params (paramsAndCache (pow w))) h nonce in
       if Bytes2Big (result r) <=? 2 ^ 256 / d
       then Ret (nonce, Some (mix_hash r), GetSeedHash (NumberU64 block))
              (after_attempt env k r w)
       else search_loop env block h (2 ^ 256 / d) fuel (S k) (wrap64 (nonce + 1))
              (after_attempt env k r w)) /\
  (forall env fuel block w n mix s w',
     Difficulty block = d ->
     Search env fuel block w = Ret (n, Some mix, s) w' ->
     Bytes2Big (result (ret (pow w'))) <= 2 ^ 256 / d) /\
  (forall hash mixDigest blockNum nonce w b w',
     verify hash mixDigest d blockNum nonce w = Ret b w' ->
     b = (Bytes2Big (result (ret (pow w'))) <=? 2 ^ 256 / d)) /\
  (forall env block fuel k w w1 dg b bs,
     Difficulty block = d ->
     updateDAG w = Ret tt w1 ->
     dag (pow w1) = Some dg ->
     HashNoNonce block = b :: bs ->
     (forall i, (i <= k)%nat -> stop env i = false) ->
     (forall i, (i < k)%nat ->
        2 ^ 256 / d
        < Bytes2Big (result (ethash_full (DAG_dag dg)
                       (PAC_params (paramsAndCache (pow w1))) (b :: bs)
                       (wrap64 (rand_Int63 env + Z.of_nat i))))) ->
     Bytes2Big (result (ethash_full (DAG_dag dg)
                  (PAC_params (paramsAndCache (pow w1))) (b :: bs)
                  (wrap64 (rand_Int63 env + Z.of_nat k))))
     <= 2 ^ 256 / d ->
     (k < fuel)%nat ->
     let n := wrap64 (rand_Int63 env + Z.of_nat k) in
     let r := ethash_full (DAG_dag dg) (PAC_params (paramsAndCache (pow w1))) (b :: bs) n in
     exists w',
       Search env fuel block w
       = Ret (n, Some (mix_hash r), GetSeedHash (NumberU64 block)) w' /\
       ret (pow w') = r).
Proof.
  assert (Hdiv : big_Div tt256 d = Some (2 ^ 256 / d)).
  { apply big_Div_pos; [unfold tt256; lia | exact Hd]. }
  split; [exact Hdiv |].
  split; [| split; [| split]].
  - intros env block h fuel k nonce w dg Hgo Hdag.
    apply search_loop_step; assumption.
  - intros env fuel block w n mix s w' Hdiff Hrun.
    apply Search_Ret_inv in Hrun as (h & target & k & nonce & w3 & w4 & Ht & Hloop & Hret & _).
    rewrite Hdiff, Hdiv in Ht. inversion Ht; subst target.
    apply search_loop_Ret_inv in Hloop as [(Hc & _) | (n' & Hr & Hle)].
    + discriminate.
    + rewrite Hret. exact Hle.
  - intros hash mixDigest blockNum nonce w b w' Hrun.
    apply verify_Ret_inv in Hrun as (target & Ht & Hb).
    rewrite Hdiv in Ht. inversion Ht; subst target. exact Hb.
  - intros env block fuel k w w1 dg b bs Hdiff Hupd Hdag Hhash Hgo Hmiss Hhit Hfuel.
    cbv zeta.
    assert (Hdiv' : big_Div tt256 (Difficulty block) = Some (2 ^ 256 / d))
      by (rewrite Hdiff; exact Hdiv).
    destruct (Search_found env block fuel k w w1 dg b bs (2 ^ 256 / d)
                Hupd Hdag Hhash Hdiv' Hgo Hmiss Hhit Hfuel)
      as (w' & Hrun & Hpow & _).
    exists w'. split; [exact Hrun |].
    rewrite Hpow. destruct (pow w1); reflexivity.
Qed.

(** X12. [Search] returns the first nonce that meets the target.  When the
    signal is not set at the first [k + 1] polls, the attempts at the nonces
    [r, r+1, ..., r+k-1] (modulo [2^64], [r] the random start) miss and
    the attempt at [r+k] hits, [Search] returns that nonce with the mix
    digest of that attempt and the seed hash of the block's epoch, after
    exactly [k + 1] calls of [ethash_full]; the hash rate reported is the
    sample of the last iteration and both mutexes are free again. *)
Theorem X12_Search_returns_first_hit
  (env : SearchEnv) (block : Block) (fuel k : nat) (w w1 : World)
  (d : DAG) (b : byte) (bs : list byte) (target : Z)
  (Hupd : updateDAG w = Ret tt w1)
  (Hdag : dag (pow w1) = Some d)
  (Hhash : HashNoNonce block = b :: bs)
  (Hdiff : big_Div tt256 (Difficulty block) = Some target)
  (Hgo : forall i, (i <= k)%nat -> stop env i = false)
  (Hmiss : forall i, (i < k)%nat ->
     target < Bytes2Big (result (ethash_full (DAG_dag d)
                (PAC_params (paramsAndCache (pow w1))) (b :: bs)
                (wrap64 (rand_Int63 env + Z.of_nat i)))))
  (Hhit : Bytes2Big (result (ethash_full (DAG_dag d)
             (PAC_params (paramsAndCache (pow w1))) (b :: bs)
             (wrap64 (rand_Int63 env + Z.of_nat k)))) <= target)
  (Hfuel : (k < fuel)%nat) :
  let n := wrap64 (rand_Int63 env + Z.of_nat k) in
  let r := ethash_full (DAG_dag d) (PAC_params (paramsAndCache (pow w1))) (b :: bs) n in
  exists w',
    Search env fuel block w
    = Ret (n, Some (mix_hash r), GetSeedHash (NumberU64 block)) w' /\
    pow w' = set_ret (set_HashRate (pow w1) (sampled_rate env k)) r /\
    disk w' = disk w1 /\
    trace w' = trace w1 ++ [ELock DagMutex; ELock CacheMutex]
                 ++ repeat (ECall c_full) (S k)
                 ++ [EUnlock DagMutex; EUnlock CacheMutex].
Proof.
  cbv zeta.
  destruct (Search_found env block fuel k w w1 d b bs target
              Hupd Hdag Hhash Hdiff Hgo Hmiss Hhit Hfuel)
    as (w' & Hrun & Hpow & Hdk & _ & _ & Htr).
  exists w'. repeat split; assumption.
Qed.

Lemma keeps_Search_body (env : SearchEnv) (fuel : nat) (block : Block) :
  keeps_mutexes (Search_body env fuel block).
Proof.
  unfold Search_body.
  apply keeps_bind; [apply keeps_lift | intros h].
  apply keeps_bind; [apply keeps_lift | intros t]. apply keeps_search_loop.
Qed.

(** [Search] once [updateDAG] has returned, by the outcome of its body. *)
Lemma Search_outcome (env : SearchEnv) (fuel : nat) (block : Block) (w w1 : World) :
  updateDAG w = Ret tt w1 ->
  Search env fuel block w
  = match Search_body env fuel block (acquire CacheMutex (acquire DagMutex w1)) with
    | Ret a w4 => Ret a (release CacheMutex (release DagMutex w4))
    | Panic w4 => Panic (release CacheMutex (release DagMutex w4))
    | Blocked w4 => Blocked w4
    | Spinning w4 => Spinning w4
    | Fault w4 => Fault w4
    end.
Proof.
  intros Hupd.
  destruct (updateDAG_Ret_unlocked _ _ _ Hupd) as [Hfd Hfc].
  unfold Search.
  rewrite (bind_Ret _ _ _ _ _ Hupd).
  rewrite (bind_Ret _ _ _ _ _ (Lock_free DagMutex w1 Hfd)).
  assert (Hc' : held (pow (acquire DagMutex w1)) CacheMutex = false)
    by (cbn; destruct (pow w1); cbn in *; exact Hfc).
  rewrite (bind_Ret _ _ _ _ _ (Lock_free CacheMutex _ Hc')).
  fold (Search_body env fuel block).
  apply defer_unlocks_outcome.
  - apply keeps_Search_body.
  - cbn. destruct (pow w1); reflexivity.
  - cbn. destruct (pow w1); reflexivity.
Qed.

(** X13. Once [updateDAG] has returned, [Search] never leaks a mutex:
    whether it then returns or panics (on an empty header hash, on a zero
    difficulty, on a nil DAG), both mutexes are free afterwards; and it
    does panic, with nothing else changed, on an empty header hash and on
    a zero difficulty. *)
Theorem X13_Search_unlocks_on_return_and_panic
  (env : SearchEnv) (fuel : nat) (block : Block) (w w1 : World)
  (Hupd : updateDAG w = Ret tt w1) :
  (forall w', (exists r, Search env fuel block w = Ret r w') \/
              Search env fuel block w = Panic w' ->
              dagMutex (pow w') = false /\ cacheMutex (pow w') = false) /\
  (HashNoNonce block = [] \/ Difficulty block = 0 ->
   exists w', Search env fuel block w = Panic w' /\
              pow w' = pow w1 /\ disk w' = disk w1 /\
              calls (added w1 w') = []).
Proof.
  destruct (updateDAG_Ret_unlocked _ _ _ Hupd) as [Hfd Hfc].
  rewrite (Search_outcome env fuel block w w1 Hupd).
  split.
  - intros w' [[r H] | H];
      destruct (Search_body _ _ _ _) as [a w4 | w4 | w4 | w4 | w4]; inversion H; subst;
      cbn; destruct (pow w4); split; reflexivity.
  - intros Hbad.
    assert (Hbody : Search_body env fuel block (acquire CacheMutex (acquire DagMutex w1))
                    = Panic (acquire CacheMutex (acquire DagMutex w1))).
    { unfold Search_body. destruct Hbad as [Hh | Hz].
      - rewrite Hh. reflexivity.
      - rewrite Hz. unfold bind at 1.
        destruct (addr0_bytes (HashNoNonce block)); reflexivity. }
    rewrite Hbody. eexists. split; [reflexivity |].
    destruct w1 as [hd dk sl e tr]; destruct e as [tb hr dg pac rt dm cm].
    cbn in Hfd, Hfc. subst dm cm. cbn. repeat split.
    unfold added. cbn. repeat rewrite <- app_assoc.
    rewrite skipn_app, skipn_all, Nat.sub_diag. reflexivity.
Qed.


(** ** Verification paths *)

Lemma bytes_eqb_refl (a : list byte) : bytes_eqb a a = true.
Proof.
  unfold bytes_eqb. destruct (list_eq_dec Byte.byte_eq_dec a a); [reflexivity | contradiction].
Qed.

(** [updateCache] with the mutex free: it returns, and the held cache is
    then of the epoch of the chain head. *)
Lemma updateCache_Ret (w : World) :
  cacheMutex (pow w) = false ->
  (PAC_SeedBlockNum (paramsAndCache (pow w)) <> GetSeedBlockNum (chain_head w) ->
   contents (GetBlockByNumber_SeedHash (GetSeedBlockNum (chain_head w))) <> []) ->
  exists w1,
    updateCache w = Ret tt w1 /\
    cacheMutex (pow w1) = false /\
    chain_head w1 = chain_head w /\
    disk w1 = disk w /\
    PAC_SeedBlockNum (paramsAndCache (pow w1)) = GetSeedBlockNum (chain_head w).
Proof.
  intros Hfree Hseed.
  destruct (Z.eq_dec (PAC_SeedBlockNum (paramsAndCache (pow w)))
              (GetSeedBlockNum (chain_head w))) as [Hcur | Hstale].
  - exists (release CacheMutex (acquire CacheMutex w)).
    split; [apply updateCache_current; assumption |].
    rewrite release_acquire_pow by exact Hfree. auto.
  - destruct (updateCache_stale w Hfree Hstale (Hseed Hstale))
      as (w1 & H1 & Hf1 & Hh1 & Hd1 & Hc1 & _).
    exists w1. auto.
Qed.

(** What [makeParamsAndCache] returns for a block number does not depend
    on the world it runs in. *)
Lemma makeParamsAndCache_any_world (blockNum : Z) (w w' : World) (p : ParamsAndCache) :
  makeParamsAndCache blockNum w = Ret p w' ->
  forall v, makeParamsAndCache blockNum v
            = Ret p (emit (emit v (ECall c_params_init)) (ECall c_mkcache)).
Proof.
  unfold makeParamsAndCache. intros H v. revert H.
  destruct (contents (GetBlockByNumber_SeedHash (GetSeedBlockNum blockNum)))
    as [| s0 seed]; intros H; inversion H. reflexivity.
Qed.

(** The cache held after an [updateCache] that returns: the one that was
    held when it is of the epoch of the chain head, and otherwise the one
    [makeParamsAndCache] builds for the chain head. *)
Lemma updateCache_pac (w w1 : World) :
  updateCache w = Ret tt w1 ->
  if PAC_SeedBlockNum (paramsAndCache (pow w)) =? GetSeedBlockNum (chain_head w)
  then paramsAndCache (pow w1) = paramsAndCache (pow w)
  else forall v, makeParamsAndCache (chain_head w) v
                 = Ret (paramsAndCache (pow w1))
                     (emit (emit v (ECall c_params_init)) (ECall c_mkcache)).
Proof.
  unfold updateCache. intros H.
  apply bind_Ret_inv in H as (? & wa & Hl & H).
  apply Lock_Ret_inv in Hl as (Hfree & ->).
  apply bind_Ret_inv in H as (v & wb & Hg & H).
  inversion Hg; subst v wb.
  apply bind_Ret_inv in H as (? & wc & Hmid & Hu).
  apply Unlock_Ret_inv in Hu as (_ & ->).
  replace (paramsAndCache (pow (acquire CacheMutex w))) with (paramsAndCache (pow w))
    in Hmid by (cbn; destruct (pow w); reflexivity).
  change (chain_head (acquire CacheMutex w)) with (chain_head w) in Hmid.
  destruct (PAC_SeedBlockNum (paramsAndCache (pow w)) =? GetSeedBlockNum (chain_head w)).
  - inversion Hmid; subst wc. cbn. destruct (pow w); reflexivity.
  - apply bind_Ret_inv in Hmid as (p & wd & Hmk & Hm).
    inversion Hm; subst wc.
    replace (paramsAndCache (pow (release CacheMutex
               (set_pow wd (set_paramsAndCache (pow wd) p))))) with p
      by (cbn; destruct (pow wd); reflexivity).
    exact (makeParamsAndCache_any_world _ _ _ _ Hmk).
Qed.

(** The end of [verify] on the shared cache: lock, [ethash_light], compare,
    deferred unlock. *)
Lemma verify_on_shared_cache (chash : list byte) (nonce target : Z) (w : World) :
  cacheMutex (pow w) = false ->
  exists w',
    bind (Lock CacheMutex) (fun _ =>
      defer (Unlock CacheMutex)
        (bind get (fun v =>
           light_check (paramsAndCache (pow v)) chash nonce target))) w
    = Ret (Bytes2Big (result (ethash_light (PAC_cache (paramsAndCache (pow w)))
                                (PAC_params (paramsAndCache (pow w))) chash nonce))
           <=? target) w' /\
    pow w' = set_ret (pow w)
               (ethash_light (PAC_cache (paramsAndCache (pow w)))
                  (PAC_params (paramsAndCache (pow w))) chash nonce) /\
    disk w' = disk w /\
    trace w' = trace w ++ [ELock CacheMutex; ECall c_light; EUnlock CacheMutex].
Proof.
  intros Hfree.
  rewrite (bind_Ret _ _ _ _ _ (Lock_free CacheMutex w Hfree)).
  destruct w as [hd dk sl e tr]; destruct e as [tb hr dg pac rt dm cm].
  cbn in Hfree. subst cm.
  unfold defer, bind, get, light_check, log, modify_pow, ret_, Unlock. cbn.
  eexists. split; [reflexivity |]. cbn.
  repeat split. repeat rewrite <- app_assoc. reflexivity.
Qed.

(** X14. A block of an epoch older than the held cache's is verified on a
    cache built for that block alone: the cache [makeParamsAndCache]
    returns for the block's number, which is of the block's epoch.
    [verify] takes no mutex (it runs even when the cache mutex is held),
    leaves the shared cache and the DAG as they are, and changes nothing
    but [pow.ret], which receives the result of [ethash_light] on that new
    cache; the verdict compares that result with the target. *)
Theorem X14_verify_old_block_builds_private_cache
  (b : byte) (bs mixDigest : list byte) (difficulty blockNum nonce target : Z)
  (w : World)
  (Hdiff : big_Div tt256 difficulty = Some target)
  (Hold : GetSeedBlockNum blockNum < PAC_SeedBlockNum (paramsAndCache (pow w)))
  (Hseed : contents (GetBlockByNumber_SeedHash (GetSeedBlockNum blockNum)) <> []) :
  exists pAc w',
    let r := ethash_light (PAC_cache pAc) (PAC_params pAc) (b :: bs) nonce in
    (forall v, makeParamsAndCache blockNum v
               = Ret pAc (emit (emit v (ECall c_params_init)) (ECall c_mkcache))) /\
    verify (b :: bs) mixDigest difficulty blockNum nonce w
    = Ret (Bytes2Big (result r) <=? target) w' /\
    PAC_SeedBlockNum pAc = GetSeedBlockNum blockNum /\
    PAC_params pAc = SizingParams (GetSeedBlockNum blockNum) /\
    pow w' = set_ret (pow w) r /\
    disk w' = disk w /\
    added w w' = [ECall c_params_init; ECall c_mkcache; ECall c_light].
Proof.
  destruct (makeParamsAndCache_Ret blockNum w Hseed) as (pAc & Hmk & Hnum & Hpar & _).
  exists pAc. eexists. cbv zeta.
  split; [exact (makeParamsAndCache_any_world _ _ _ _ Hmk) |].
  unfold verify.
  rewrite (bind_Ret _ _ w w (b :: bs)) by reflexivity.
  rewrite (bind_Ret _ _ w w target) by (rewrite Hdiff; reflexivity).
  rewrite (bind_Ret _ _ w w w) by reflexivity.
  destruct (Z.ltb_spec (GetSeedBlockNum blockNum)
              (PAC_SeedBlockNum (paramsAndCache (pow w)))) as [_ | Hge]; [| lia].
  rewrite (bind_Ret _ _ _ _ _ Hmk).
  unfold light_check, bind, log, modify_pow, ret_.
  split; [reflexivity |].
  split; [exact Hnum |]. split; [exact Hpar |].
  destruct w as [hd dk sl e tr]; destruct e as [tb hr dg pac rt dm cm].
  cbn. repeat split.
  unfold added. cbn. repeat rewrite <- app_assoc.
  rewrite skipn_app, skipn_all, Nat.sub_diag. reflexivity.
Qed.

(** X15. A block of the held cache's epoch or a later one is verified on
    the shared cache after [updateCache].  The cache used, and held
    afterwards, is the one that was held when it is of the epoch of the
    chain head, and otherwise the one [makeParamsAndCache] builds for the
    chain head: in both cases of the epoch of the chain head, whatever the
    block's own number.  [pow.ret] receives the result of [ethash_light]
    on it, and the cache mutex is free again afterwards. *)
Theorem X15_verify_current_block_uses_cache_of_chain_head
  (b : byte) (bs mixDigest : list byte) (difficulty blockNum nonce target : Z)
  (w : World)
  (Hdiff : big_Div tt256 difficulty = Some target)
  (Hnew : PAC_SeedBlockNum (paramsAndCache (pow w)) <= GetSeedBlockNum blockNum)
  (Hfree : cacheMutex (pow w) = false)
  (Hseed : PAC_SeedBlockNum (paramsAndCache (pow w)) <> GetSeedBlockNum (chain_head w) ->
           contents (GetBlockByNumber_SeedHash (GetSeedBlockNum (chain_head w))) <> []) :
  exists w',
    verify (b :: bs) mixDigest difficulty blockNum nonce w
    = Ret (Bytes2Big (result (ret (pow w'))) <=? target) w' /\
    (if PAC_SeedBlockNum (paramsAndCache (pow w)) =? GetSeedBlockNum (chain_head w)
     then paramsAndCache (pow w') = paramsAndCache (pow w)
     else forall v, makeParamsAndCache (chain_head w) v
                    = Ret (paramsAndCache (pow w'))
                        (emit (emit v (ECall c_params_init)) (ECall c_mkcache))) /\
    PAC_SeedBlockNum (paramsAndCache (pow w')) = GetSeedBlockNum (chain_head w) /\
    ret (pow w') = ethash_light (PAC_cache (paramsAndCache (pow w')))
                     (PAC_params (paramsAndCache (pow w'))) (b :: bs) nonce /\
    cacheMutex (pow w') = false /\
    disk w' = disk w.
Proof.
  destruct (updateCache_Ret w Hfree Hseed) as (w1 & Hupd & Hf1 & Hh1 & Hd1 & Hc1).
  pose proof (updateCache_pac w w1 Hupd) as Hpac1.
  destruct (verify_on_shared_cache (b :: bs) nonce target w1 Hf1)
    as (w' & Hrun & Hpow & Hdk & _).
  exists w'.
  unfold verify.
  rewrite (bind_Ret _ _ w w (b :: bs)) by reflexivity.
  rewrite (bind_Ret _ _ w w target) by (rewrite Hdiff; reflexivity).
  rewrite (bind_Ret _ _ w w w) by reflexivity.
  destruct (Z.ltb_spec (GetSeedBlockNum blockNum)
              (PAC_SeedBlockNum (paramsAndCache (pow w)))) as [Hlt | _]; [lia |].
  rewrite (bind_Ret _ _ _ _ _ Hupd).
  assert (Hret : ret (pow w') = ethash_light (PAC_cache (paramsAndCache (pow w1)))
                                  (PAC_params (paramsAndCache (pow w1))) (b :: bs) nonce)
    by (rewrite Hpow; destruct (pow w1); reflexivity).
  assert (Hpac : paramsAndCache (pow w') = paramsAndCache (pow w1))
    by (rewrite Hpow; destruct (pow w1); reflexivity).
  split; [rewrite Hret; exact Hrun |].
  rewrite Hpac. split; [exact Hpac1 |].
  split; [exact Hc1 |]. split; [exact Hret |].
  split; [| congruence].
  rewrite Hpow. destruct (pow w1); cbn in *. exact Hf1.
Qed.

(** X16. A block whose seed hash is the canonical one but whose header
    hash is empty, or whose difficulty is zero, makes [Verify] panic at
    once: nothing is called, locked or changed. *)
Theorem X16_Verify_panics_on_empty_hash_or_zero_difficulty (block : Block) (w : World)
  (Hseed : SeedHash block
           = contents (GetBlockByNumber_SeedHash (GetSeedBlockNum (NumberU64 block))))
  (Hbad : HashNoNonce block = [] \/ Difficulty block = 0) :
  Verify block w = Panic w.
Proof.
  unfold Verify, GetSeedHash. rewrite <- Hseed, bytes_eqb_refl. cbn [negb].
  unfold verify. destruct Hbad as [Hh | Hz].
  - rewrite Hh. reflexivity.
  - rewrite Hz. unfold bind at 1.
    destruct (addr0_bytes (HashNoNonce block)); reflexivity.
Qed.


(** ** Construction, shutdown and the hashing entry points *)

(** X17. [New] returns an object whose cache is built for the epoch of the
    chain head, with the sizing parameters of that epoch and a cache
    region of exactly [cache_size] bytes; it holds no DAG, turbo is on,
    the hash rate is 0 and both mutexes are free. *)
Theorem X17_New_builds_cache_of_chain_head (w : World)
  (Hseed : contents (GetBlockByNumber_SeedHash (GetSeedBlockNum (chain_head w))) <> []) :
  exists w1,
    New w = Ret tt w1 /\
    PAC_SeedBlockNum (paramsAndCache (pow w1)) = GetSeedBlockNum (chain_head w) /\
    PAC_params (paramsAndCache (pow w1)) = SizingParams (GetSeedBlockNum (chain_head w)) /\
    sizes_match (pow w1) = true /\
    dag (pow w1) = None /\ turbo (pow w1) = true /\ HashRate (pow w1) = 0 /\
    dagMutex (pow w1) = false /\ cacheMutex (pow w1) = false /\
    disk w1 = disk w /\
    added w w1 = [ECall c_params_init; ECall c_mkcache].
Proof.
  destruct (makeParamsAndCache_Ret (chain_head w) w Hseed) as (p & Hmk & Hnum & Hpar & Hlen).
  unfold New.
  rewrite (bind_Ret _ _ w w w) by reflexivity.
  rewrite (bind_Ret _ _ _ _ _ Hmk).
  eexists. split; [reflexivity |].
  cbn [pow set_pow paramsAndCache dag turbo HashRate dagMutex cacheMutex].
  split; [exact Hnum |]. split; [exact Hpar |].
  split.
  { unfold sizes_match, cache_matches_epoch.
    cbn [paramsAndCache dag]. rewrite andb_true_r, Hnum, <- Hpar.
    apply Z.eqb_eq. rewrite Hlen. lia. }
  repeat split.
  unfold added. cbn. repeat rewrite <- app_assoc.
  rewrite skipn_app, skipn_all, Nat.sub_diag. reflexivity.
Qed.

(** X18. When the cache must be rebuilt and the chain gives an empty (or
    nil) seed hash for the epoch, [updateCache] panics at [&seedHash[0]],
    after [ethash_params_init] and before [ethash_mkcache].  It has no
    deferred unlock: the cache mutex stays locked, the old cache stays in
    place, and every later [updateCache] or [updateDAG] blocks. *)
Theorem X18_updateCache_panics_on_empty_seed_hash (w : World)
  (Hfree : cacheMutex (pow w) = false)
  (Hstale : PAC_SeedBlockNum (paramsAndCache (pow w)) <> GetSeedBlockNum (chain_head w))
  (Hseed : contents (GetBlockByNumber_SeedHash (GetSeedBlockNum (chain_head w))) = []) :
  exists w1,
    updateCache w = Panic w1 /\
    cacheMutex (pow w1) = true /\
    paramsAndCache (pow w1) = paramsAndCache (pow w) /\
    calls (added w w1) = [c_params_init] /\
    updateCache w1 = Blocked w1 /\
    updateDAG w1 = Blocked w1.
Proof.
  unfold updateCache at 1.
  rewrite (bind_Ret _ _ _ _ _ (Lock_free CacheMutex w Hfree)).
  unfold bind at 1. unfold get at 1.
  replace (paramsAndCache (pow (acquire CacheMutex w))) with (paramsAndCache (pow w))
    by (cbn; destruct (pow w); reflexivity).
  replace (chain_head (acquire CacheMutex w)) with (chain_head w) by reflexivity.
  destruct (Z.eqb_spec (PAC_SeedBlockNum (paramsAndCache (pow w)))
              (GetSeedBlockNum (chain_head w))) as [Heq | _]; [contradiction |].
  unfold bind at 1. unfold bind at 1.
  unfold makeParamsAndCache. rewrite Hseed.
  unfold bind at 1. unfold log at 1. cbn [lift addr0_bytes].
  unfold bind at 1. unfold panic.
  eexists. split; [reflexivity |].
  destruct w as [hd dk sl e tr]; destruct e as [tb hr dg pac rt dm cm].
  cbn in Hfree. subst cm.
  split; [reflexivity |]. split; [reflexivity |].
  split.
  { unfold added. cbn. repeat rewrite <- app_assoc.
    rewrite skipn_app, skipn_all, Nat.sub_diag. reflexivity. }
  split; reflexivity.
Qed.

(** X19. [Stop] with both mutexes free frees the memory of the cache and
    then the DAG, and keeps both pointers.  When the DAG is held in a live
    [malloc] block it returns: cache and DAG are then freed blocks that
    the object still points to, and nothing else has changed.  When no DAG
    is held ([Stop] before any [updateDAG]) it panics on [pow.dag.dag]
    after freeing the cache.  When the DAG was taken from the file (Go
    memory) or is already freed (a second [Stop]), [C.free] faults after
    the cache was freed; when the cache is already freed it faults at
    once.  Panic and fault leave both mutexes locked. *)
Theorem X19_Stop_frees_cache_and_dag (w : World)
  (Hc : cacheMutex (pow w) = false)
  (Hd : dagMutex (pow w) = false) :
  let pac := paramsAndCache (pow w) in
  let locked := acquire DagMutex (acquire CacheMutex w) in
  let cache_freed :=
    set_pow locked (set_paramsAndCache (pow locked) (set_cache_block pac Freed)) in
  cacheMutex (pow locked) = true /\ dagMutex (pow locked) = true /\
  cacheMutex (pow cache_freed) = true /\ dagMutex (pow cache_freed) = true /\
  match mem_block (PAC_cache pac) with
  | Malloced =>
      match dag (pow w) with
      | None => Stop w = Panic cache_freed
      | Some d =>
          match DAG_block d with
          | Malloced =>
              exists w1,
                Stop w = Ret tt w1 /\
                pow w1 = set_dag (set_paramsAndCache (pow w) (set_cache_block pac Freed))
                           (Some (set_dag_block d Freed)) /\
                disk w1 = disk w /\
                added w w1 = [ELock CacheMutex; ELock DagMutex;
                              EUnlock DagMutex; EUnlock CacheMutex]
          | GoMemory | Freed => Stop w = Fault cache_freed
          end
      end
  | GoMemory | Freed => Stop w = Fault locked
  end.
Proof.
  destruct w as [hd dk sl e tr]; destruct e as [tb hr dg pac rt dm cm].
  cbn in Hc, Hd. subst cm dm.
  destruct pac as [p [m mb] n]. cbv zeta.
  do 4 (split; [reflexivity |]).
  cbn [pow paramsAndCache PAC_cache mem_block dag].
  destruct mb; try reflexivity.
  destruct dg as [[dn dd db] |]; [| reflexivity].
  cbn [DAG_block]. destruct db; try reflexivity.
  eexists. split; [reflexivity |]. split; [reflexivity |]. split; [reflexivity |].
  unfold added. cbn. repeat rewrite <- app_assoc.
  rewrite skipn_app, skipn_all, Nat.sub_diag. reflexivity.
Qed.

(** X20. After an [updateDAG] that returns, [FullHash] on a non-empty
    header hash returns the result digest of [ethash_full] on the held
    DAG with the parameters of the held cache, leaving that digest in
    [pow.ret] and both mutexes free; on an empty header hash it panics,
    and its deferred unlock has freed the DAG mutex. *)
Theorem X20_FullHash_digest_of_held_dag (nonce : Z) (w w1 : World)
  (Hupd : updateDAG w = Ret tt w1) :
  exists d,
    dag (pow w1) = Some d /\
    (forall b bs,
       let r := ethash_full (DAG_dag d) (PAC_params (paramsAndCache (pow w1)))
                  (b :: bs) nonce in
       exists w',
         FullHash nonce (b :: bs) w = Ret (result r) w' /\
         pow w' = set_ret (pow w1) r /\
         added w1 w' = [ELock DagMutex; ECall c_full; EUnlock DagMutex]) /\
    (exists w',
       FullHash nonce [] w = Panic w' /\ pow w' = pow w1 /\
       added w1 w' = [ELock DagMutex; EUnlock DagMutex]).
Proof.
  destruct (updateDAG_Ret_unlocked _ _ _ Hupd) as [Hfd Hfc].
  destruct (updateDAG_Ret_facts _ _ _ Hupd) as (_ & _ & _ & _ & _ & _ & _ & d & Hdag & _).
  exists d. split; [exact Hdag |].
  split.
  - intros b bs. cbv zeta. unfold FullHash.
    rewrite (bind_Ret _ _ _ _ _ Hupd).
    rewrite (bind_Ret _ _ _ _ _ (Lock_free DagMutex w1 Hfd)).
    destruct w1 as [hd dk sl e tr]; destruct e as [tb hr dg pac rt dm cm].
    cbn in Hfd, Hfc, Hdag. subst.
    eexists. split; [reflexivity |]. split; [reflexivity |].
    unfold added. cbn. repeat rewrite <- app_assoc.
    rewrite skipn_app, skipn_all, Nat.sub_diag. reflexivity.
  - unfold FullHash.
    rewrite (bind_Ret _ _ _ _ _ Hupd).
    rewrite (bind_Ret _ _ _ _ _ (Lock_free DagMutex w1 Hfd)).
    destruct w1 as [hd dk sl e tr]; destruct e as [tb hr dg pac rt dm cm].
    cbn in Hfd, Hfc, Hdag. subst.
    eexists. split; [reflexivity |]. split; [reflexivity |].
    unfold added. cbn. repeat rewrite <- app_assoc.
    rewrite skipn_app, skipn_all, Nat.sub_diag. reflexivity.
Qed.

Lemma LightHash_run (nonce : Z) (b : byte) (bs : list byte) (w : World) :
  LightHash nonce (b :: bs) w
  = Ret (result (ethash_light (PAC_cache (paramsAndCache (pow w)))
                   (PAC_params (paramsAndCache (pow w))) (b :: bs) nonce))
        (set_pow (emit w (ECall c_light))
           (set_ret (pow w)
              (ethash_light (PAC_cache (paramsAndCache (pow w)))
                 (PAC_params (paramsAndCache (pow w))) (b :: bs) nonce))).
Proof.
  unfold LightHash, bind, get, log, modify_pow, ret_. cbn. reflexivity.
Qed.

(** X21. [verify] and [LightHash] agree on the shared cache: for a block
    that is not of an older epoch, with the held cache of the chain head's
    epoch and the cache mutex free, [verify] returns whether the digest
    [LightHash] returns for the same header hash and nonce, read
    big-endian, is at most [tt256 / difficulty]; [LightHash] itself takes
    no mutex. *)
Theorem X21_verify_accepts_what_LightHash_returns
  (b : byte) (bs mixDigest : list byte) (difficulty blockNum nonce target : Z)
  (w : World)
  (Hdiff : big_Div tt256 difficulty = Some target)
  (Hnew : PAC_SeedBlockNum (paramsAndCache (pow w)) <= GetSeedBlockNum blockNum)
  (Hcur : PAC_SeedBlockNum (paramsAndCache (pow w)) = GetSeedBlockNum (chain_head w))
  (Hfree : cacheMutex (pow w) = false) :
  exists h wl wv,
    LightHash nonce (b :: bs) w = Ret h wl /\
    added w wl = [ECall c_light] /\
    verify (b :: bs) mixDigest difficulty blockNum nonce w
    = Ret (Bytes2Big h <=? target) wv /\
    ret (pow wv) = ret (pow wl).
Proof.
  set (w1 := release CacheMutex (acquire CacheMutex w)).
  assert (Hp1 : pow w1 = pow w) by (apply release_acquire_pow; exact Hfree).
  destruct (verify_on_shared_cache (b :: bs) nonce target w1) as (wv & Hrun & Hpow & _).
  { rewrite Hp1. exact Hfree. }
  rewrite Hp1 in Hrun, Hpow.
  eexists. eexists. exists wv.
  split; [apply LightHash_run |].
  split.
  { unfold added. cbn. rewrite skipn_app, skipn_all, Nat.sub_diag. reflexivity. }
  unfold verify.
  rewrite (bind_Ret _ _ w w (b :: bs)) by reflexivity.
  rewrite (bind_Ret _ _ w w target) by (rewrite Hdiff; reflexivity).
  rewrite (bind_Ret _ _ w w w) by reflexivity.
  destruct (Z.ltb_spec (GetSeedBlockNum blockNum)
              (PAC_SeedBlockNum (paramsAndCache (pow w)))) as [Hlt | _]; [lia |].
  rewrite (bind_Ret _ _ _ _ _ (updateCache_current w Hfree Hcur)).
  fold w1. split; [exact Hrun |].
  rewrite Hpow. cbn. destruct (pow w); reflexivity.
Qed.


(** ** No returning call leaks a mutex *)

Lemma keeps_Ret {A : Type} (m : M A) (w w' : World) (a : A) :
  keeps_mutexes m -> m w = Ret a w' ->
  dagMutex (pow w') = dagMutex (pow w) /\ cacheMutex (pow w') = cacheMutex (pow w).
Proof. intros Hk H. pose proof (Hk w) as Hw. rewrite H in Hw. exact Hw. Qed.

Lemma flags_acquire (m : mutex) (w : World) :
  held (pow w) m = false ->
  match m with
  | CacheMutex => dagMutex (pow (acquire m w)) = dagMutex (pow w) /\
                  cacheMutex (pow (acquire m w)) = true
  | DagMutex => dagMutex (pow (acquire m w)) = true /\
                cacheMutex (pow (acquire m w)) = cacheMutex (pow w)
  end.
Proof. intros _. destruct m; cbn; destruct (pow w); auto. Qed.

Lemma flags_release (m : mutex) (w : World) :
  match m with
  | CacheMutex => dagMutex (pow (release m w)) = dagMutex (pow w) /\
                  cacheMutex (pow (release m w)) = false
  | DagMutex => dagMutex (pow (release m w)) = false /\
                cacheMutex (pow (release m w)) = cacheMutex (pow w)
  end.
Proof. destruct m; cbn; destruct (pow w); auto. Qed.

Lemma updateCache_balanced (w w' : World) (u : unit) :
  updateCache w = Ret u w' ->
  dagMutex (pow w') = dagMutex (pow w) /\ cacheMutex (pow w') = cacheMutex (pow w).
Proof.
  unfold updateCache. intros H.
  apply bind_Ret_inv in H as (? & wa & Hl & H).
  apply Lock_Ret_inv in Hl as (Hfree & ->).
  apply bind_Ret_inv in H as (v & wb & Hg & H).
  inversion Hg; subst v wb.
  apply bind_Ret_inv in H as (? & wc & Hmid & Hu).
  apply Unlock_Ret_inv in Hu as (_ & ->).
  assert (Hk : keeps_mutexes
                 (if PAC_SeedBlockNum (paramsAndCache (pow (acquire CacheMutex w)))
                     =? GetSeedBlockNum (chain_head (acquire CacheMutex w))
                  then ret_ tt
                  else bind (makeParamsAndCache (chain_head (acquire CacheMutex w)))
                         (fun p => modify_pow (fun e => set_paramsAndCache e p)))).
  { destruct (_ =? _); [apply keeps_ret |].
    apply keeps_bind; [apply keeps_makeParamsAndCache | intros p].
    apply keeps_modify_pow. intros e. destruct e; auto. }
  destruct (keeps_Ret _ _ _ _ Hk Hmid) as [Kd Kc].
  destruct (flags_acquire CacheMutex w Hfree) as [Ad Ac].
  destruct (flags_release CacheMutex wc) as [Rd Rc].
  cbn [held] in Hfree. split; congruence.
Qed.

Lemma verify_balanced (hash mixDigest : list byte) (difficulty blockNum nonce : Z)
  (w w' : World) (b : bool) :
  verify hash mixDigest difficulty blockNum nonce w = Ret b w' ->
  dagMutex (pow w') = dagMutex (pow w) /\ cacheMutex (pow w') = cacheMutex (pow w).
Proof.
  unfold verify. intros H.
  apply bind_Ret_inv in H as (chash & wa & Hh & H).
  apply lift_Ret_inv in Hh as [_ ->].
  apply bind_Ret_inv in H as (target & wb & Ht & H).
  apply lift_Ret_inv in Ht as [_ ->].
  apply bind_Ret_inv in H as (v & wc & Hg & H).
  inversion Hg; subst v wc.
  destruct (GetSeedBlockNum blockNum <? PAC_SeedBlockNum (paramsAndCache (pow w))).
  - apply (keeps_Ret _ _ _ _
             (keeps_bind _ _ (keeps_makeParamsAndCache blockNum)
                (fun pAc => keeps_light_check pAc chash nonce target)) H).
  - apply bind_Ret_inv in H as (? & w1 & Hupd & H).
    destruct (updateCache_balanced _ _ _ Hupd) as [Ud Uc].
    apply bind_Ret_inv in H as (? & w2 & Hl & H).
    apply Lock_Ret_inv in Hl as (Hfree & ->).
    apply defer_Ret_inv in H as (w3 & ? & Hbody & Hu).
    apply Unlock_Ret_inv in Hu as (_ & ->).
    assert (Hk : keeps_mutexes
                   (bind get (fun v => light_check (paramsAndCache (pow v)) chash nonce target))).
    { apply keeps_bind; [apply keeps_get | intros v]. apply keeps_light_check. }
    destruct (keeps_Ret _ _ _ _ Hk Hbody) as [Kd Kc].
    destruct (flags_acquire CacheMutex w1 Hfree) as [Ad Ac].
    destruct (flags_release CacheMutex w3) as [Rd Rc].
    cbn [held] in Hfree. split; congruence.
Qed.

(** X22. Every call that returns has given back the mutexes it took: after
    a return of [updateCache], [updateDAG], [Stop], [Search], [Verify],
    [FullHash] or [LightHash], each of the two mutexes is in the state it
    was in before the call. *)
Theorem X22_returning_calls_restore_both_mutexes (w w' : World) :
  let same := dagMutex (pow w') = dagMutex (pow w) /\
              cacheMutex (pow w') = cacheMutex (pow w) in
  (updateCache w = Ret tt w' -> same) /\
  (updateDAG w = Ret tt w' -> same) /\
  (Stop w = Ret tt w' -> same) /\
  (forall env fuel block r, Search env fuel block w = Ret r w' -> same) /\
  (forall block b, Verify block w = Ret b w' -> same) /\
  (forall nonce h r, FullHash nonce h w = Ret r w' -> same) /\
  (forall nonce h r, LightHash nonce h w = Ret r w' -> same).
Proof.
  cbv zeta.
  assert (Hdag : forall v v', updateDAG v = Ret tt v' ->
            dagMutex (pow v) = false /\ cacheMutex (pow v) = false /\
            dagMutex (pow v') = false /\ cacheMutex (pow v') = false).
  { intros v v' H. destruct (updateDAG_Ret_unlocked _ _ _ H) as [Hd Hc].
    apply updateDAG_Ret_inv in H as (Hc0 & Hd0 & _). auto. }
  split; [apply updateCache_balanced |].
  split.
  { intros H. destruct (Hdag _ _ H) as (A & B & C & D). split; congruence. }
  split.
  { unfold Stop. intros H.
    apply bind_Ret_inv in H as (? & wa & Hl & H).
    apply Lock_Ret_inv in Hl as (Hfc & ->).
    apply bind_Ret_inv in H as (? & wb & Hl & H).
    apply Lock_Ret_inv in Hl as (Hfd & ->).
    apply bind_Ret_inv in H as (v & wc & Hg & H).
    inversion Hg; subst v wc.
    apply bind_Ret_inv in H as (b & wd & Hb & H).
    apply C_free_Ret_inv in Hb as (_ & _ & ->).
    apply bind_Ret_inv in H as (? & we & Hm & H).
    inversion Hm; subst we.
    apply bind_Ret_inv in H as (d & wf & Hd & H).
    apply lift_Ret_inv in Hd as [_ ->].
    apply bind_Ret_inv in H as (b' & wg & Hb' & H).
    apply C_free_Ret_inv in Hb' as (_ & _ & ->).
    apply bind_Ret_inv in H as (? & wh & Hm' & H).
    inversion Hm'; subst wh.
    apply bind_Ret_inv in H as (? & wi & Hu & H).
    apply Unlock_Ret_inv in Hu as (_ & ->).
    apply Unlock_Ret_inv in H as (_ & ->).
    cbn in Hfc, Hfd |- *. destruct (pow w); cbn in *. split; congruence. }
  split.
  { intros env fuel block r H. pose proof H as H0.
    unfold Search in H. apply bind_Ret_inv in H as ([] & w1 & Hupd & _).
    destruct (Hdag _ _ Hupd) as (A & B & _ & _).
    rewrite (Search_outcome env fuel block w w1 Hupd) in H0.
    destruct (Search_body _ _ _ _) as [a w4 | w4 | w4 | w4 | w4]; inversion H0; subst.
    cbn. destruct (pow w4); cbn. split; congruence. }
  split.
  { intros block b. unfold Verify.
    destruct (negb _).
    - intros H. inversion H; subst. auto.
    - apply verify_balanced. }
  split.
  { intros nonce h r. unfold FullHash. intros H.
    apply bind_Ret_inv in H as ([] & w1 & Hupd & H).
    destruct (Hdag _ _ Hupd) as (A & B & C & D).
    apply bind_Ret_inv in H as (? & w2 & Hl & H).
    apply Lock_Ret_inv in Hl as (Hfd & ->).
    apply defer_Ret_inv in H as (w3 & ? & Hbody & Hu).
    apply Unlock_Ret_inv in Hu as (_ & ->).
    match type of Hbody with
    | ?m _ = _ => assert (Hk : keeps_mutexes m)
    end.
    { apply keeps_bind; [apply keeps_lift | intros c].
      apply keeps_bind; [apply keeps_get | intros v].
      apply keeps_bind; [apply keeps_lift | intros d].
      apply keeps_bind; [apply keeps_log | intros _].
      apply keeps_bind; [| intros _; apply keeps_ret].
      apply keeps_modify_pow. intros e. destruct e; auto. }
    destruct (keeps_Ret _ _ _ _ Hk Hbody) as [Kd Kc].
    destruct (flags_acquire DagMutex w1 Hfd) as [Ad Ac].
    destruct (flags_release DagMutex w3) as [Rd Rc].
    split; congruence. }
  intros nonce h r H.
  match type of H with
  | ?m _ = _ => assert (Hk : keeps_mutexes m)
  end.
  { unfold LightHash.
    apply keeps_bind; [apply keeps_lift | intros c].
    apply keeps_bind; [apply keeps_get | intros v].
    apply keeps_bind; [apply keeps_log | intros _].
    apply keeps_bind; [| intros _; apply keeps_ret].
    apply keeps_modify_pow. intros e. destruct e; auto. }
  exact (keeps_Ret _ _ _ _ Hk H).
Qed.


(** ** A found nonce, hashed again *)

Lemma FullHash_run (nonce : Z) (b : byte) (bs : list byte) (w w1 : World) (d : DAG) :
  updateDAG w = Ret tt w1 ->
  dag (pow w1) = Some d ->
  exists w',
    FullHash nonce (b :: bs) w
    = Ret (result (ethash_full (DAG_dag d) (PAC_params (paramsAndCache (pow w1)))
                     (b :: bs) nonce)) w' /\
    ret (pow w') = ethash_full (DAG_dag d) (PAC_params (paramsAndCache (pow w1)))
                     (b :: bs) nonce /\
    trace w' = trace w1 ++ [ELock DagMutex; ECall c_full; EUnlock DagMutex].
Proof.
  intros Hupd Hdag.
  destruct (updateDAG_Ret_unlocked _ _ _ Hupd) as [Hfd Hfc].
  unfold FullHash.
  rewrite (bind_Ret _ _ _ _ _ Hupd).
  rewrite (bind_Ret _ _ _ _ _ (Lock_free DagMutex w1 Hfd)).
  destruct w1 as [hd dk sl e tr]; destruct e as [tb hr dg pac rt dm cm].
  cbn in Hfd, Hfc, Hdag. subst.
  eexists. split; [reflexivity |]. split; [reflexivity |].
  cbn. repeat rewrite <- app_assoc. reflexivity.
Qed.

(** X23. [FullHash] confirms what [Search] found.  When the held cache is
    of the epoch of the chain head and a search returns a nonce, a
    following [FullHash] of the block's header hash at that nonce returns
    the digest that the search accepted: the second [updateDAG] changes
    nothing, and the digest, read big-endian, is at most the target. *)
Theorem X23_FullHash_confirms_Search
  (env : SearchEnv) (block : Block) (fuel k : nat) (w w1 : World)
  (d : DAG) (b : byte) (bs : list byte) (target : Z)
  (Hupd : updateDAG w = Ret tt w1)
  (Hcache : PAC_SeedBlockNum (paramsAndCache (pow w)) = GetSeedBlockNum (chain_head w))
  (Hdag : dag (pow w1) = Some d)
  (Hhash : HashNoNonce block = b :: bs)
  (Hdiff : big_Div tt256 (Difficulty block) = Some target)
  (Hgo : forall i, (i <= k)%nat -> stop env i = false)
  (Hmiss : forall i, (i < k)%nat ->
     target < Bytes2Big (result (ethash_full (DAG_dag d)
                (PAC_params (paramsAndCache (pow w1))) (b :: bs)
                (wrap64 (rand_Int63 env + Z.of_nat i)))))
  (Hhit : Bytes2Big (result (ethash_full (DAG_dag d)
             (PAC_params (paramsAndCache (pow w1))) (b :: bs)
             (wrap64 (rand_Int63 env + Z.of_nat k)))) <= target)
  (Hfuel : (k < fuel)%nat) :
  exists n mix s w' h w'',
    Search env fuel block w = Ret (n, Some mix, s) w' /\
    FullHash n (HashNoNonce block) w' = Ret h w'' /\
    h = result (ret (pow w')) /\
    Bytes2Big h <= target /\
    ret (pow w'') = ret (pow w') /\
    calls (added w' w'') = [c_full].
Proof.
  destruct (Search_found env block fuel k w w1 d b bs target
              Hupd Hdag Hhash Hdiff Hgo Hmiss Hhit Hfuel)
    as (w' & Hrun & Hpow & Hdk & Hhd & _ & _).
  cbv zeta in Hrun, Hpow.
  set (n := wrap64 (rand_Int63 env + Z.of_nat k)) in *.
  set (r := ethash_full (DAG_dag d) (PAC_params (paramsAndCache (pow w1))) (b :: bs) n) in *.
  destruct (updateDAG_Ret_unlocked _ _ _ Hupd) as [Hfd Hfc].
  destruct (updateDAG_Ret_facts _ _ _ Hupd)
    as (Hp1 & Hh1 & _ & _ & _ & _ & _ & d' & Hdag' & Hcur & Hst).
  rewrite Hdag in Hdag'. inversion Hdag'; subst d'.
  assert (Hepoch : DAG_SeedBlockNum d = GetSeedBlockNum (chain_head w)).
  { destruct (dag_is_stale (pow w) (GetSeedBlockNum (chain_head w))).
    - rewrite (Hst eq_refl). exact Hcache.
    - exact (Hcur eq_refl). }
  assert (Hdag2 : dag (pow w') = Some d)
    by (rewrite Hpow; destruct (pow w1); cbn in *; exact Hdag).
  assert (Hfd2 : dagMutex (pow w') = false)
    by (rewrite Hpow; destruct (pow w1); cbn in *; exact Hfd).
  assert (Hfc2 : cacheMutex (pow w') = false)
    by (rewrite Hpow; destruct (pow w1); cbn in *; exact Hfc).
  assert (Hpac2 : paramsAndCache (pow w') = paramsAndCache (pow w1))
    by (rewrite Hpow; destruct (pow w1); reflexivity).
  assert (Hret2 : ret (pow w') = r)
    by (rewrite Hpow; destruct (pow w1); reflexivity).
  assert (Hstale2 : dag_is_stale (pow w') (GetSeedBlockNum (chain_head w')) = false).
  { unfold dag_is_stale. rewrite Hdag2, Hhd, Hh1, Hepoch, Z.eqb_refl. reflexivity. }
  destruct (updateDAG_current w' Hfc2 Hfd2 Hstale2)
    as (w2 & Hupd2 & Hp2 & _ & _ & _ & Ht2).
  assert (Hdag3 : dag (pow w2) = Some d) by (rewrite Hp2; exact Hdag2).
  assert (Hrun2 : exists w'',
            FullHash n (b :: bs) w' = Ret (result r) w'' /\
            ret (pow w'') = r /\
            trace w'' = trace w2 ++ [ELock DagMutex; ECall c_full; EUnlock DagMutex]).
  { destruct (FullHash_run n b bs w' w2 d Hupd2 Hdag3) as (w'' & Hf & Hr & Ht).
    rewrite Hp2, Hpac2 in Hf, Hr. exists w''. auto. }
  destruct Hrun2 as (w'' & Hfull & Hret3 & Ht3).
  exists n, (mix_hash r), (GetSeedHash (NumberU64 block)), w', (result r), w''.
  split; [exact Hrun |].
  split; [rewrite Hhash; exact Hfull |].
  split; [rewrite Hret2; reflexivity |].
  split; [exact Hhit |].
  split; [congruence |].
  rewrite Ht2, <- app_assoc in Ht3. rewrite (added_app _ _ _ Ht3). reflexivity.
Qed.


(** ** [parseNonce] *)

Lemma byte_to_Z_range (b : byte) : 0 <= byte_to_Z b < 256.
Proof.
  unfold byte_to_Z. pose proof (Byte.to_N_bounded b). lia.
Qed.

Lemma lor_shifted (x y s : Z) :
  0 <= s -> 0 <= x < 2 ^ s -> Z.lor x (Z.shiftl y s) = x + y * 2 ^ s.
Proof.
  intros Hs Hx.
  assert (Hland : Z.land x (Z.shiftl y s) = 0).
  { apply Z.bits_inj'. intros n Hn.
    rewrite Z.land_spec, Z.bits_0.
    destruct (Z_lt_ge_dec n s) as [Hlt | Hge].
    - rewrite Z.shiftl_spec_low by lia. apply andb_false_r.
    - assert (Hx0 : Z.testbit x n = false).
      { apply Z.testbit_false; [exact Hn |].
        rewrite Z.div_small; [reflexivity |].
        split; [lia |].
        apply Z.lt_le_trans with (2 ^ s); [lia |].
        apply Z.pow_le_mono_r; lia. }
      rewrite Hx0. reflexivity. }
  rewrite <- Z.lxor_lor by exact Hland.
  rewrite <- Z.add_nocarry_lxor by exact Hland.
  rewrite Z.shiftl_mul_pow2 by lia. reflexivity.
Qed.

Lemma pow2_7_succ (i : nat) : 2 ^ (7 * Z.of_nat (S i)) = 2 ^ (7 * Z.of_nat i) * 128.
Proof.
  replace (7 * Z.of_nat (S i)) with (7 * Z.of_nat i + 7) by lia.
  rewrite Z.pow_add_r by lia. reflexivity.
Qed.

Lemma pow2_7_le (i j : nat) : (i <= j)%nat -> 2 ^ (7 * Z.of_nat i) <= 2 ^ (7 * Z.of_nat j).
Proof. intros H. apply Z.pow_le_mono_r; lia. Qed.

(** One step of the accumulator: no bit is lost while at most nine groups
    of seven bits are read, or a tenth group that is 0 or 1. *)
Lemma uvarint_step (x v : Z) (i : nat) :
  0 <= x < 2 ^ (7 * Z.of_nat i) ->
  0 <= v < 128 ->
  ((i < 9)%nat \/ (i = 9%nat /\ v <= 1)) ->
  Z.lor x (shl64 v (7 * Z.of_nat i)) = x + v * 2 ^ (7 * Z.of_nat i).
Proof.
  intros Hx Hv Hi. unfold shl64, wrap64.
  rewrite Z.shiftl_mul_pow2 by lia.
  assert (Hsmall : 0 <= v * 2 ^ (7 * Z.of_nat i) < 2 ^ 64).
  { destruct Hi as [Hi | [-> Hv1]].
    - pose proof (pow2_7_le i 8 ltac:(lia)) as Hp.
      change (2 ^ (7 * Z.of_nat 8)) with 72057594037927936 in Hp.
      change (2 ^ 64) with 18446744073709551616. nia.
    - change (2 ^ (7 * Z.of_nat 9)) with 9223372036854775808.
      change (2 ^ 64) with 18446744073709551616. lia. }
  rewrite Z.mod_small by exact Hsmall.
  rewrite <- (lor_shifted x v (7 * Z.of_nat i)) by lia.
  rewrite Z.shiftl_mul_pow2 by lia. reflexivity.
Qed.

Lemma ReadUvarint_decodes (cs : list byte) :
  forall (i : nat) (x : Z) (t : byte) (rest : list byte),
    Forall continues cs ->
    byte_to_Z t < 128 ->
    0 <= x < 2 ^ (7 * Z.of_nat i) ->
    ((i + length cs < 9)%nat \/ ((i + length cs)%nat = 9%nat /\ byte_to_Z t <= 1)) ->
    ReadUvarint (cs ++ t :: rest) i x (7 * Z.of_nat i)
    = (x + 2 ^ (7 * Z.of_nat i) * uvarint_value (cs ++ [t]), false).
Proof.
  induction cs as [| c cs IH]; intros i x t rest Hcs Ht Hx Hlen.
  - cbn [app ReadUvarint uvarint_value length] in *.
    rewrite Nat.add_0_r in Hlen.
    pose proof (byte_to_Z_range t) as Hr.
    destruct (Z.ltb_spec (byte_to_Z t) 128) as [_ | Hge]; [| lia].
    replace ((9 <? i)%nat || ((i =? 9)%nat && (1 <? byte_to_Z t)))%bool with false.
    2:{ symmetry. destruct Hlen as [Hi | [-> Hv]].
        - replace (9 <? i)%nat with false by (symmetry; apply Nat.ltb_ge; lia).
          replace (i =? 9)%nat with false by (symmetry; apply Nat.eqb_neq; lia).
          reflexivity.
        - replace (1 <? byte_to_Z t) with false by (symmetry; apply Z.ltb_ge; lia).
          reflexivity. }
    rewrite uvarint_step by (try lia; destruct Hlen as [? | [? ?]]; auto).
    rewrite Z.mod_small by lia. f_equal. lia.
  - inversion Hcs as [| c' cs' Hc Hcs']; subst. unfold continues in Hc.
    cbn [app ReadUvarint uvarint_value length] in *.
    pose proof (byte_to_Z_range c) as Hr.
    destruct (Z.ltb_spec (byte_to_Z c) 128) as [Hlt | _]; [lia |].
    change 127 with (Z.ones 7). rewrite Z.land_ones by lia.
    change (2 ^ 7) with 128.
    pose proof (Z.mod_pos_bound (byte_to_Z c) 128 ltac:(lia)) as Hm.
    rewrite uvarint_step by (try lia; left; destruct Hlen as [? | [? ?]]; lia).
    replace (7 * Z.of_nat i + 7) with (7 * Z.of_nat (S i)) by lia.
    rewrite IH; try assumption.
    + rewrite pow2_7_succ. f_equal. lia.
    + rewrite pow2_7_succ. nia.
    + destruct Hlen as [Hl | [Hl Hv]]; [left | right]; try split; try lia.
Qed.

Lemma ReadUvarint_unterminated (cs : list byte) :
  forall i x s, Forall continues cs -> snd (ReadUvarint cs i x s) = true.
Proof.
  induction cs as [| c cs IH]; intros i x s Hcs; [reflexivity |].
  inversion Hcs as [| c' cs' Hc Hcs']; subst. unfold continues in Hc.
  cbn [ReadUvarint].
  destruct (Z.ltb_spec (byte_to_Z c) 128) as [Hlt | _]; [lia |].
  apply IH. exact Hcs'.
Qed.

Lemma ReadUvarint_overflows (cs : list byte) :
  forall (i : nat) (x s : Z) (t : byte) (rest : list byte),
    Forall continues cs ->
    byte_to_Z t < 128 ->
    ((9 < i + length cs)%nat \/ ((i + length cs)%nat = 9%nat /\ 1 < byte_to_Z t)) ->
    snd (ReadUvarint (cs ++ t :: rest) i x s) = true.
Proof.
  induction cs as [| c cs IH]; intros i x s t rest Hcs Ht Hlen.
  - cbn [app ReadUvarint length] in *. rewrite Nat.add_0_r in Hlen.
    destruct (Z.ltb_spec (byte_to_Z t) 128) as [_ | Hge]; [| lia].
    replace ((9 <? i)%nat || ((i =? 9)%nat && (1 <? byte_to_Z t)))%bool with true;
      [reflexivity |].
    symmetry. destruct Hlen as [Hi | [-> Hv]].
    + replace (9 <? i)%nat with true by (symmetry; apply Nat.ltb_lt; lia). reflexivity.
    + replace (1 <? byte_to_Z t) with true by (symmetry; apply Z.ltb_lt; lia). reflexivity.
  - inversion Hcs as [| c' cs' Hc Hcs']; subst. unfold continues in Hc.
    cbn [app ReadUvarint length] in *.
    destruct (Z.ltb_spec (byte_to_Z c) 128) as [Hlt | _]; [lia |].
    apply IH; try assumption.
    destruct Hlen as [Hl | [Hl Hv]]; [left | right]; try split; try lia.
Qed.

Lemma parseNonce_of_error (nonce : list byte) :
  snd (ReadUvarint nonce 0 0 0) = true -> parseNonce nonce = (0, true).
Proof.
  unfold parseNonce. destruct (ReadUvarint nonce 0 0 0) as [n e]. cbn. intros ->.
  reflexivity.
Qed.

(** X24. [parseNonce] reads a nonce in varint encoding.  On the bytes
    [cs] with the top bit set followed by a byte [t] without it, it
    returns the number these bytes denote in base 128 (least significant
    first) and ignores whatever follows [t], provided the number fits 64
    bits (at most eight bytes in [cs], or nine and [t <= 1]); when it does
    not fit, and when no byte without the top bit occurs (the empty slice
    included), it returns 0 with an error. *)
Theorem X24_parseNonce_decodes_or_fails (cs rest : list byte) (t : byte)
  (Hcs : Forall continues cs)
  (Ht : byte_to_Z t < 128) :
  ((length cs < 9)%nat \/ (length cs = 9%nat /\ byte_to_Z t <= 1) ->
   parseNonce (cs ++ t :: rest) = (uvarint_value (cs ++ [t]), false)) /\
  ((9 < length cs)%nat \/ (length cs = 9%nat /\ 1 < byte_to_Z t) ->
   parseNonce (cs ++ t :: rest) = (0, true)) /\
  parseNonce cs = (0, true) /\
  parseNonce [] = (0, true).
Proof.
  split; [| split; [| split]].
  - intros Hfit. unfold parseNonce.
    change 0 with (7 * Z.of_nat 0) at 2.
    rewrite ReadUvarint_decodes; try assumption.
    + cbn [Z.of_nat]. change (2 ^ (7 * 0)) with 1. f_equal. lia.
    + cbn. lia.
  - intros Hover. apply parseNonce_of_error.
    apply ReadUvarint_overflows; assumption.
  - apply parseNonce_of_error. apply ReadUvarint_unterminated. exact Hcs.
  - reflexivity.
Qed.


(** ** Buffer sizes on the build paths *)

Lemma makeParamsAndCache_Ret_inv (blockNum : Z) (w w' : World) (p : ParamsAndCache) :
  makeParamsAndCache blockNum w = Ret p w' ->
  w' = emit (emit w (ECall c_params_init)) (ECall c_mkcache) /\
  PAC_SeedBlockNum p = GetSeedBlockNum blockNum /\
  PAC_params p = SizingParams (GetSeedBlockNum blockNum) /\
  length (mem (PAC_cache p)) = Z.to_nat (cache_size (PAC_params p)).
Proof.
  intros H.
  destruct (contents (GetBlockByNumber_SeedHash (GetSeedBlockNum blockNum)))
    as [| s0 seed] eqn:Hseed.
  - exfalso. revert H. unfold makeParamsAndCache. rewrite Hseed.
    unfold bind, log. cbn. discriminate.
  - destruct (makeParamsAndCache_Ret blockNum w) as (p' & Hmk & Hfacts).
    { rewrite Hseed. discriminate. }
    rewrite Hmk in H. inversion H; subst. split; [reflexivity | exact Hfacts].
Qed.

Lemma cache_matches_of_build (p : ParamsAndCache) :
  PAC_params p = SizingParams (PAC_SeedBlockNum p) ->
  length (mem (PAC_cache p)) = Z.to_nat (cache_size (PAC_params p)) ->
  cache_matches_epoch p = true.
Proof.
  intros Hpar Hlen. unfold cache_matches_epoch. rewrite <- Hpar, Hlen.
  apply Z.eqb_eq. lia.
Qed.

Lemma dag_matches_of_build (p : ParamsAndCache) :
  PAC_params p = SizingParams (PAC_SeedBlockNum p) ->
  dag_matches_epoch (built_dag p) = true.
Proof.
  intros Hpar. unfold dag_matches_epoch. rewrite built_dag_size.
  cbn [built_dag DAG_SeedBlockNum]. rewrite <- Hpar.
  apply Z.eqb_eq. lia.
Qed.

(** X25. The paths that build keep every live buffer at the size of its
    recorded epoch.  From a state whose cache carries the sizing
    parameters of its epoch and whose buffers have the sizes of their
    epochs, a returning [updateCache] leads to such a state again, and so
    does a returning [updateDAG] unless it takes its DAG from the file. *)
Theorem X25_build_paths_keep_buffer_sizes (w w' : World)
  (Hpar : PAC_params (paramsAndCache (pow w))
          = SizingParams (PAC_SeedBlockNum (paramsAndCache (pow w))))
  (Hsize : sizes_match (pow w) = true) :
  (updateCache w = Ret tt w' ->
   PAC_params (paramsAndCache (pow w'))
   = SizingParams (PAC_SeedBlockNum (paramsAndCache (pow w'))) /\
   sizes_match (pow w') = true) /\
  (updateDAG w = Ret tt w' ->
   (forall content,
      disk w = Some content -> (8 < length content)%nat ->
      Bytes2Big (firstn 8 content) < GetSeedBlockNum (chain_head w)) ->
   PAC_params (paramsAndCache (pow w'))
   = SizingParams (PAC_SeedBlockNum (paramsAndCache (pow w'))) /\
   sizes_match (pow w') = true).
Proof.
  pose proof Hsize as Hsize0.
  unfold sizes_match in Hsize. apply andb_true_iff in Hsize as [Hcache Hdagm].
  split.
  - unfold updateCache. intros H.
    apply bind_Ret_inv in H as (? & wa & Hl & H).
    apply Lock_Ret_inv in Hl as (Hfree & ->).
    apply bind_Ret_inv in H as (v & wb & Hg & H).
    inversion Hg; subst v wb.
    apply bind_Ret_inv in H as (? & wc & Hmid & Hu).
    apply Unlock_Ret_inv in Hu as (_ & ->).
    destruct (_ =? _) in Hmid.
    + inversion Hmid; subst wc.
      rewrite release_acquire_pow by exact Hfree.
      split; [exact Hpar | exact Hsize0].
    + apply bind_Ret_inv in Hmid as (p & wd & Hmk & Hset).
      apply makeParamsAndCache_Ret_inv in Hmk as (-> & Hnum & Hp & Hlen).
      unfold modify_pow in Hset. inversion Hset; subst wc.
      rewrite <- Hnum in Hp.
      pose proof (cache_matches_of_build p Hp Hlen) as Hcm.
      destruct w as [hd dk sl e tr]; destruct e as [tb hr dg pac rt dm cm].
      cbn in *. split; [exact Hp |].
      unfold sizes_match. cbn. rewrite Hcm. exact Hdagm.
  - intros H Hfile.
    apply updateDAG_Ret_inv in H as (Hc & Hd & [[Hs ->] | [Hs (w2 & Hload & ->)]]).
    + destruct w as [hd dk sl e tr]; destruct e as [tb hr dg pac rt dm cm].
      cbn in *. subst. split; [exact Hpar | exact Hsize0].
    + cbv zeta in Hload.
      apply load_or_regenerate_Ret_inv in Hload
        as [[_ ->] | (content & Hdk & Hlen & Hnew & ->)].
      * pose proof (dag_matches_of_build _ Hpar) as Hdm.
        destruct w as [hd dk sl e tr]; destruct e as [tb hr dg pac rt dm cm].
        cbn in *. split; [exact Hpar |].
        unfold sizes_match. cbn. rewrite Hcache. exact Hdm.
      * exfalso.
        destruct w as [hd dk sl e tr]; destruct e as [tb hr dg pac rt dm cm].
        cbn in Hdk, Hnew, Hfile.
        specialize (Hfile content Hdk Hlen). lia.
Qed.

End Proofs.

(** ** Runs of the small instance *)

Lemma C9_search_cancelled_at_poll_witness :
  exists w',
    @Search Toy.lib Toy.chain (Toy.stop_at 2) 5 (Toy.block 0 (2 ^ 255)) (Toy.boot 0 None)
    = Ret (0, None, None) w' /\
    HashRate (pow w') = 0 /\
    count_calls c_full (trace w') = 2%nat.
Proof.
  destruct (@C9_search_cancelled_at_poll Toy.lib Toy.chain
              (Toy.stop_at 2) (Toy.block 0 (2 ^ 255)) 5 2 (Toy.boot 0 None)
              (world_of (@updateDAG Toy.lib (Toy.boot 0 None)))
              (mk_DAG 0 (repeat x01 8) Malloced) x2a [] 2)
    as [_ (w' & Hrun & Hrate & Htr)].
  - vm_compute. reflexivity.
  - vm_compute. reflexivity.
  - reflexivity.
  - vm_compute. reflexivity.
  - intros i Hi.
    destruct i as [| [| i]]; [| | lia]; split; vm_compute; reflexivity.
  - reflexivity.
  - lia.
  - exists w'. split; [exact Hrun |]. split; [exact Hrate |].
    rewrite Htr. vm_compute. reflexivity.
Defined.

Lemma C10_cancelled_triple_and_nonce_zero_witness :
  (exists mix w',
     @Search Toy.lib Toy.chain Toy.never_stop 1 (Toy.block 0 1) (Toy.boot 0 None)
     = Ret (0, Some mix, Some (PutUint64 1)) w') /\
  (exists w',
     @Search Toy.lib Toy.chain (Toy.stop_at 0) 1 (Toy.block 0 1) (Toy.boot 0 None)
     = Ret (0, None, None) w').
Proof.
  destruct (@C10_cancelled_triple_and_nonce_zero Toy.lib Toy.chain
              Toy.never_stop (Toy.block 0 1) 0 (Toy.boot 0 None)
              (world_of (@updateDAG Toy.lib (Toy.boot 0 None)))
              (mk_DAG 0 (repeat x01 8) Malloced) x2a [] (2 ^ 256))
    as (_ & _ & Hzero).
  - vm_compute. reflexivity.
  - vm_compute. reflexivity.
  - reflexivity.
  - vm_compute. reflexivity.
  - reflexivity.
  - reflexivity.
  - vm_compute. discriminate.
  - split; [exact Hzero |].
    eexists. vm_compute. reflexivity.
Defined.

Lemma C8_updateCache_idempotent_witness :
  exists w1 w2,
    @updateCache Toy.lib Toy.chain Toy.w_grown = Ret tt w1 /\
    @updateCache Toy.lib Toy.chain w1 = Ret tt w2 /\
    pow w2 = pow w1 /\
    builds (added Toy.w_grown w2) = 1%nat.
Proof.
  destruct (@C8_updateCache_idempotent Toy.lib Toy.chain Toy.w_grown)
    as (w1 & w2 & H1 & H2 & Hpow & _ & _ & _ & Hb & _).
  - reflexivity.
  - intros _. vm_compute. discriminate.
  - exists w1, w2. split; [exact H1 |]. split; [exact H2 |].
    split; [exact Hpow | exact Hb].
Defined.

Lemma C7_Verify_rejects_seed_mismatch_witness :
  @Verify Toy.lib Toy.chain (mk_Block [x2a] 1 0 [x00] [] 0) (Toy.boot 0 None)
  = Ret false (Toy.boot 0 None).
Proof.
  apply (@C7_Verify_rejects_seed_mismatch Toy.lib Toy.chain
           (mk_Block [x2a] 1 0 [x00] [] 0) (Toy.boot 0 None)).
  vm_compute. discriminate.
Defined.

Lemma C5_target_is_tt256_div_difficulty_witness :
  big_Div tt256 2 = Some (2 ^ 256 / 2) /\
  (forall w b w',
     @verify Toy.lib Toy.chain [x2a] [] 2 0 7 w = Ret b w' ->
     b = (Bytes2Big (result (ret (pow w'))) <=? 2 ^ 256 / 2)) /\
  exists s w',
    @Search Toy.lib Toy.chain (Toy.stop_at 1) 5 (Toy.block 0 2) (Toy.boot 0 None)
    = Ret (128, Some [x2a], s) w' /\
    Bytes2Big (result (ret (pow w'))) = 2 ^ 256 / 2.
Proof.
  destruct (@C5_target_is_tt256_div_difficulty Toy.lib Toy.chain 2 ltac:(lia))
    as (Hdiv & _ & _ & Hver & Hsearch).
  split; [exact Hdiv |].
  split; [intros w b w'; apply Hver |].
  destruct (Hsearch (Toy.stop_at 1) (Toy.block 0 2) 5%nat 0%nat (Toy.boot 0 None)
              (world_of (@updateDAG Toy.lib (Toy.boot 0 None)))
              (mk_DAG 0 (repeat x01 8) Malloced) x2a [])
    as (w' & Hrun & Hret).
  - reflexivity.
  - vm_compute. reflexivity.
  - vm_compute. reflexivity.
  - reflexivity.
  - intros i Hi. assert (i = 0%nat) as -> by lia. reflexivity.
  - intros i Hi. lia.
  - vm_compute. discriminate.
  - lia.
  - eexists. exists w'. split; [exact Hrun |].
    rewrite Hret. vm_compute. reflexivity.
Defined.

(** C5 as the specification words it fails at difficulty 2: the code's
    target is [2^255], not [floor((2^256 - 1) / 2) = 2^255 - 1], and
    [verify] accepts the digest [2^255]. *)
Lemma C5_counterexample_difficulty_two :
  big_Div tt256 2 <> Some ((2 ^ 256 - 1) / 2) /\
  exists w',
    @verify Toy.lib Toy.chain [x2a] [] 2 0 128 (Toy.boot 0 None) = Ret true w' /\
    Bytes2Big (result (ret (pow w'))) = 2 ^ 255 /\
    ~ (2 ^ 255 <= (2 ^ 256 - 1) / 2).
Proof.
  split.
  - vm_compute. discriminate.
  - eexists. split; [vm_compute; reflexivity |].
    split; [vm_compute; reflexivity |].
    vm_compute. intros H. apply H. reflexivity.
Defined.

(** ** Where the code departs from its specification *)

(** C2. A process whose cache was built at height 0 (epoch 0) and whose
    chain has reached height 30001 (target epoch 30000), with no DAG and no
    file: [updateDAG] does not rebuild the cache.  It calls
    [ethash_compute_full_data] on the epoch-0 cache, keeps that cache, and
    writes the result under the header 30000. *)
Theorem C2_updateDAG_builds_from_stale_cache :
  GetSeedBlockNum (chain_head Toy.w_grown) = 30000 /\
  PAC_SeedBlockNum (paramsAndCache (pow Toy.w_grown)) = 0 /\
  dag (pow Toy.w_grown) = None /\
  disk Toy.w_grown = None /\
  exists w1,
    @updateDAG Toy.lib Toy.w_grown = Ret tt w1 /\
    calls (added Toy.w_grown w1) = [c_compute_full_data] /\
    paramsAndCache (pow w1) = paramsAndCache (pow Toy.w_grown) /\
    dag (pow w1) = Some (@built_dag Toy.lib (paramsAndCache (pow Toy.w_grown))) /\
    option_map (firstn 8) (disk w1) = Some (PutUint64 30000).
Proof.
  repeat (split; [reflexivity |]).
  eexists. split; [vm_compute; reflexivity |].
  repeat split.
Qed.

(** C3. [updateDAG] and [Stop] take the cache mutex before the DAG mutex;
    [Search] takes the DAG mutex first and then, holding it, the cache
    mutex.  A thread in [Search] and a thread in [updateDAG] can therefore
    reach a state in which each waits for the mutex the other holds. *)
Theorem C3_Search_takes_dag_mutex_first :
  let w := Toy.boot 0 None in
  let w1 := world_of (@updateDAG Toy.lib w) in
  let s_search := added w (world_of (@Search Toy.lib Toy.chain Toy.never_stop 1 (Toy.block 0 1) w)) in
  let s_update := added w1 (world_of (@updateDAG Toy.lib w1)) in
  lock_order_ok false (added w w1) = true /\
  lock_order_ok false s_update = true /\
  lock_order_ok false (added w1 (world_of (Stop w1))) = true /\
  lock_order_ok false s_search = false /\
  s_search = [ELock CacheMutex; ELock DagMutex; ECall c_compute_full_data; EWrite;
              EUnlock DagMutex; EUnlock CacheMutex;
              ELock DagMutex; ELock CacheMutex; ECall c_full;
              EUnlock DagMutex; EUnlock CacheMutex] /\
  exists c,
    run_schedule [true; true; true; true; true; true; true; false]
      (mk_Threads None None s_search s_update) = Some c /\
    owner c DagMutex = Some true /\
    owner c CacheMutex = Some false /\
    hd_error (script c true) = Some (ELock CacheMutex) /\
    hd_error (script c false) = Some (ELock DagMutex) /\
    deadlocked c = true.
Proof.
  cbv zeta.
  repeat (split; [vm_compute; reflexivity |]).
  eexists. split; [vm_compute; reflexivity |].
  repeat split.
Qed.

(** C4. A process at height 0 (target epoch 0) that finds a file of three
    bytes: [updateDAG] panics instead of building a DAG, and it does so
    whatever spare capacity the buffer read from the file has. *)
Theorem C4_truncated_file_panics :
  disk Toy.w_truncated = Some [x01; x02; x03] /\
  dag (pow Toy.w_truncated) = None /\
  GetSeedBlockNum (chain_head Toy.w_truncated) = 0 /\
  (exists w', @updateDAG Toy.lib Toy.w_truncated = Panic w' /\
              disk w' = Some [x01; x02; x03] /\ dag (pow w') = None) /\
  (forall spare : list byte,
     returned (@updateDAG Toy.lib
                 (mk_World 0 (Some [x01; x02; x03]) spare (pow Toy.w_truncated) []))
     = false).
Proof.
  repeat (split; [reflexivity |]).
  split.
  - eexists. split; [vm_compute; reflexivity |]. split; reflexivity.
  - intros spare.
    destruct (@updateDAG_short_file Toy.lib
                (mk_World 0 (Some [x01; x02; x03]) spare (pow Toy.w_truncated) [])
                [x01; x02; x03]) as (w1 & Hrun & _); try reflexivity.
    + intros d Hdag. vm_compute in Hdag. discriminate Hdag.
    + cbn. lia.
    + rewrite Hrun. reflexivity.
Qed.

(** C6. The process of C2, after its [updateDAG], an [updateCache] (the
    cache becomes that of epoch 30000) and a second [updateDAG]: the file
    written by the first pass, whose header is 30000, is adopted.  The live
    DAG is then recorded under epoch 30000 while its buffer has the size of
    epoch 0 (8 bytes here, where epoch 30000 needs 12). *)
Theorem C6_adopted_file_breaks_sizes :
  @sizes_match Toy.lib (pow Toy.w_grown) = true /\
  returned (@updateDAG Toy.lib Toy.w_grown) = true /\
  returned (@updateCache Toy.lib Toy.chain (world_of (@updateDAG Toy.lib Toy.w_grown))) = true /\
  @sizes_match Toy.lib (pow Toy.w_second_pass) = true /\
  exists w3 d,
    @updateDAG Toy.lib Toy.w_second_pass = Ret tt w3 /\
    calls (added Toy.w_second_pass w3) = [] /\
    dag (pow w3) = Some d /\
    DAG_SeedBlockNum d = 30000 /\
    Z.of_nat (length (DAG_dag d)) = 8 /\
    full_size (@SizingParams Toy.lib 30000) = 12 /\
    full_size (@SizingParams Toy.lib 0) = 8 /\
    @sizes_match Toy.lib (pow w3) = false.
Proof.
  repeat (split; [vm_compute; reflexivity |]).
  eexists. eexists. split; [vm_compute; reflexivity |].
  repeat split.
Qed.

(** ** Runs for the further properties *)

Lemma X1_seed_block_aligned_and_recent_witness :
  GetSeedBlockNum 60000 mod 30000 = 0 /\
  GetSeedBlockNum 60000 < 60000 <= GetSeedBlockNum 60000 + 30000 /\
  GetSeedBlockNum 60000 <= GetSeedBlockNum 60001.
Proof.
  assert (H1 : is_uint64 60000) by (unfold is_uint64; lia).
  assert (H2 : is_uint64 60001) by (unfold is_uint64; lia).
  destruct (X1_seed_block_aligned_and_recent 60000 60001 H1 H2 ltac:(lia))
    as (Ha & Hb & Hc).
  split; [exact Ha |]. split; [apply Hb; lia | exact Hc].
Defined.

Lemma X2_seed_block_of_seed_block_witness :
  GetSeedBlockNum (GetSeedBlockNum 60001) = 30000.
Proof.
  assert (H1 : is_uint64 60001) by (unfold is_uint64; lia).
  rewrite (X2_seed_block_of_seed_block 60001 H1 ltac:(lia)). reflexivity.
Defined.

Lemma X3_updateDAG_current_is_noop_witness :
  exists w1,
    @updateDAG Toy.lib (world_of (@updateDAG Toy.lib (Toy.boot 0 None))) = Ret tt w1 /\
    pow w1 = pow (world_of (@updateDAG Toy.lib (Toy.boot 0 None))).
Proof.
  destruct (@X3_updateDAG_current_is_noop Toy.lib
              (world_of (@updateDAG Toy.lib (Toy.boot 0 None)))
              (mk_DAG 0 (repeat x01 8) Malloced))
    as (w1 & Hrun & Hp & _).
  - reflexivity.
  - reflexivity.
  - vm_compute. reflexivity.
  - reflexivity.
  - exists w1. split; [exact Hrun | exact Hp].
Defined.

Lemma X4_updateDAG_leaves_cache_alone_witness :
  paramsAndCache (pow Toy.w_built) = paramsAndCache (pow Toy.w_grown) /\
  exists d,
    dag (pow Toy.w_built) = Some d /\
    DAG_SeedBlockNum d = PAC_SeedBlockNum (paramsAndCache (pow Toy.w_grown)).
Proof.
  destruct (@X4_updateDAG_leaves_cache_alone Toy.lib Toy.w_grown Toy.w_built)
    as (Hp & _ & _ & _ & _ & _ & _ & d & Hdag & Hcase).
  - vm_compute. reflexivity.
  - split; [exact Hp |]. exists d. split; [exact Hdag | exact Hcase].
Defined.

Lemma X5_updateDAG_idempotent_when_cache_current_witness :
  exists w2,
    @updateDAG Toy.lib (world_of (@updateDAG Toy.lib (Toy.boot 0 None))) = Ret tt w2 /\
    disk w2 = disk (world_of (@updateDAG Toy.lib (Toy.boot 0 None))).
Proof.
  destruct (@X5_updateDAG_idempotent_when_cache_current Toy.lib
              (Toy.boot 0 None) (world_of (@updateDAG Toy.lib (Toy.boot 0 None))))
    as (w2 & Hrun & _ & Hdk & _).
  - vm_compute. reflexivity.
  - reflexivity.
  - exists w2. split; [exact Hrun | exact Hdk].
Defined.


Lemma X7_written_file_is_read_back_witness :
  exists w1,
    @updateDAG Toy.lib (Toy.boot 0 None) = Ret tt w1 /\
    disk w1 = Some (PutUint64 0 ++ repeat x01 8).
Proof.
  destruct (@X7_written_file_is_read_back Toy.lib (Toy.boot 0 None))
    as (w1 & Hrun & Hfile & _).
  - reflexivity.
  - reflexivity.
  - vm_compute. reflexivity.
  - intros d Hdag. vm_compute in Hdag. discriminate Hdag.
  - reflexivity.
  - vm_compute. split; [discriminate | reflexivity].
  - vm_compute. split; reflexivity.
  - exists w1. split; [exact Hrun | exact Hfile].
Defined.


Lemma X9_file_at_or_above_target_is_adopted_witness :
  exists w1,
    @updateDAG Toy.lib Toy.w_second_pass = Ret tt w1 /\
    dag (pow w1) = Some (mk_DAG 30000 (repeat x01 8) GoMemory).
Proof.
  destruct (@X9_file_at_or_above_target_is_adopted Toy.lib Toy.w_second_pass
              (PutUint64 30000 ++ repeat x01 8))
    as (w1 & Hrun & Hdag & _).
  - reflexivity.
  - reflexivity.
  - vm_compute. reflexivity.
  - intros d Hdag. vm_compute in Hdag. inversion Hdag. reflexivity.
  - vm_compute. reflexivity.
  - cbn. lia.
  - vm_compute. discriminate.
  - exists w1. split; [exact Hrun | exact Hdag].
Defined.

Lemma X10_header_only_file_panics_witness :
  exists w1, @updateDAG Toy.lib (Toy.boot 0 (Some (PutUint64 0))) = Panic w1.
Proof.
  destruct (@X10_header_only_file_panics Toy.lib (Toy.boot 0 (Some (PutUint64 0)))
              (PutUint64 0))
    as (Hpanic & _).
  - reflexivity.
  - reflexivity.
  - vm_compute. reflexivity.
  - reflexivity.
  - reflexivity.
  - vm_compute. discriminate.
  - destruct Hpanic as (w1 & Hrun & _).
    + intros d Hdag. vm_compute in Hdag. discriminate Hdag.
    + exists w1. exact Hrun.
Defined.

Lemma X26_adopted_dag_faults_at_next_epoch_witness :
  exists w1,
    @updateDAG Toy.lib Toy.w_second_pass = Ret tt w1 /\
    @updateDAG Toy.lib (set_head w1 60001)
    = Fault (acquire DagMutex (acquire CacheMutex (set_head w1 60001))).
Proof.
  apply (@X26_adopted_dag_faults_at_next_epoch Toy.lib Toy.w_second_pass
           (PutUint64 30000 ++ repeat x01 8) 60001).
  - reflexivity.
  - reflexivity.
  - vm_compute. reflexivity.
  - intros d Hdag. vm_compute in Hdag. inversion Hdag. reflexivity.
  - vm_compute. reflexivity.
  - cbn. lia.
  - vm_compute. discriminate.
  - vm_compute. discriminate.
Defined.

Lemma X11_updateDAG_panic_keeps_mutexes_locked_witness :
  @updateCache Toy.lib Toy.chain (world_of (@updateDAG Toy.lib Toy.w_truncated))
  = Blocked (world_of (@updateDAG Toy.lib Toy.w_truncated)).
Proof.
  destruct (@X11_updateDAG_panic_keeps_mutexes_locked Toy.lib Toy.chain
              Toy.w_truncated (world_of (@updateDAG Toy.lib Toy.w_truncated)))
    as (_ & _ & _ & Hblocked & _).
  - vm_compute. reflexivity.
  - exact Hblocked.
Defined.

Lemma X12_Search_returns_first_hit_witness :
  exists mix s w',
    @Search Toy.lib Toy.chain (mk_SearchEnv (fun _ => false) 254 (fun _ => 1000)) 5
      (Toy.block 0 (2 ^ 255)) (Toy.boot 0 None)
    = Ret (256, mix, s) w'.
Proof.
  destruct (@X12_Search_returns_first_hit Toy.lib Toy.chain
              (mk_SearchEnv (fun _ => false) 254 (fun _ => 1000))
              (Toy.block 0 (2 ^ 255)) 5 2 (Toy.boot 0 None)
              (world_of (@updateDAG Toy.lib (Toy.boot 0 None)))
              (mk_DAG 0 (repeat x01 8) Malloced) x2a [] 2)
    as (w' & Hrun & _).
  - vm_compute. reflexivity.
  - vm_compute. reflexivity.
  - reflexivity.
  - vm_compute. reflexivity.
  - intros i _. reflexivity.
  - intros i Hi. destruct i as [| [| i]]; [| | lia]; vm_compute; reflexivity.
  - vm_compute. discriminate.
  - lia.
  - eexists. eexists. exists w'. exact Hrun.
Defined.

Lemma X13_Search_unlocks_on_return_and_panic_witness :
  exists w',
    @Search Toy.lib Toy.chain Toy.never_stop 5 (Toy.block 0 0) (Toy.boot 0 None)
    = Panic w' /\
    pow w' = pow (world_of (@updateDAG Toy.lib (Toy.boot 0 None))).
Proof.
  destruct (@X13_Search_unlocks_on_return_and_panic Toy.lib Toy.chain
              Toy.never_stop 5 (Toy.block 0 0) (Toy.boot 0 None)
              (world_of (@updateDAG Toy.lib (Toy.boot 0 None))))
    as (_ & Hpanic).
  - vm_compute. reflexivity.
  - destruct Hpanic as (w' & Hrun & Hpow & _); [right; reflexivity |].
    exists w'. split; [exact Hrun | exact Hpow].
Defined.

Lemma X14_verify_old_block_builds_private_cache_witness :
  exists b w',
    @verify Toy.lib Toy.chain [x2a] [] 1 5 7 Toy.w_second_pass = Ret b w' /\
    paramsAndCache (pow w') = paramsAndCache (pow Toy.w_second_pass).
Proof.
  destruct (@X14_verify_old_block_builds_private_cache Toy.lib Toy.chain
              x2a [] [] 1 5 7 (2 ^ 256) Toy.w_second_pass)
    as (pAc & w' & _ & Hrun & _ & _ & Hpow & _).
  - vm_compute. reflexivity.
  - vm_compute. reflexivity.
  - vm_compute. discriminate.
  - eexists. exists w'. split; [exact Hrun |].
    rewrite Hpow. destruct (pow Toy.w_second_pass). reflexivity.
Defined.

Lemma X15_verify_current_block_uses_cache_of_chain_head_witness :
  exists b w',
    @verify Toy.lib Toy.chain [x2a] [] 1 90000 7 Toy.w_grown = Ret b w' /\
    PAC_SeedBlockNum (paramsAndCache (pow w')) = 30000.
Proof.
  destruct (@X15_verify_current_block_uses_cache_of_chain_head Toy.lib Toy.chain
              x2a [] [] 1 90000 7 (2 ^ 256) Toy.w_grown)
    as (w' & Hrun & _ & Hepoch & _).
  - vm_compute. reflexivity.
  - vm_compute. discriminate.
  - reflexivity.
  - intros _. vm_compute. discriminate.
  - eexists. exists w'. split; [exact Hrun | exact Hepoch].
Defined.

Lemma X16_Verify_panics_on_empty_hash_or_zero_difficulty_witness :
  @Verify Toy.lib Toy.chain (Toy.block 0 0) (Toy.boot 0 None)
  = Panic (Toy.boot 0 None).
Proof.
  apply (@X16_Verify_panics_on_empty_hash_or_zero_difficulty Toy.lib Toy.chain
           (Toy.block 0 0) (Toy.boot 0 None)).
  - reflexivity.
  - right. reflexivity.
Defined.

Lemma X17_New_builds_cache_of_chain_head_witness :
  exists w1,
    @New Toy.lib Toy.chain (mk_World 60001 None [] Toy.blank []) = Ret tt w1 /\
    PAC_SeedBlockNum (paramsAndCache (pow w1)) = 60000 /\
    @sizes_match Toy.lib (pow w1) = true.
Proof.
  destruct (@X17_New_builds_cache_of_chain_head Toy.lib Toy.chain
              (mk_World 60001 None [] Toy.blank []))
    as (w1 & Hrun & Hepoch & _ & Hsize & _).
  - vm_compute. discriminate.
  - exists w1. split; [exact Hrun |]. split; [exact Hepoch | exact Hsize].
Defined.

Lemma X18_updateCache_panics_on_empty_seed_hash_witness :
  exists w1,
    @updateCache Toy.lib (Build_ChainManager (fun _ => None)) Toy.w_grown = Panic w1 /\
    cacheMutex (pow w1) = true.
Proof.
  destruct (@X18_updateCache_panics_on_empty_seed_hash Toy.lib
              (Build_ChainManager (fun _ => None)) Toy.w_grown)
    as (w1 & Hrun & Hlocked & _).
  - reflexivity.
  - vm_compute. discriminate.
  - reflexivity.
  - exists w1. split; [exact Hrun | exact Hlocked].
Defined.

Lemma X19_Stop_frees_cache_and_dag_witness :
  exists w1,
    Stop (world_of (@updateDAG Toy.lib (Toy.boot 0 None))) = Ret tt w1 /\
    dag (pow w1) = Some (mk_DAG 0 (repeat x01 8) Freed) /\
    mem_block (PAC_cache (paramsAndCache (pow w1))) = Freed.
Proof.
  destruct (X19_Stop_frees_cache_and_dag
              (world_of (@updateDAG Toy.lib (Toy.boot 0 None))) eq_refl eq_refl)
    as (_ & _ & _ & _ & w1 & Hrun & Hpow & _).
  exists w1. split; [exact Hrun |]. rewrite Hpow. split; reflexivity.
Defined.

Lemma X20_FullHash_digest_of_held_dag_witness :
  exists w',
    @FullHash Toy.lib 7 [x2a] (Toy.boot 0 None) = Ret (Toy.digest 7) w'.
Proof.
  destruct (@X20_FullHash_digest_of_held_dag Toy.lib 7 (Toy.boot 0 None)
              (world_of (@updateDAG Toy.lib (Toy.boot 0 None))))
    as (d & _ & Hrun & _).
  - vm_compute. reflexivity.
  - destruct (Hrun x2a []) as (w' & Hfull & _).
    exists w'. exact Hfull.
Defined.

Lemma X21_verify_accepts_what_LightHash_returns_witness :
  exists h wl wv,
    @LightHash Toy.lib 7 [x2a] (Toy.boot 0 None) = Ret h wl /\
    @verify Toy.lib Toy.chain [x2a] [] 1 0 7 (Toy.boot 0 None)
    = Ret (Bytes2Big h <=? 2 ^ 256) wv.
Proof.
  destruct (@X21_verify_accepts_what_LightHash_returns Toy.lib Toy.chain
              x2a [] [] 1 0 7 (2 ^ 256) (Toy.boot 0 None))
    as (h & wl & wv & Hlight & _ & Hver & _).
  - vm_compute. reflexivity.
  - vm_compute. discriminate.
  - reflexivity.
  - reflexivity.
  - exists h, wl, wv. split; [exact Hlight | exact Hver].
Defined.

Lemma X22_returning_calls_restore_both_mutexes_witness :
  cacheMutex (pow (world_of (@updateCache Toy.lib Toy.chain Toy.w_grown)))
  = cacheMutex (pow Toy.w_grown).
Proof.
  destruct (@X22_returning_calls_restore_both_mutexes Toy.lib Toy.chain
              Toy.w_grown (world_of (@updateCache Toy.lib Toy.chain Toy.w_grown)))
    as (Hcache & _).
  destruct Hcache as [_ Hc]; [vm_compute; reflexivity |].
  exact Hc.
Defined.

Lemma X23_FullHash_confirms_Search_witness :
  exists n mix s w' h w'',
    @Search Toy.lib Toy.chain (mk_SearchEnv (fun _ => false) 254 (fun _ => 1000)) 5
      (Toy.block 0 (2 ^ 255)) (Toy.boot 0 None)
    = Ret (n, Some mix, s) w' /\
    @FullHash Toy.lib n [x2a] w' = Ret h w'' /\
    Bytes2Big h <= 2.
Proof.
  destruct (@X23_FullHash_confirms_Search Toy.lib Toy.chain
              (mk_SearchEnv (fun _ => false) 254 (fun _ => 1000))
              (Toy.block 0 (2 ^ 255)) 5 2 (Toy.boot 0 None)
              (world_of (@updateDAG Toy.lib (Toy.boot 0 None)))
              (mk_DAG 0 (repeat x01 8) Malloced) x2a [] 2)
    as (n & mix & s & w' & h & w'' & Hrun & Hfull & _ & Hle & _).
  - vm_compute. reflexivity.
  - reflexivity.
  - vm_compute. reflexivity.
  - reflexivity.
  - vm_compute. reflexivity.
  - intros i _. reflexivity.
  - intros i Hi. destruct i as [| [| i]]; [| | lia]; vm_compute; reflexivity.
  - vm_compute. discriminate.
  - lia.
  - exists n, mix, s, w', h, w''. split; [exact Hrun |]. split; [exact Hfull | exact Hle].
Defined.

Lemma X24_parseNonce_decodes_or_fails_witness :
  parseNonce [xac; x02; xff] = (300, false).
Proof.
  assert (Hcs : Forall continues [xac]).
  { constructor; [| constructor]. unfold continues. vm_compute. discriminate. }
  assert (Ht : byte_to_Z x02 < 128) by (vm_compute; reflexivity).
  destruct (X24_parseNonce_decodes_or_fails [xac] [xff] x02 Hcs Ht) as (Hok & _).
  change (parseNonce ([xac] ++ x02 :: [xff]) = (uvarint_value ([xac] ++ [x02]), false)).
  apply Hok. left. cbn. lia.
Defined.

Lemma X25_build_paths_keep_buffer_sizes_witness :
  @sizes_match Toy.lib (pow (world_of (@updateCache Toy.lib Toy.chain Toy.w_grown))) = true.
Proof.
  destruct (@X25_build_paths_keep_buffer_sizes Toy.lib Toy.chain
              Toy.w_grown (world_of (@updateCache Toy.lib Toy.chain Toy.w_grown)))
    as (Hcache & _).
  - reflexivity.
  - vm_compute. reflexivity.
  - destruct Hcache as [_ Hs]; [vm_compute; reflexivity |].
    exact Hs.
Defined.
